(** * websockets-solid-server: presence, reactions and broadcast core

    A shallow embedding of the TypeScript sources

    - [src/core/connection/ConnectionManager.ts]
    - [src/core/room/RoomManager.ts]
    - [src/core/reaction/ReactionManager.ts]
    - [src/core/server/WebSocketServer.ts]
    - [src/router/MessageRouter.ts]
    - [src/handlers/*.ts]

    and the properties of these components.

    Conventions of the embedding.

    - A JavaScript [Map] that the code never iterates (the top-level tables
      [rooms], [socketToRooms], [socketToUser], [userToSockets], [reactions],
      [handlers]) is a [gmap string _].
    - A [Map] whose iteration order is observable ([room.users], the
      emoji buckets of one message) is an insertion-ordered association
      list, [JsMap].
    - A [Set] keeps its ECMAScript entry list, deleted entries included
      ([JsSet]): [RoomManager.leaveAllRooms] iterates a set while the
      callback deletes from that very set.
    - [ILogger] calls write to the console and hold no state; they are
      left out.
    - [new Date()] reads a clock oracle carried by the server state. *)

From Stdlib Require Import ZArith String List Bool Lia.
From stdpp Require Import base option list strings gmap fin_maps.

Open Scope string_scope.
Open Scope list_scope.

(** ** JavaScript values used by the sources *)

(** [Date]: milliseconds since the epoch. *)
Definition Date : Type := Z.

(** The result of [Date.prototype.toISOString]: a rendering that
    determines its date. *)
Inductive IsoString : Type :=
| toISOString (d : Date).

(** JavaScript truthiness of a string: only the empty string is falsy. *)
Definition truthy (s : string) : bool := negb (String.eqb s "").

(** [Array.prototype.findIndex]; [None] stands for [-1]. *)
Fixpoint findIndex {A : Type} (p : A -> bool) (l : list A) : option nat :=
  match l with
  | [] => None
  | x :: l' => if p x then Some 0 else S <$> findIndex p l'
  end.

(** [array.splice(index, 1)]. *)
Definition splice1 {A : Type} (index : nat) (l : list A) : list A :=
  take index l ++ drop (S index) l.

(** *** [Set<string>] with its entry list

    ECMAScript keeps the elements of a Set in a list [[SetData]];
    [delete] replaces the element by the marker [empty] (here [None]),
    [add] appends, and [forEach] walks the list by index, re-reading its
    length after every callback. *)
Module JsSet.

Definition t : Type := list (option string).

Definition empty : t := [].

Definition has (x : string) (s : t) : bool :=
  existsb (fun e => match e with Some y => String.eqb y x | None => false end) s.

Definition add (x : string) (s : t) : t :=
  if has x s then s else s ++ [Some x].

Definition del (x : string) (s : t) : t :=
  map (fun e => match e with
                | Some y => if String.eqb y x then None else Some y
                | None => None
                end) s.

(** [Array.from(set)]: the live elements, in insertion order. *)
Definition toArray (s : t) : list string := omap id s.

Definition size (s : t) : nat := length (toArray s).

End JsSet.

(** *** [Map<string, V>] with observable iteration order

    Insertion-ordered entries with pairwise distinct keys; [set] on a
    present key keeps its position, [delete] removes the entry. *)
Module JsMap.

Definition t (V : Type) : Type := list (string * V).

Definition empty {V : Type} : t V := [].

Fixpoint get {V : Type} (k : string) (m : t V) : option V :=
  match m with
  | [] => None
  | (k', v) :: m' => if String.eqb k' k then Some v else get k m'
  end.

Definition has {V : Type} (k : string) (m : t V) : bool :=
  match get k m with Some _ => true | None => false end.

Fixpoint set {V : Type} (k : string) (v : V) (m : t V) : t V :=
  match m with
  | [] => [(k, v)]
  | (k', v') :: m' =>
      if String.eqb k' k then (k, v) :: m' else (k', v') :: set k v m'
  end.

Definition del {V : Type} (k : string) (m : t V) : t V :=
  List.filter (fun e => negb (String.eqb (fst e) k)) m.

Definition size {V : Type} (m : t V) : nat := length m.

Definition keys {V : Type} (m : t V) : list string := map fst m.

Definition values {V : Type} (m : t V) : list V := map snd m.

End JsMap.

(** ** Domain types ([src/types]) *)

Module RoomUser.
Record t : Type := mk {
  socketId : string;
  userId : string;
  username : string;
  joinedAt : Date
}.
End RoomUser.

Module Room.
Record t : Type := mk {
  id : string;
  users : JsMap.t RoomUser.t;
  createdAt : Date
}.
End Room.

Module Reaction.
Record t : Type := mk {
  userId : string;
  username : string;
  emoji : string;
  timestamp : Date
}.
End Reaction.

(** ** [ConnectionManager] *)
Module ConnectionManager.

Record t : Type := mk {
  socketToUser : gmap string string;
  userToSockets : gmap string JsSet.t
}.

Definition init : t := mk ∅ ∅.

Definition addConnection (socketId userId : string) (st : t) : t :=
  let socketToUser' := <[socketId := userId]> (socketToUser st) in
  let userToSockets1 :=
    match userToSockets st !! userId with
    | Some _ => userToSockets st
    | None => <[userId := JsSet.empty]> (userToSockets st)
    end in
  (* [this.userToSockets.get(userId)!.add(socketId)] mutates the set held
     by the map *)
  let userToSockets2 :=
    match userToSockets1 !! userId with
    | Some sockets => <[userId := JsSet.add socketId sockets]> userToSockets1
    | None => userToSockets1
    end in
  mk socketToUser' userToSockets2.

Definition removeConnection (socketId : string) (st : t) : t :=
  let userToSockets' :=
    match socketToUser st !! socketId with
    | Some userId =>
        if truthy userId then
          let m1 :=
            match userToSockets st !! userId with
            | Some sockets =>
                <[userId := JsSet.del socketId sockets]> (userToSockets st)
            | None => userToSockets st
            end in
          match m1 !! userId with
          | Some sockets =>
              if Nat.eqb (JsSet.size sockets) 0 then delete userId m1 else m1
          | None => m1
          end
        else userToSockets st
    | None => userToSockets st
    end in
  mk (delete socketId (socketToUser st)) userToSockets'.

Definition getConnectionsByUser (userId : string) (st : t) : list string :=
  match userToSockets st !! userId with
  | Some sockets => JsSet.toArray sockets
  | None => []
  end.

Definition getUserBySocket (socketId : string) (st : t) : option string :=
  socketToUser st !! socketId.

End ConnectionManager.

(** ** [RoomManager] *)
Module RoomManager.

Record t : Type := mk {
  rooms : gmap string Room.t;
  socketToRooms : gmap string JsSet.t
}.

Definition init : t := mk ∅ ∅.

(** [now] is what [new Date()] returns when the room is created. *)
Definition createRoom (now : Date) (roomId : string) (st : t) : t :=
  match rooms st !! roomId with
  | Some _ => st
  | None =>
      mk (<[roomId := Room.mk roomId JsMap.empty now]> (rooms st))
         (socketToRooms st)
  end.

Definition joinRoom (now : Date) (roomId : string) (user : RoomUser.t)
    (st : t) : t :=
  let st1 :=
    match rooms st !! roomId with
    | Some _ => st
    | None => createRoom now roomId st
    end in
  match rooms st1 !! roomId with
  | None => st1 (* excluded by the creation above: [this.rooms.get(roomId)!] *)
  | Some room =>
      let room' :=
        Room.mk (Room.id room)
                (JsMap.set (RoomUser.socketId user) user (Room.users room))
                (Room.createdAt room) in
      let rooms' := <[roomId := room']> (rooms st1) in
      let s2r1 :=
        match socketToRooms st1 !! RoomUser.socketId user with
        | Some _ => socketToRooms st1
        | None => <[RoomUser.socketId user := JsSet.empty]> (socketToRooms st1)
        end in
      let s2r2 :=
        match s2r1 !! RoomUser.socketId user with
        | Some joined =>
            <[RoomUser.socketId user := JsSet.add roomId joined]> s2r1
        | None => s2r1
        end in
      mk rooms' s2r2
  end.

Definition leaveRoom (roomId socketId : string) (st : t) : t :=
  let rooms' :=
    match rooms st !! roomId with
    | Some room =>
        let users' := JsMap.del socketId (Room.users room) in
        if Nat.eqb (JsMap.size users') 0 then delete roomId (rooms st)
        else <[roomId := Room.mk (Room.id room) users' (Room.createdAt room)]>
               (rooms st)
    | None => rooms st
    end in
  let s2r' :=
    match socketToRooms st !! socketId with
    | Some joined => <[socketId := JsSet.del roomId joined]> (socketToRooms st)
    | None => socketToRooms st
    end in
  mk rooms' s2r'.

(** The body of [rooms.forEach(roomId => this.leaveRoom(roomId, socketId))].
    The local [rooms] aliases the set stored under [socketId] in
    [socketToRooms], which every callback mutates; the entry list is
    therefore re-read from the state at every index. [fuel] bounds the
    number of iterations; [None] means the bound was too small or the
    aliased set was lost. *)
Fixpoint leaveAllRooms_forEach (fuel index : nat) (socketId : string)
    (st : t) : option t :=
  match fuel with
  | 0 => None
  | S fuel' =>
      match socketToRooms st !! socketId with
      | None => None
      | Some entries =>
          match entries !! index with
          | None => Some st
          | Some None => leaveAllRooms_forEach fuel' (S index) socketId st
          | Some (Some roomId) =>
              leaveAllRooms_forEach fuel' (S index) socketId
                (leaveRoom roomId socketId st)
          end
      end
  end.

Definition leaveAllRooms (socketId : string) (st : t) : option t :=
  match socketToRooms st !! socketId with
  | Some entries =>
      match leaveAllRooms_forEach (S (length entries)) 0 socketId st with
      | Some st' => Some (mk (rooms st') (delete socketId (socketToRooms st')))
      | None => None
      end
  | None => Some st
  end.

Definition getRoomUsers (roomId : string) (st : t) : list RoomUser.t :=
  match rooms st !! roomId with
  | Some room => JsMap.values (Room.users room)
  | None => []
  end.

Definition getUserRooms (socketId : string) (st : t) : list string :=
  match socketToRooms st !! socketId with
  | Some joined => JsSet.toArray joined
  | None => []
  end.

Definition roomExists (roomId : string) (st : t) : bool :=
  match rooms st !! roomId with Some _ => true | None => false end.

Definition isUserInRoom (roomId socketId : string) (st : t) : bool :=
  match rooms st !! roomId with
  | Some room => JsMap.has socketId (Room.users room)
  | None => false
  end.

End RoomManager.

(** ** [ReactionManager] *)
Module ReactionManager.

Record t : Type := mk {
  reactions : gmap string (JsMap.t (list Reaction.t))
}.

Definition init : t := mk ∅.

Definition sameUser (userId : string) (r : Reaction.t) : bool :=
  String.eqb (Reaction.userId r) userId.

Definition addReaction (messageId : string) (reaction : Reaction.t)
    (st : t) : t :=
  let reactions1 :=
    match reactions st !! messageId with
    | Some _ => reactions st
    | None => <[messageId := JsMap.empty]> (reactions st)
    end in
  match reactions1 !! messageId with
  | None => mk reactions1
  | Some messageReactions =>
      let messageReactions1 :=
        if JsMap.has (Reaction.emoji reaction) messageReactions
        then messageReactions
        else JsMap.set (Reaction.emoji reaction) [] messageReactions in
      match JsMap.get (Reaction.emoji reaction) messageReactions1 with
      | None => mk (<[messageId := messageReactions1]> reactions1)
      | Some emojiReactions =>
          match findIndex (sameUser (Reaction.userId reaction)) emojiReactions with
          | None =>
              (* [emojiReactions.push(reaction)] on the array held by the map *)
              mk (<[messageId :=
                      JsMap.set (Reaction.emoji reaction)
                        (emojiReactions ++ [reaction]) messageReactions1]>
                    reactions1)
          | Some _ => mk (<[messageId := messageReactions1]> reactions1)
          end
      end
  end.

Definition removeReaction (messageId userId emoji : string) (st : t) : t :=
  match reactions st !! messageId with
  | None => st
  | Some messageReactions =>
      match JsMap.get emoji messageReactions with
      | None => st
      | Some emojiReactions =>
          match findIndex (sameUser userId) emojiReactions with
          | None => st
          | Some index =>
              let emojiReactions' := splice1 index emojiReactions in
              let messageReactions1 :=
                JsMap.set emoji emojiReactions' messageReactions in
              let messageReactions2 :=
                if Nat.eqb (length emojiReactions') 0
                then JsMap.del emoji messageReactions1
                else messageReactions1 in
              if Nat.eqb (JsMap.size messageReactions2) 0
              then mk (delete messageId (reactions st))
              else mk (<[messageId := messageReactions2]> (reactions st))
          end
      end
  end.

Definition getReactions (messageId : string) (st : t)
    : JsMap.t (list Reaction.t) :=
  match reactions st !! messageId with
  | Some messageReactions => messageReactions
  | None => JsMap.empty
  end.

Definition hasUserReacted (messageId userId emoji : string) (st : t) : bool :=
  match reactions st !! messageId with
  | None => false
  | Some messageReactions =>
      match JsMap.get emoji messageReactions with
      | None => false
      | Some emojiReactions => existsb (sameUser userId) emojiReactions
      end
  end.

End ReactionManager.

(** ** Server state, errors and the handler monad *)

(** What a [throw] carries: a plain [Error] with its message, or the
    [ValidationError] subclass with the issues of the failed parse. *)
Definition ZodError : Type := list (list string * string).

Inductive JsError : Type :=
| Error (message : string)
| ValidationError (message : string) (zodError : ZodError).

(** The [{ userId, username }] objects of the outgoing payloads. *)
Module UserRef.
Record t : Type := mk {
  userId : string;
  username : string
}.

Definition ofRoomUser (u : RoomUser.t) : t :=
  mk (RoomUser.userId u) (RoomUser.username u).

Definition ofReaction (r : Reaction.t) : t :=
  mk (Reaction.userId r) (Reaction.username r).
End UserRef.

(** The payload objects the server emits, one constructor per shape. *)
Inductive Payload : Type :=
| RosterPayload (roomId : string) (user : UserRef.t) (users : list UserRef.t)
| ChatPayload (messageId roomId : string) (sender : UserRef.t)
    (message : string) (timestamp : IsoString)
    (reactions : JsMap.t (list UserRef.t))
| ReactionsPayload (messageId roomId : string)
    (reactions : JsMap.t (list UserRef.t))
| TypingPayload (roomId userId username : string) (isTyping : bool).

(** One [io.to(socketId).emit(eventName, data)]. *)
Record Emission : Type := mkEmission {
  to : string;
  eventName : string;
  data : Payload
}.

(** The objects the application wires together. [io] is [None] until
    [start] creates the Socket.IO server, and then holds what was emitted
    so far, oldest first. [clock n] is the value of the [n]-th [new Date()]. *)
Record World : Type := mkWorld {
  connectionManager : ConnectionManager.t;
  roomManager : RoomManager.t;
  reactionManager : ReactionManager.t;
  io : option (list Emission);
  clock : nat -> Date;
  ticks : nat
}.

Definition withConnectionManager (f : ConnectionManager.t -> ConnectionManager.t)
    (w : World) : World :=
  mkWorld (f (connectionManager w)) (roomManager w) (reactionManager w)
          (io w) (clock w) (ticks w).

Definition withRoomManager (f : RoomManager.t -> RoomManager.t)
    (w : World) : World :=
  mkWorld (connectionManager w) (f (roomManager w)) (reactionManager w)
          (io w) (clock w) (ticks w).

Definition withReactionManager (f : ReactionManager.t -> ReactionManager.t)
    (w : World) : World :=
  mkWorld (connectionManager w) (roomManager w) (f (reactionManager w))
          (io w) (clock w) (ticks w).

(** Everything emitted so far ([[]] while there is no server). *)
Definition sent (w : World) : list Emission :=
  match io w with Some out => out | None => [] end.

(** How a call completes. A [throw] keeps the mutations made before it. *)
Inductive Completion (A : Type) : Type :=
| Normal (a : A)
| Throw (e : JsError).
Arguments Normal {A} a.
Arguments Throw {A} e.

Definition M (A : Type) : Type := World -> Completion A * World.

Definition ret {A : Type} (a : A) : M A := fun w => (Normal a, w).

Definition bind {A B : Type} (c : M A) (k : A -> M B) : M B :=
  fun w =>
    match c w with
    | (Normal a, w') => k a w'
    | (Throw e, w') => (Throw e, w')
    end.

Definition throw {A : Type} (e : JsError) : M A := fun w => (Throw e, w).

(** [try { c } catch (error) { h error }]. *)
Definition tryCatch {A : Type} (c : M A) (h : JsError -> M A) : M A :=
  fun w =>
    match c w with
    | (Normal a, w') => (Normal a, w')
    | (Throw e, w') => h e w'
    end.

Definition read {A : Type} (f : World -> A) : M A := fun w => (Normal (f w), w).

Definition update (f : World -> World) : M unit := fun w => (Normal tt, f w).

(** [new Date()]. *)
Definition newDate : M Date :=
  fun w =>
    (Normal (clock w (ticks w)),
     mkWorld (connectionManager w) (roomManager w) (reactionManager w)
             (io w) (clock w) (S (ticks w))).

Notation "'let!' x ':=' c 'in' k" := (bind c (fun x => k))
  (at level 10, x name, c at level 100, k at level 200).
Notation "'do!' c 'in' k" := (bind c (fun _ => k))
  (at level 10, c at level 100, k at level 200).

(** ** [WebSocketServer] *)
Module WebSocketServer.

(** [start]: from here on [io] is a server (the listening socket is the
    transport's). *)
Definition start (w : World) : World :=
  mkWorld (connectionManager w) (roomManager w) (reactionManager w)
          (Some []) (clock w) (ticks w).

(** [this.io?.to(socketId).emit(eventName, data)]. *)
Definition emitTo (socketId eventName : string) (data : Payload)
    (w : World) : World :=
  match io w with
  | Some out =>
      mkWorld (connectionManager w) (roomManager w) (reactionManager w)
              (Some (out ++ [mkEmission socketId eventName data]))
              (clock w) (ticks w)
  | None => w
  end.

(** The test [!excludeSocketId || user.socketId !== excludeSocketId];
    an absent and an empty [excludeSocketId] are both falsy. *)
Definition notExcluded (excludeSocketId : option string)
    (user : RoomUser.t) : bool :=
  match excludeSocketId with
  | None => true
  | Some ex =>
      negb (truthy ex) || negb (String.eqb (RoomUser.socketId user) ex)
  end.

Definition broadcastToRoom (roomId eventName : string) (data : Payload)
    (excludeSocketId : option string) (w : World) : World :=
  let users := RoomManager.getRoomUsers roomId (roomManager w) in
  fold_left
    (fun w user =>
       if notExcluded excludeSocketId user
       then emitTo (RoomUser.socketId user) eventName data w
       else w)
    users w.

Definition emitToUser (userId eventName : string) (data : Payload)
    (w : World) : World :=
  let socketIds :=
    ConnectionManager.getConnectionsByUser userId (connectionManager w) in
  fold_left (fun w socketId => emitTo socketId eventName data w) socketIds w.

(** [handleConnection], up to the registration of the listeners:
    [userId = socket.handshake.auth.userId || socket.id]. *)
Definition handleConnection (socketId : string) (authUserId : option string)
    (w : World) : World :=
  let userId :=
    match authUserId with
    | Some u => if truthy u then u else socketId
    | None => socketId
    end in
  withConnectionManager (ConnectionManager.addConnection socketId userId) w.

(** The callback of [rooms.forEach] in [handleDisconnect]. *)
Definition handleDisconnect_room (socketId : string) (w : World)
    (roomId : string) : World :=
  let users := RoomManager.getRoomUsers roomId (roomManager w) in
  let leavingUser :=
    List.find (fun u => String.eqb (RoomUser.socketId u) socketId) users in
  let w1 := withRoomManager (RoomManager.leaveRoom roomId socketId) w in
  match leavingUser with
  | Some leavingUser =>
      broadcastToRoom roomId "room:user_left"
        (RosterPayload roomId (UserRef.ofRoomUser leavingUser)
           (map UserRef.ofRoomUser
              (RoomManager.getRoomUsers roomId (roomManager w1))))
        None w1
  | None => w1
  end.

(** The loop of [handleDisconnect] over the array [rooms]. *)
Definition handleDisconnect_rooms (socketId : string) (rooms : list string)
    (w : World) : World :=
  fold_left (handleDisconnect_room socketId) rooms w.

Definition handleDisconnect (socketId : string) (w : World) : World :=
  let rooms := RoomManager.getUserRooms socketId (roomManager w) in
  let w1 := handleDisconnect_rooms socketId rooms w in
  withConnectionManager (ConnectionManager.removeConnection socketId) w1.

End WebSocketServer.

(** ** Validated payloads ([src/schemas]) *)

Module JoinRoom.
Record t : Type := mk { roomId : string; username : string }.
End JoinRoom.

Module LeaveRoom.
Record t : Type := mk { roomId : string }.
End LeaveRoom.

Module ChatMessage.
Record t : Type := mk {
  message : string;
  roomId : string;
  messageId : string;
  timestamp : option string
}.
End ChatMessage.

Module MessageReaction.
Record t : Type := mk { messageId : string; roomId : string; emoji : string }.
End MessageReaction.

Module TypingIndicator.
Record t : Type := mk { roomId : string; isTyping : bool }.
End TypingIndicator.

Module PingMessage.
Record t : Type := mk { timestamp : string }.
End PingMessage.

(** A zod schema, seen through [safeParse]: the issues, or the parsed
    data. The parser itself belongs to the zod library. *)
Definition ZodSchema (Raw T : Type) : Type := Raw -> ZodError + T.

(** ** Handlers *)

Module BaseMessageHandler.

(** A concrete handler: the schema it hands to the base constructor, if
    any, and its [execute]. Without a schema [execute] receives the raw
    data. *)
Inductive t (Raw : Type) : Type :=
| WithSchema {T : Type} (schema : ZodSchema Raw T)
    (execute : string -> string -> T -> M unit)
| WithoutSchema (execute : string -> string -> Raw -> M unit).
Arguments WithSchema {Raw T} schema execute.
Arguments WithoutSchema {Raw} execute.

Definition handle {Raw : Type} (h : t Raw) (socketId eventName : string)
    (data : Raw) : M unit :=
  match h with
  | WithSchema schema execute =>
      match schema data with
      | inl zodError => throw (ValidationError "Invalid data format" zodError)
      | inr parsed => execute socketId eventName parsed
      end
  | WithoutSchema execute => execute socketId eventName data
  end.

End BaseMessageHandler.

Definition findBySocket (socketId : string) (users : list RoomUser.t)
    : option RoomUser.t :=
  List.find (fun u => String.eqb (RoomUser.socketId u) socketId) users.

Module JoinRoomHandler.

(** The second clock reading is the [new Date()] of
    [RoomManager.createRoom]; it is used only when the room is created. *)
Definition execute (socketId _eventName : string) (data : JoinRoom.t)
    : M unit :=
  let! joinedAt := newDate in
  let user := RoomUser.mk socketId socketId (JoinRoom.username data) joinedAt in
  let! createdAt := newDate in
  do! update (withRoomManager
            (RoomManager.joinRoom createdAt (JoinRoom.roomId data) user)) in
  let! users := read (fun w =>
             RoomManager.getRoomUsers (JoinRoom.roomId data) (roomManager w)) in
  update (WebSocketServer.broadcastToRoom (JoinRoom.roomId data)
            "room:user_joined"
            (RosterPayload (JoinRoom.roomId data) (UserRef.ofRoomUser user)
               (map UserRef.ofRoomUser users))
            None).

End JoinRoomHandler.

Module LeaveRoomHandler.

Definition execute (socketId _eventName : string) (data : LeaveRoom.t)
    : M unit :=
  let! users := read (fun w =>
             RoomManager.getRoomUsers (LeaveRoom.roomId data) (roomManager w)) in
  let leavingUser := findBySocket socketId users in
  do! update (withRoomManager
            (RoomManager.leaveRoom (LeaveRoom.roomId data) socketId)) in
  match leavingUser with
  | Some leavingUser =>
      let! remaining := read (fun w =>
                     RoomManager.getRoomUsers (LeaveRoom.roomId data)
                       (roomManager w)) in
      update (WebSocketServer.broadcastToRoom (LeaveRoom.roomId data)
                "room:user_left"
                (RosterPayload (LeaveRoom.roomId data)
                   (UserRef.ofRoomUser leavingUser)
                   (map UserRef.ofRoomUser remaining))
                None)
  | None => ret tt
  end.

End LeaveRoomHandler.

Module ChatMessageHandler.

Definition execute (socketId _eventName : string) (data : ChatMessage.t)
    : M unit :=
  let! inRoom := read (fun w =>
              RoomManager.isUserInRoom (ChatMessage.roomId data) socketId
                (roomManager w)) in
  if negb inRoom then throw (Error "User not in room") else
  let! users := read (fun w =>
             RoomManager.getRoomUsers (ChatMessage.roomId data) (roomManager w)) in
  match findBySocket socketId users with
  | None => throw (Error "Sender not found")
  | Some sender =>
      let! now := newDate in
      update (WebSocketServer.broadcastToRoom (ChatMessage.roomId data)
                "chat:message"
                (ChatPayload (ChatMessage.messageId data)
                   (ChatMessage.roomId data)
                   (UserRef.ofRoomUser sender)
                   (ChatMessage.message data)
                   (toISOString now)
                   JsMap.empty)
                None)
  end.

End ChatMessageHandler.

Module MessageReactionHandler.

(** [messageReactions.forEach((reactions, emoji) =>
      reactionsFormatted[emoji] = reactions.map(...))]. *)
Definition format (messageReactions : JsMap.t (list Reaction.t))
    : JsMap.t (list UserRef.t) :=
  fold_left
    (fun reactionsFormatted entry =>
       JsMap.set (fst entry) (map UserRef.ofReaction (snd entry))
         reactionsFormatted)
    messageReactions JsMap.empty.

Definition execute (socketId _eventName : string) (data : MessageReaction.t)
    : M unit :=
  let! inRoom := read (fun w =>
              RoomManager.isUserInRoom (MessageReaction.roomId data) socketId
                (roomManager w)) in
  if negb inRoom then throw (Error "User not in room") else
  let! users := read (fun w =>
             RoomManager.getRoomUsers (MessageReaction.roomId data)
               (roomManager w)) in
  match findBySocket socketId users with
  | None => throw (Error "User not found")
  | Some user =>
      let! hasReacted := read (fun w =>
                      ReactionManager.hasUserReacted
                        (MessageReaction.messageId data)
                        (RoomUser.userId user)
                        (MessageReaction.emoji data)
                        (reactionManager w)) in
      do! (if hasReacted : bool then
         update (withReactionManager
                   (ReactionManager.removeReaction
                      (MessageReaction.messageId data)
                      (RoomUser.userId user)
                      (MessageReaction.emoji data)))
       else
         let! now := newDate in
         let reaction :=
           Reaction.mk (RoomUser.userId user) (RoomUser.username user)
             (MessageReaction.emoji data) now in
         update (withReactionManager
                   (ReactionManager.addReaction
                      (MessageReaction.messageId data) reaction))) in
      let! messageReactions := read (fun w =>
                            ReactionManager.getReactions
                              (MessageReaction.messageId data)
                              (reactionManager w)) in
      update (WebSocketServer.broadcastToRoom (MessageReaction.roomId data)
                "message:reaction_updated"
                (ReactionsPayload (MessageReaction.messageId data)
                   (MessageReaction.roomId data)
                   (format messageReactions))
                None)
  end.

End MessageReactionHandler.

Module TypingIndicatorHandler.

Definition execute (socketId _eventName : string) (data : TypingIndicator.t)
    : M unit :=
  let! inRoom := read (fun w =>
              RoomManager.isUserInRoom (TypingIndicator.roomId data) socketId
                (roomManager w)) in
  if negb inRoom then throw (Error "User not in room") else
  let! users := read (fun w =>
             RoomManager.getRoomUsers (TypingIndicator.roomId data)
               (roomManager w)) in
  match findBySocket socketId users with
  | None => throw (Error "Typer not found")
  | Some typer =>
      update (WebSocketServer.broadcastToRoom (TypingIndicator.roomId data)
                "room:typing"
                (TypingPayload (TypingIndicator.roomId data)
                   (RoomUser.userId typer) (RoomUser.username typer)
                   (TypingIndicator.isTyping data))
                (Some socketId))
  end.

End TypingIndicatorHandler.

Module PingMessageHandler.

Definition execute (socketId _eventName : string) (data : PingMessage.t)
    : M unit :=
  ret tt.

End PingMessageHandler.

(** ** [MessageRouter] *)
Module MessageRouter.

(** [IMessageHandler]: an object with a [handle] method. *)
Abbreviation IMessageHandler Raw := (string -> string -> Raw -> M unit)
  (only parsing).

Record t (Raw : Type) : Type := mk {
  handlers : gmap string (IMessageHandler Raw)
}.
Arguments mk {Raw} handlers.
Arguments handlers {Raw} _.

Definition init {Raw : Type} : t Raw := mk ∅.

Definition registerHandler {Raw : Type} (eventName : string)
    (handler : IMessageHandler Raw) (r : t Raw) : t Raw :=
  mk (<[eventName := handler]> (handlers r)).

Definition noHandlerError (eventName : string) : JsError :=
  Error ("No handler registered for event: " +:+ eventName).

Definition route {Raw : Type} (r : t Raw) (socketId eventName : string)
    (data : Raw) : M unit :=
  match handlers r !! eventName with
  | None => throw (noHandlerError eventName)
  | Some handler =>
      tryCatch (handler socketId eventName data) (fun error => throw error)
  end.

End MessageRouter.

(** ** [Application]: the handler table *)
Module Application.

(** The six schema constants of [src/schemas]. *)
Record Schemas (Raw : Type) : Type := mkSchemas {
  JoinRoomSchema : ZodSchema Raw JoinRoom.t;
  LeaveRoomSchema : ZodSchema Raw LeaveRoom.t;
  ChatMessageSchema : ZodSchema Raw ChatMessage.t;
  MessageReactionSchema : ZodSchema Raw MessageReaction.t;
  PingSchema : ZodSchema Raw PingMessage.t;
  TypingSchema : ZodSchema Raw TypingIndicator.t
}.
Arguments JoinRoomSchema {Raw} _.
Arguments LeaveRoomSchema {Raw} _.
Arguments ChatMessageSchema {Raw} _.
Arguments MessageReactionSchema {Raw} _.
Arguments PingSchema {Raw} _.
Arguments TypingSchema {Raw} _.

Definition handlerOf {Raw T : Type} (schema : ZodSchema Raw T)
    (execute : string -> string -> T -> M unit)
    : MessageRouter.IMessageHandler Raw :=
  BaseMessageHandler.handle (BaseMessageHandler.WithSchema schema execute).

Definition messageRouter {Raw : Type} (s : Schemas Raw)
    : MessageRouter.t Raw :=
  MessageRouter.registerHandler "room:typing"
    (handlerOf (TypingSchema s) TypingIndicatorHandler.execute)
  (MessageRouter.registerHandler "ping"
    (handlerOf (PingSchema s) PingMessageHandler.execute)
  (MessageRouter.registerHandler "message:reaction"
    (handlerOf (MessageReactionSchema s) MessageReactionHandler.execute)
  (MessageRouter.registerHandler "chat:message"
    (handlerOf (ChatMessageSchema s) ChatMessageHandler.execute)
  (MessageRouter.registerHandler "leave:room"
    (handlerOf (LeaveRoomSchema s) LeaveRoomHandler.execute)
  (MessageRouter.registerHandler "join:room"
    (handlerOf (JoinRoomSchema s) JoinRoomHandler.execute)
    MessageRouter.init))))).

(** The state built by the constructor: empty managers, no server yet. *)
Definition initial (clock : nat -> Date) : World :=
  mkWorld ConnectionManager.init RoomManager.init ReactionManager.init
          None clock 0.

End Application.


(** * States the operations can produce, and their invariants *)

(** ** Reaction index *)

(** States of the reaction index built by [addReaction] and
    [removeReaction] from the empty index. *)
Inductive ReactionReachable : ReactionManager.t -> Prop :=
| ReactionReachable_init :
    ReactionReachable ReactionManager.init
| ReactionReachable_add (messageId : string) (reaction : Reaction.t) st :
    ReactionReachable st ->
    ReactionReachable (ReactionManager.addReaction messageId reaction st)
| ReactionReachable_remove (messageId userId emoji : string) st :
    ReactionReachable st ->
    ReactionReachable (ReactionManager.removeReaction messageId userId emoji st).

(** The bucket of [(messageId, emoji)]; empty when there is none. *)
Definition bucketOf (messageId emoji : string) (st : ReactionManager.t)
    : list Reaction.t :=
  match ReactionManager.reactions st !! messageId with
  | Some messageReactions =>
      match JsMap.get emoji messageReactions with
      | Some emojiReactions => emojiReactions
      | None => []
      end
  | None => []
  end.

(** A stored bucket is non-empty, holds records of its own emoji only,
    and at most one per user. *)
Definition bucketOk (emoji : string) (l : list Reaction.t) : Prop :=
  l <> [] /\
  NoDup (map Reaction.userId l) /\
  Forall (fun r => Reaction.emoji r = emoji) l.

(** A stored message entry is non-empty and its buckets are in order. *)
Definition messageOk (m : JsMap.t (list Reaction.t)) : Prop :=
  m <> [] /\
  NoDup (JsMap.keys m) /\
  forall e l, (e, l) ∈ m -> bucketOk e l.

Definition reactionsOk (st : ReactionManager.t) : Prop :=
  forall messageId m,
    ReactionManager.reactions st !! messageId = Some m -> messageOk m.

(** All records of a message, bucket after bucket. *)
Definition allReactions (m : JsMap.t (list Reaction.t)) : list Reaction.t :=
  concat (JsMap.values m).



(** The change [MessageReactionHandler.execute] makes to the reaction
    index for the room member [user]: remove the record when
    [hasUserReacted] says there is one, add one stamped [now] otherwise. *)
Definition toggleReaction (messageId emoji : string) (user : RoomUser.t)
    (now : Date) (st : ReactionManager.t) : ReactionManager.t :=
  if ReactionManager.hasUserReacted messageId (RoomUser.userId user) emoji st
  then ReactionManager.removeReaction messageId (RoomUser.userId user) emoji st
  else ReactionManager.addReaction messageId
         (Reaction.mk (RoomUser.userId user) (RoomUser.username user) emoji now)
         st.


(** ** Broadcasts *)

(** One emission of [(eventName, data)] per socket id, in order. *)
Definition deliveries (eventName : string) (data : Payload)
    (socketIds : list string) : list Emission :=
  map (fun socketId => mkEmission socketId eventName data) socketIds.

(** The socket ids [broadcastToRoom] emits to, given the roster it read. *)
Definition recipients (excludeSocketId : option string)
    (users : list RoomUser.t) : list string :=
  map RoomUser.socketId
    (List.filter (WebSocketServer.notExcluded excludeSocketId) users).


(** ** Room registry *)

(** States of the room registry built by its four mutators from the
    empty registry. *)
Inductive RoomReachable : RoomManager.t -> Prop :=
| RoomReachable_init :
    RoomReachable RoomManager.init
| RoomReachable_createRoom (now : Date) (roomId : string) st :
    RoomReachable st ->
    RoomReachable (RoomManager.createRoom now roomId st)
| RoomReachable_joinRoom (now : Date) (roomId : string) (user : RoomUser.t) st :
    RoomReachable st ->
    RoomReachable (RoomManager.joinRoom now roomId user st)
| RoomReachable_leaveRoom (roomId socketId : string) st :
    RoomReachable st ->
    RoomReachable (RoomManager.leaveRoom roomId socketId st)
| RoomReachable_leaveAllRooms (socketId : string) st st' :
    RoomReachable st ->
    RoomManager.leaveAllRooms socketId st = Some st' ->
    RoomReachable st'.

(** The states built without a direct call of [createRoom]: rooms come
    into being through [joinRoom] only. *)
Inductive MembershipReachable : RoomManager.t -> Prop :=
| MembershipReachable_init :
    MembershipReachable RoomManager.init
| MembershipReachable_joinRoom (now : Date) (roomId : string)
    (user : RoomUser.t) st :
    MembershipReachable st ->
    MembershipReachable (RoomManager.joinRoom now roomId user st)
| MembershipReachable_leaveRoom (roomId socketId : string) st :
    MembershipReachable st ->
    MembershipReachable (RoomManager.leaveRoom roomId socketId st)
| MembershipReachable_leaveAllRooms (socketId : string) st st' :
    MembershipReachable st ->
    RoomManager.leaveAllRooms socketId st = Some st' ->
    MembershipReachable st'.

(** [st'] comes from [st] by [leaveRoom] calls of one connection. *)
Inductive LeaveSteps (socketId : string) : RoomManager.t -> RoomManager.t -> Prop :=
| LeaveSteps_refl st : LeaveSteps socketId st st
| LeaveSteps_step (roomId : string) st st' :
    LeaveSteps socketId (RoomManager.leaveRoom roomId socketId st) st' ->
    LeaveSteps socketId st st'.

(** Every member map has distinct keys and stores each user under the
    user's own socket id. *)
Definition membersOk (st : RoomManager.t) : Prop :=
  forall roomId room,
    RoomManager.rooms st !! roomId = Some room ->
    NoDup (JsMap.keys (Room.users room)) /\
    forall k u, (k, u) ∈ Room.users room -> RoomUser.socketId u = k.

(** The live elements of every room-set are distinct. *)
Definition joinedOk (st : RoomManager.t) : Prop :=
  forall socketId joined,
    RoomManager.socketToRooms st !! socketId = Some joined ->
    NoDup (JsSet.toArray joined).

(** A connection is in a room's member map iff the room is in the
    connection's room-set. *)
Definition bidirOk (st : RoomManager.t) : Prop :=
  forall roomId socketId,
    RoomManager.isUserInRoom roomId socketId st = true <->
    roomId ∈ RoomManager.getUserRooms socketId st.

(** No room of the table is empty. *)
Definition noEmptyRoom (st : RoomManager.t) : Prop :=
  forall roomId room,
    RoomManager.rooms st !! roomId = Some room -> Room.users room <> [].

(** In the entry list of the room-set of [socketId], every live element
    sits at [index] or later. *)
Definition liveFrom (index : nat) (socketId : string) (st : RoomManager.t)
    : Prop :=
  forall (entries : JsSet.t) (roomId : string),
    RoomManager.socketToRooms st !! socketId = Some entries ->
    Some roomId ∈ entries ->
    exists j, index <= j /\ entries !! j = Some (Some roomId).


(** What the disconnect of [socketId] emits for [roomId], read off the
    registry [st] before the disconnect: with the leaving user's snapshot
    found, one [room:user_left] carrying the remaining roster to each
    remaining member; nothing otherwise. *)
Definition userLeftDeliveries (socketId : string) (st : RoomManager.t)
    (roomId : string) : list Emission :=
  match findBySocket socketId (RoomManager.getRoomUsers roomId st) with
  | Some leavingUser =>
      let remaining :=
        RoomManager.getRoomUsers roomId
          (RoomManager.leaveRoom roomId socketId st) in
      deliveries "room:user_left"
        (RosterPayload roomId (UserRef.ofRoomUser leavingUser)
           (map UserRef.ofRoomUser remaining))
        (map RoomUser.socketId remaining)
  | None => []
  end.


(** ** A small running system

    Two connections, [s1] (alice) and [s2] (bob), both in room [r1];
    the server is started and nothing has been emitted yet. *)

Definition alice : RoomUser.t := RoomUser.mk "s1" "s1" "alice" 0%Z.

Definition bob : RoomUser.t := RoomUser.mk "s2" "s2" "bob" 1%Z.

Definition exampleRooms : RoomManager.t :=
  RoomManager.joinRoom 1%Z "r1" bob
    (RoomManager.joinRoom 0%Z "r1" alice RoomManager.init).

Definition exampleWorld : World :=
  mkWorld
    (ConnectionManager.addConnection "s2" "s2"
       (ConnectionManager.addConnection "s1" "s1" ConnectionManager.init))
    exampleRooms ReactionManager.init (Some []) (fun n => Z.of_nat n) 2.

Definition exampleReaction : MessageReaction.t :=
  MessageReaction.mk "m1" "r1" "👍".


Definition exampleChat : ChatMessage.t := ChatMessage.mk "hi" "r1" "m1" None.


(** Schemas that reject every payload, for a router over raw strings. *)
Definition rejectingSchemas : Application.Schemas string :=
  Application.mkSchemas string
    (fun _ => inl []) (fun _ => inl []) (fun _ => inl [])
    (fun _ => inl []) (fun _ => inl []) (fun _ => inl []).


(** * The rest of the server: replies to the sender *)

(** [ValidationError.getFormattedErrors]: every issue becomes
    [{ field: issue.path.join('.'), message: issue.message }]. The path
    elements are taken as already rendered strings. *)
Definition getFormattedErrors (zodError : ZodError) : list (string * string) :=
  map (fun issue => (String.concat "." (fst issue), snd issue)) zodError.

(** What the listener of [onAny] emits on the sender's own socket:
    [message:ack], [validation:error] or [error]. *)
Inductive Reply : Type :=
| MessageAck (eventName status : string) (timestamp : IsoString)
| ValidationErrorReply (eventName message : string)
    (errors : list (string * string))
| ErrorReply (eventName message : string).

(** The event name under which a reply is emitted. *)
Definition replyEvent (r : Reply) : string :=
  match r with
  | MessageAck _ _ _ => "message:ack"
  | ValidationErrorReply _ _ _ => "validation:error"
  | ErrorReply _ _ => "error"
  end.

Module SocketListeners.

(** [WebSocketServer.handleError]. *)
Definition handleError (eventName : string) (error : JsError) : Reply :=
  match error with
  | ValidationError _ zodError =>
      ValidationErrorReply eventName "Dados inválidos"
        (getFormattedErrors zodError)
  | Error message => ErrorReply eventName message
  end.

(** The callback given to [socket.onAny] in
    [WebSocketServer.handleConnection]: route the event, then acknowledge
    it or report the error, on the sender's socket. *)
Definition onAny {Raw : Type} (messageRouter : MessageRouter.t Raw)
    (socketId eventName : string) (data : Raw) (w : World) : Reply * World :=
  match MessageRouter.route messageRouter socketId eventName data w with
  | (Normal _, w1) =>
      match newDate w1 with
      | (Normal now, w2) => (MessageAck eventName "success" (toISOString now), w2)
      | (Throw error, w2) => (handleError eventName error, w2)
      end
  | (Throw error, w1) => (handleError eventName error, w1)
  end.

End SocketListeners.

(** The event names [Application] registers a handler for. *)
Definition registeredEvents : list string :=
  ["join:room"; "leave:room"; "chat:message"; "message:reaction"; "ping";
   "room:typing"].

(** States of the connection registry built by [addConnection] and
    [removeConnection] from the empty registry. *)
Inductive ConnReachable : ConnectionManager.t -> Prop :=
| ConnReachable_init :
    ConnReachable ConnectionManager.init
| ConnReachable_add (socketId userId : string) st :
    ConnReachable st ->
    ConnReachable (ConnectionManager.addConnection socketId userId st)
| ConnReachable_remove (socketId : string) st :
    ConnReachable st ->
    ConnReachable (ConnectionManager.removeConnection socketId st).


(** The issues, if any, that the schema registered with an event raises
    on a raw payload; [None] for a payload the schema accepts and for an
    event without handler. *)
Definition schemaIssues {Raw : Type} (s : Application.Schemas Raw)
    (eventName : string) (raw : Raw) : option ZodError :=
  let issues {T : Type} (schema : ZodSchema Raw T) : option ZodError :=
    match schema raw with inl zodError => Some zodError | inr _ => None end in
  if String.eqb eventName "join:room"
  then issues (Application.JoinRoomSchema s)
  else if String.eqb eventName "leave:room"
  then issues (Application.LeaveRoomSchema s)
  else if String.eqb eventName "chat:message"
  then issues (Application.ChatMessageSchema s)
  else if String.eqb eventName "message:reaction"
  then issues (Application.MessageReactionSchema s)
  else if String.eqb eventName "ping"
  then issues (Application.PingSchema s)
  else if String.eqb eventName "room:typing"
  then issues (Application.TypingSchema s)
  else None.

(** Stand-in schemas over raw strings for the running system: the raw
    string is the payload's one free field, and the empty string is
    rejected. *)
Definition exampleSchemas : Application.Schemas string :=
  let required {T : Type} (field : string) (build : string -> T)
      : ZodSchema string T :=
    fun raw =>
      if String.eqb raw "" then inl [([field], "Required")] else inr (build raw) in
  Application.mkSchemas string
    (required "username" (fun raw => JoinRoom.mk "r1" raw))
    (required "roomId" (fun raw => LeaveRoom.mk raw))
    (required "message" (fun raw => ChatMessage.mk raw "r1" "m1" None))
    (required "emoji" (fun raw => MessageReaction.mk "m1" "r1" raw))
    (required "timestamp" (fun raw => PingMessage.mk raw))
    (required "roomId" (fun raw => TypingIndicator.mk raw true)).


(** More of the running system: a third user, two reaction records, the
    reaction index after alice's reaction, a ping, and the server just
    started. *)

Definition carol : RoomUser.t := RoomUser.mk "s3" "s3" "carol" 2%Z.

Definition aliceThumb : Reaction.t := Reaction.mk "s1" "alice" "👍" 0%Z.

Definition bobThumb : Reaction.t := Reaction.mk "s2" "bob" "👍" 1%Z.

Definition exampleReactions : ReactionManager.t :=
  ReactionManager.addReaction "m1" aliceThumb ReactionManager.init.

Definition examplePing : PingMessage.t := PingMessage.mk "2024-01-15T10:30:00Z".

Definition startedWorld : World :=
  WebSocketServer.start (Application.initial (fun n => Z.of_nat n)).


(** * Properties *)

(** ** Arrays, sets and maps *)

Lemma findIndex_None {A : Type} (p : A -> bool) (l : list A) :
  findIndex p l = None <-> existsb p l = false.
Proof.
  induction l as [|x l IH]; simpl; [done|].
  destruct (p x); simpl; [split; discriminate|].
  rewrite <- IH. destruct (findIndex p l); simpl; split; congruence.
Qed.

Lemma findIndex_Some {A : Type} (p : A -> bool) (l : list A) (i : nat) :
  findIndex p l = Some i ->
  exists x, l !! i = Some x /\ p x = true /\ existsb p (take i l) = false.
Proof.
  revert i. induction l as [|x l IH]; intros i; simpl; [discriminate|].
  destruct (p x) eqn:Hp.
  - intros [= <-]. exists x. done.
  - destruct (findIndex p l) as [j|]; simpl; [|discriminate].
    intros [= <-]. destruct (IH j eq_refl) as (y & Hy & Hpy & Hpre).
    exists y. simpl. rewrite Hp. done.
Qed.

Lemma existsb_app_single {A : Type} (p : A -> bool) (l : list A) (x : A) :
  existsb p (l ++ [x]) = existsb p l || p x.
Proof. rewrite existsb_app. simpl. by rewrite orb_false_r. Qed.

Lemma jsset_has_elem (x : string) (s : JsSet.t) :
  JsSet.has x s = true <-> Some x ∈ s.
Proof.
  unfold JsSet.has. rewrite existsb_exists. split.
  - intros ([y|] & Hin & Heq); [|discriminate].
    apply String.eqb_eq in Heq as ->. by apply list_elem_of_In.
  - intros Hin. exists (Some x). split; [by apply list_elem_of_In|].
    apply String.eqb_refl.
Qed.

Lemma jsset_elem_add (x y : string) (s : JsSet.t) :
  Some y ∈ JsSet.add x s <-> y = x \/ Some y ∈ s.
Proof.
  unfold JsSet.add. destruct (JsSet.has x s) eqn:Hhas.
  - apply jsset_has_elem in Hhas. split; [by right|].
    intros [->|]; done.
  - rewrite elem_of_app, list_elem_of_singleton. split.
    + intros [?|[= ->]]; auto.
    + intros [->|?]; auto.
Qed.

Lemma jsset_lookup_del (x : string) (s : JsSet.t) (j : nat) :
  JsSet.del x s !! j =
  (fun e => match e with
            | Some y => if String.eqb y x then None else Some y
            | None => None
            end) <$> (s !! j).
Proof. unfold JsSet.del. apply list_lookup_fmap. Qed.

Lemma jsset_length_del (x : string) (s : JsSet.t) :
  length (JsSet.del x s) = length s.
Proof. unfold JsSet.del. apply length_map. Qed.

Lemma jsset_elem_del (x y : string) (s : JsSet.t) :
  Some y ∈ JsSet.del x s <-> y <> x /\ Some y ∈ s.
Proof.
  unfold JsSet.del. rewrite list_elem_of_fmap. split.
  - intros ([z|] & Heq & Hin); [|discriminate].
    destruct (String.eqb_spec z x); [discriminate|].
    injection Heq as ->. done.
  - intros [Hne Hin]. exists (Some y). split; [|done].
    destruct (String.eqb_spec y x); done.
Qed.

Lemma jsset_elem_toArray (y : string) (s : JsSet.t) :
  y ∈ JsSet.toArray s <-> Some y ∈ s.
Proof.
  unfold JsSet.toArray. rewrite list_elem_of_omap. split.
  - intros ([z|] & Hin & Heq); simpl in Heq; [|discriminate].
    by injection Heq as ->.
  - intros Hin. by exists (Some y).
Qed.

Lemma jsset_toArray_add (x : string) (s : JsSet.t) :
  JsSet.toArray (JsSet.add x s) =
  if JsSet.has x s then JsSet.toArray s else JsSet.toArray s ++ [x].
Proof.
  unfold JsSet.add, JsSet.toArray. destruct (JsSet.has x s); [done|].
  by rewrite omap_app.
Qed.

Lemma jsset_toArray_del (x : string) (s : JsSet.t) :
  JsSet.toArray (JsSet.del x s) =
  List.filter (fun y => negb (String.eqb y x)) (JsSet.toArray s).
Proof.
  unfold JsSet.del, JsSet.toArray. induction s as [|[y|] s IH]; [done| |].
  - cbn. destruct (String.eqb y x); cbn; [apply IH|f_equal; apply IH].
  - cbn. apply IH.
Qed.

Lemma jsset_NoDup_add (x : string) (s : JsSet.t) :
  NoDup (JsSet.toArray s) -> NoDup (JsSet.toArray (JsSet.add x s)).
Proof.
  intros Hnd. rewrite jsset_toArray_add.
  destruct (JsSet.has x s) eqn:Hhas; [done|].
  apply NoDup_app. split; [done|]. split; [|apply NoDup_singleton].
  intros y Hy ->%list_elem_of_singleton.
  apply jsset_elem_toArray, jsset_has_elem in Hy. congruence.
Qed.

Lemma NoDup_list_filter {A : Type} (p : A -> bool) (l : list A) :
  NoDup l -> NoDup (List.filter p l).
Proof.
  induction 1 as [|x l Hx Hnd IH]; simpl; [constructor|].
  destruct (p x); [|done]. constructor; [|done].
  rewrite list_elem_of_In, filter_In, <- list_elem_of_In. tauto.
Qed.

Lemma jsset_NoDup_del (x : string) (s : JsSet.t) :
  NoDup (JsSet.toArray s) -> NoDup (JsSet.toArray (JsSet.del x s)).
Proof. rewrite jsset_toArray_del. apply NoDup_list_filter. Qed.

Lemma jsmap_get_set {V : Type} (k k' : string) (v : V) (m : JsMap.t V) :
  JsMap.get k' (JsMap.set k v m) = if String.eqb k k' then Some v else JsMap.get k' m.
Proof.
  induction m as [|[k0 v0] m IH]; simpl.
  - done.
  - destruct (String.eqb_spec k0 k) as [->|Hne]; simpl.
    + destruct (String.eqb_spec k k'); done.
    + rewrite IH. destruct (String.eqb_spec k0 k') as [->|]; [|done].
      destruct (String.eqb_spec k k'); congruence.
Qed.

Lemma jsmap_has_set {V : Type} (k k' : string) (v : V) (m : JsMap.t V) :
  JsMap.has k' (JsMap.set k v m) = String.eqb k k' || JsMap.has k' m.
Proof.
  unfold JsMap.has. rewrite jsmap_get_set. by destruct (String.eqb k k').
Qed.

Lemma jsmap_get_del {V : Type} (k k' : string) (m : JsMap.t V) :
  JsMap.get k' (JsMap.del k m) = if String.eqb k k' then None else JsMap.get k' m.
Proof.
  unfold JsMap.del. induction m as [|[k0 v0] m IH]; simpl.
  - by destruct (String.eqb k k').
  - destruct (String.eqb_spec k0 k) as [->|Hne]; simpl.
    + rewrite IH. destruct (String.eqb_spec k k'); done.
    + rewrite IH. destruct (String.eqb_spec k0 k') as [->|]; [|done].
      destruct (String.eqb_spec k k'); congruence.
Qed.

Lemma jsmap_has_del {V : Type} (k k' : string) (m : JsMap.t V) :
  JsMap.has k' (JsMap.del k m) = negb (String.eqb k k') && JsMap.has k' m.
Proof.
  unfold JsMap.has. rewrite jsmap_get_del. by destruct (String.eqb k k').
Qed.

Lemma jsmap_get_elem {V : Type} (k : string) (v : V) (m : JsMap.t V) :
  JsMap.get k m = Some v -> (k, v) ∈ m.
Proof.
  induction m as [|[k0 v0] m IH]; simpl; [discriminate|].
  destruct (String.eqb_spec k0 k) as [->|Hne].
  - intros [= ->]. left.
  - intros H. right. auto.
Qed.

Lemma jsmap_has_keys {V : Type} (k : string) (m : JsMap.t V) :
  JsMap.has k m = true <-> k ∈ JsMap.keys m.
Proof.
  unfold JsMap.has, JsMap.keys. induction m as [|[k0 v0] m IH]; simpl.
  - split; [discriminate|]. by intros ?%elem_of_nil.
  - rewrite elem_of_cons. destruct (String.eqb_spec k0 k) as [->|Hne].
    + split; auto.
    + rewrite IH. split; [auto|]. intros [->|]; done.
Qed.

Lemma jsmap_elem_set {V : Type} (k : string) (v : V) (m : JsMap.t V) (e : string * V) :
  e ∈ JsMap.set k v m -> e = (k, v) \/ e ∈ m.
Proof.
  induction m as [|[k0 v0] m IH]; simpl.
  - intros ->%list_elem_of_singleton. by left.
  - destruct (String.eqb k0 k).
    + intros [->|?]%elem_of_cons; [by left|]. right. by right.
    + intros [->|?]%elem_of_cons; [right; left|].
      destruct IH as [|]; auto. right. by right.
Qed.

Lemma jsmap_keys_set {V : Type} (k : string) (v : V) (m : JsMap.t V) :
  JsMap.keys (JsMap.set k v m) =
  if JsMap.has k m then JsMap.keys m else JsMap.keys m ++ [k].
Proof.
  unfold JsMap.has, JsMap.keys. induction m as [|[k0 v0] m IH]; simpl; [done|].
  destruct (String.eqb_spec k0 k) as [->|Hne]; simpl; [done|].
  rewrite IH. by destruct (JsMap.get k m).
Qed.

Lemma jsmap_keys_del {V : Type} (k : string) (m : JsMap.t V) :
  JsMap.keys (JsMap.del k m) =
  List.filter (fun k' => negb (String.eqb k' k)) (JsMap.keys m).
Proof.
  unfold JsMap.del, JsMap.keys. induction m as [|[k0 v0] m IH]; simpl; [done|].
  destruct (String.eqb k0 k); simpl; by rewrite IH.
Qed.

Lemma jsmap_NoDup_set {V : Type} (k : string) (v : V) (m : JsMap.t V) :
  NoDup (JsMap.keys m) -> NoDup (JsMap.keys (JsMap.set k v m)).
Proof.
  intros Hnd. rewrite jsmap_keys_set. destruct (JsMap.has k m) eqn:Hhas; [done|].
  apply NoDup_app. split; [done|]. split; [|apply NoDup_singleton].
  intros y Hy ->%list_elem_of_singleton.
  apply jsmap_has_keys in Hy. congruence.
Qed.

Lemma jsmap_NoDup_del {V : Type} (k : string) (m : JsMap.t V) :
  NoDup (JsMap.keys m) -> NoDup (JsMap.keys (JsMap.del k m)).
Proof. rewrite jsmap_keys_del. apply NoDup_list_filter. Qed.

(** ** [ConnectionManager] *)

Lemma getConnectionsByUser_addConnection (st : ConnectionManager.t)
    (s u s' u' : string) :
  s' ∈ ConnectionManager.getConnectionsByUser u'
         (ConnectionManager.addConnection s u st)
  <-> (u' = u /\ s' = s) \/
      s' ∈ ConnectionManager.getConnectionsByUser u' st.
Proof.
  unfold ConnectionManager.getConnectionsByUser, ConnectionManager.addConnection.
  simpl. destruct (decide (u' = u)) as [->|Hne].
  - destruct (ConnectionManager.userToSockets st !! u) as [sockets|] eqn:Hu.
    + rewrite Hu, lookup_insert_eq, !jsset_elem_toArray, jsset_elem_add.
      intuition.
    + rewrite !lookup_insert_eq, !jsset_elem_toArray, jsset_elem_add.
      unfold JsSet.empty. rewrite !elem_of_nil. intuition.
  - assert (forall m : gmap string JsSet.t,
              match m !! u with
              | Some sockets => <[u := JsSet.add s sockets]> m
              | None => m
              end !! u' = m !! u') as Hkeep.
    { intros m. destruct (m !! u); [by rewrite lookup_insert_ne|done]. }
    rewrite Hkeep.
    destruct (ConnectionManager.userToSockets st !! u);
      [|rewrite lookup_insert_ne by done]; intuition.
Qed.

(** C10. Binding a socket id first to [u1] and then to [u2] makes
    [getUserBySocket] answer [u2] and lists the socket under [u2], while
    the connection list of [u1] still holds the socket id. *)
Theorem addConnection_rebind_keeps_stale_socket
    (st : ConnectionManager.t) (s u1 u2 : string) :
  u1 <> u2 ->
  let st' := ConnectionManager.addConnection s u2
               (ConnectionManager.addConnection s u1 st) in
  ConnectionManager.getUserBySocket s st' = Some u2 /\
  s ∈ ConnectionManager.getConnectionsByUser u2 st' /\
  s ∈ ConnectionManager.getConnectionsByUser u1 st'.
Proof.
  intros Hne st'. subst st'. split; [|split].
  - unfold ConnectionManager.getUserBySocket, ConnectionManager.addConnection.
    simpl. apply lookup_insert_eq.
  - apply getConnectionsByUser_addConnection. by left.
  - apply getConnectionsByUser_addConnection. right.
    apply getConnectionsByUser_addConnection. by left.
Qed.

(** ** [MessageRouter] *)

(** C7. [route] throws exactly in two cases: no handler is registered
    for the event, and then the error is the no-handler error; or the
    registered handler throws, and then [route] throws that very error.
    With a registered handler [route] behaves as the handler does. *)
Theorem route_throws_iff {Raw : Type} (r : MessageRouter.t Raw)
    (socketId eventName : string) (data : Raw) (w : World) :
  (forall e,
     fst (MessageRouter.route r socketId eventName data w) = Throw e <->
     (MessageRouter.handlers r !! eventName = None /\
      e = MessageRouter.noHandlerError eventName) \/
     (exists handler : MessageRouter.IMessageHandler Raw,
        MessageRouter.handlers r !! eventName = Some handler /\
        fst (handler socketId eventName data w) = Throw e)) /\
  (forall handler : MessageRouter.IMessageHandler Raw,
     MessageRouter.handlers r !! eventName = Some handler ->
     MessageRouter.route r socketId eventName data w =
     handler socketId eventName data w) /\
  (MessageRouter.handlers r !! eventName = None ->
   MessageRouter.route r socketId eventName data w =
   (Throw (MessageRouter.noHandlerError eventName), w)).
Proof.
  unfold MessageRouter.route, tryCatch, throw.
  destruct (MessageRouter.handlers r !! eventName) as [handler|].
  - assert ((let (c, w') := handler socketId eventName data w in
             match c with
             | Normal a => (Normal a, w')
             | Throw e => (Throw e, w')
             end) = handler socketId eventName data w) as Hsame
      by (by destruct (handler socketId eventName data w) as [[a|e] w']).
    cbv beta. rewrite Hsame. split; [|split].
    + intros e. split.
      * intros He. right. by exists handler.
      * intros [[Hno _]|(h' & [= <-] & He)]; [discriminate|done].
    + by intros h' [= <-].
    + discriminate.
  - split; [|split].
    + intros e. simpl. split.
      * intros [= <-]. by left.
      * intros [[_ ->]|(h' & Hno & _)]; [done|discriminate].
    + discriminate.
    + done.
Qed.

(** ** [ReactionManager] *)

Lemma hasUserReacted_bucketOf (messageId userId emoji : string) st :
  ReactionManager.hasUserReacted messageId userId emoji st =
  existsb (ReactionManager.sameUser userId) (bucketOf messageId emoji st).
Proof.
  unfold ReactionManager.hasUserReacted, bucketOf.
  destruct (ReactionManager.reactions st !! messageId) as [m|]; [|done].
  by destruct (JsMap.get emoji m).
Qed.

Lemma jsmap_set_set {V : Type} (k : string) (v1 v2 : V) (m : JsMap.t V) :
  JsMap.set k v2 (JsMap.set k v1 m) = JsMap.set k v2 m.
Proof.
  induction m as [|[k0 v0] m IH]; simpl.
  - by rewrite String.eqb_refl.
  - destruct (String.eqb_spec k0 k) as [->|Hne]; simpl.
    + by rewrite String.eqb_refl.
    + destruct (String.eqb_spec k0 k); [done|]. by rewrite IH.
Qed.


Lemma jsmap_set_fresh {V : Type} (k : string) (v : V) (m : JsMap.t V) :
  JsMap.get k m = None -> JsMap.set k v m = m ++ [(k, v)].
Proof.
  induction m as [|[k0 v0] m IH]; simpl; [done|].
  destruct (String.eqb_spec k0 k) as [->|Hne]; [discriminate|].
  intros H. by rewrite IH.
Qed.

Lemma jsmap_del_fresh {V : Type} (k : string) (m : JsMap.t V) :
  JsMap.get k m = None -> JsMap.del k m = m.
Proof.
  unfold JsMap.del. induction m as [|[k0 v0] m IH]; simpl; [done|].
  destruct (String.eqb_spec k0 k) as [->|Hne]; [discriminate|].
  intros H. simpl. by rewrite IH.
Qed.

Lemma jsmap_del_set {V : Type} (k : string) (v : V) (m : JsMap.t V) :
  JsMap.del k (JsMap.set k v m) = JsMap.del k m.
Proof.
  unfold JsMap.del. induction m as [|[k0 v0] m IH]; simpl.
  - by rewrite String.eqb_refl.
  - destruct (String.eqb_spec k0 k) as [->|Hne]; simpl.
    + by rewrite String.eqb_refl.
    + destruct (String.eqb_spec k0 k); [done|]. simpl. by rewrite IH.
Qed.

Lemma jsmap_del_nil_get {V : Type} (k k' : string) (m : JsMap.t V) :
  JsMap.del k m = [] -> k <> k' -> JsMap.get k' m = None.
Proof.
  unfold JsMap.del. induction m as [|[k0 v0] m IH]; simpl; [done|].
  destruct (String.eqb_spec k0 k) as [->|Hne]; simpl; [|discriminate].
  intros Hnil Hk. destruct (String.eqb_spec k k'); [done|]. by apply IH.
Qed.

(** The bucket view of [addReaction]: only the bucket of the reaction's
    message and emoji changes, by an append when the user is not in it. *)
Lemma bucketOf_addReaction (messageId : string) (reaction : Reaction.t) st
    (messageId' emoji' : string) :
  bucketOf messageId' emoji' (ReactionManager.addReaction messageId reaction st) =
  if String.eqb messageId messageId' && String.eqb (Reaction.emoji reaction) emoji'
  then
    let b := bucketOf messageId (Reaction.emoji reaction) st in
    if existsb (ReactionManager.sameUser (Reaction.userId reaction)) b
    then b else b ++ [reaction]
  else bucketOf messageId' emoji' st.
Proof.
  unfold bucketOf, ReactionManager.addReaction.
  destruct (ReactionManager.reactions st !! messageId) as [m|] eqn:Hm.
  - rewrite Hm. unfold JsMap.has.
    destruct (JsMap.get (Reaction.emoji reaction) m) as [l|] eqn:Hl.
    + rewrite Hl.
      destruct (findIndex _ l) as [i|] eqn:Hi; simpl.
      * assert (existsb (ReactionManager.sameUser (Reaction.userId reaction)) l = true) as ->.
        { destruct (existsb _ l) eqn:He; [done|].
          apply findIndex_None in He. congruence. }
        rewrite insert_id by done.
        destruct (String.eqb_spec messageId messageId') as [<-|Hne]; simpl; [|done].
        rewrite Hm. destruct (String.eqb_spec (Reaction.emoji reaction) emoji') as [<-|]; [|done].
        by rewrite Hl.
      * apply findIndex_None in Hi. rewrite Hi.
        destruct (String.eqb_spec messageId messageId') as [<-|Hne]; simpl.
        -- rewrite lookup_insert_eq, jsmap_get_set.
           destruct (String.eqb_spec (Reaction.emoji reaction) emoji'); [done|].
           by rewrite Hm.
        -- by rewrite lookup_insert_ne.
    + rewrite jsmap_get_set, String.eqb_refl. simpl.
      rewrite jsmap_set_set.
      destruct (String.eqb_spec messageId messageId') as [<-|Hne]; simpl.
      * rewrite lookup_insert_eq, jsmap_get_set.
        destruct (String.eqb_spec (Reaction.emoji reaction) emoji'); [done|].
        by rewrite Hm.
      * by rewrite lookup_insert_ne.
  - rewrite lookup_insert_eq. simpl. rewrite String.eqb_refl. simpl.
    rewrite insert_insert_eq.
    destruct (String.eqb_spec messageId messageId') as [<-|Hne]; simpl.
    + rewrite lookup_insert_eq, Hm. simpl.
      destruct (String.eqb_spec (Reaction.emoji reaction) emoji'); done.
    + by rewrite lookup_insert_ne.
Qed.

(** The bucket view of [removeReaction]: only the bucket of
    [(messageId, emoji)] changes, losing the first record of the user. *)
Lemma bucketOf_removeReaction (messageId userId emoji : string) st
    (messageId' emoji' : string) :
  bucketOf messageId' emoji'
    (ReactionManager.removeReaction messageId userId emoji st) =
  if String.eqb messageId messageId' && String.eqb emoji emoji'
  then
    let b := bucketOf messageId emoji st in
    match findIndex (ReactionManager.sameUser userId) b with
    | Some index => splice1 index b
    | None => b
    end
  else bucketOf messageId' emoji' st.
Proof.
  unfold bucketOf, ReactionManager.removeReaction.
  destruct (ReactionManager.reactions st !! messageId) as [m|] eqn:Hm.
  2:{ destruct (String.eqb_spec messageId messageId') as [<-|Hne]; simpl; [|done].
      rewrite Hm. by destruct (String.eqb emoji emoji'). }
  destruct (JsMap.get emoji m) as [l|] eqn:Hl.
  2:{ destruct (String.eqb_spec messageId messageId') as [<-|Hne]; simpl; [|done].
      rewrite Hm. destruct (String.eqb_spec emoji emoji') as [<-|]; [|done].
      by rewrite Hl. }
  destruct (findIndex _ l) as [i|] eqn:Hi.
  2:{ destruct (String.eqb_spec messageId messageId') as [<-|Hne]; simpl; [|done].
      rewrite Hm. destruct (String.eqb_spec emoji emoji') as [<-|]; [|done].
      by rewrite Hl. }
  simpl.
  destruct (Nat.eqb_spec (length (splice1 i l)) 0) as [Hlen|Hlen].
  - apply nil_length_inv in Hlen. rewrite Hlen, jsmap_del_set.
    destruct (Nat.eqb_spec (JsMap.size (JsMap.del emoji m)) 0) as [Hsz|Hsz]; simpl.
    + apply nil_length_inv in Hsz.
      destruct (String.eqb_spec messageId messageId') as [<-|Hne]; simpl.
      * rewrite lookup_delete_eq, Hm.
        destruct (String.eqb_spec emoji emoji') as [<-|Hne]; [done|].
        by rewrite (jsmap_del_nil_get emoji emoji' m).
      * by rewrite lookup_delete_ne.
    + destruct (String.eqb_spec messageId messageId') as [<-|Hne]; simpl.
      * rewrite lookup_insert_eq, Hm, jsmap_get_del.
        destruct (String.eqb_spec emoji emoji'); done.
      * by rewrite lookup_insert_ne.
  - destruct (Nat.eqb_spec (JsMap.size (JsMap.set emoji (splice1 i l) m)) 0) as [Hsz|Hsz]; simpl.
    + apply nil_length_inv in Hsz.
      assert (JsMap.get emoji (JsMap.set emoji (splice1 i l) m) = None) as Habs
        by (by rewrite Hsz).
      rewrite jsmap_get_set, String.eqb_refl in Habs. discriminate.
    + destruct (String.eqb_spec messageId messageId') as [<-|Hne]; simpl.
      * rewrite lookup_insert_eq, Hm, jsmap_get_set.
        destruct (String.eqb_spec emoji emoji'); done.
      * by rewrite lookup_insert_ne.
Qed.

Lemma splice1_delete {A : Type} (i : nat) (l : list A) :
  splice1 i l = delete i l.
Proof. unfold splice1. by rewrite delete_take_drop. Qed.

Lemma bucketOk_splice1 (emoji : string) (i : nat) (l : list Reaction.t) :
  bucketOk emoji l -> splice1 i l <> [] -> bucketOk emoji (splice1 i l).
Proof.
  intros (_ & Hnd & Hall) Hne. split; [done|]. rewrite splice1_delete. split.
  - change (NoDup (Reaction.userId <$> delete i l)).
    rewrite list_fmap_delete. eapply sublist_NoDup; [exact Hnd|apply sublist_delete].
  - eapply Forall_forall. intros r Hr. eapply Forall_forall in Hall; [done|].
    eauto using list_elem_of_delete_inv.
Qed.

Lemma bucketOk_push (r : Reaction.t) (l : list Reaction.t) :
  (l <> [] -> bucketOk (Reaction.emoji r) l) ->
  existsb (ReactionManager.sameUser (Reaction.userId r)) l = false ->
  bucketOk (Reaction.emoji r) (l ++ [r]).
Proof.
  intros Hok Hfresh. split; [by destruct l|].
  assert (NoDup (map Reaction.userId l) /\
          Forall (fun r' => Reaction.emoji r' = Reaction.emoji r) l) as [Hnd Hall].
  { destruct l as [|x l']; [split; constructor|]. by apply Hok. }
  split.
  - rewrite map_app. apply NoDup_app. split; [done|]. split; [|apply NoDup_singleton].
    intros u Hu ->%list_elem_of_singleton.
    apply list_elem_of_fmap in Hu as (r' & Heq & Hr').
    assert (existsb (ReactionManager.sameUser (Reaction.userId r)) l = true); [|congruence].
    apply existsb_exists. exists r'. split; [by apply list_elem_of_In|].
    unfold ReactionManager.sameUser. rewrite Heq. apply String.eqb_refl.
  - apply Forall_app. split; [done|]. by constructor.
Qed.

Lemma messageOk_set (e : string) (l : list Reaction.t)
    (m : JsMap.t (list Reaction.t)) :
  NoDup (JsMap.keys m) ->
  (forall e0 l0, (e0, l0) ∈ m -> bucketOk e0 l0) ->
  bucketOk e l ->
  messageOk (JsMap.set e l m).
Proof.
  intros Hnd Hall Hl. split; [|split].
  - destruct m as [|[k0 v0] m]; simpl; [done|]. by destruct (String.eqb k0 e).
  - by apply jsmap_NoDup_set.
  - intros e0 l0 [[= -> ->]|Hin]%jsmap_elem_set; auto.
Qed.

Lemma messageOk_del (e : string) (m : JsMap.t (list Reaction.t)) :
  NoDup (JsMap.keys m) ->
  (forall e0 l0, (e0, l0) ∈ m -> fst (e0, l0) <> e -> bucketOk e0 l0) ->
  JsMap.del e m <> [] ->
  messageOk (JsMap.del e m).
Proof.
  intros Hnd Hall Hne. split; [done|]. split; [by apply jsmap_NoDup_del|].
  intros e0 l0 Hin. unfold JsMap.del in Hin.
  apply list_elem_of_In, filter_In in Hin as [Hin Hk].
  apply Hall; [by apply list_elem_of_In|].
  simpl in *. destruct (String.eqb_spec e0 e); done.
Qed.

Lemma reactionsOk_init : reactionsOk ReactionManager.init.
Proof. intros messageId m. unfold ReactionManager.init. simpl. by rewrite lookup_empty. Qed.

Lemma reactionsOk_addReaction (messageId : string) (reaction : Reaction.t) st :
  reactionsOk st -> reactionsOk (ReactionManager.addReaction messageId reaction st).
Proof.
  intros Hok messageId' m'. unfold ReactionManager.addReaction.
  destruct (ReactionManager.reactions st !! messageId) as [m|] eqn:Hm.
  - rewrite Hm. destruct (Hok _ _ Hm) as (Hne & Hnd & Hall).
    unfold JsMap.has.
    destruct (JsMap.get (Reaction.emoji reaction) m) as [l|] eqn:Hl.
    + rewrite Hl. destruct (findIndex _ l) as [i|] eqn:Hi; simpl.
      * rewrite insert_id by done. apply Hok.
      * destruct (decide (messageId = messageId')) as [<-|Hneq];
          [|rewrite lookup_insert_ne by done; apply Hok].
        rewrite lookup_insert_eq. intros [= <-].
        apply messageOk_set; [done..|].
        apply bucketOk_push; [|by apply findIndex_None].
        intros _. apply Hall. by apply jsmap_get_elem.
    + rewrite jsmap_get_set, String.eqb_refl. simpl. rewrite jsmap_set_set.
      destruct (decide (messageId = messageId')) as [<-|Hneq];
        [|rewrite lookup_insert_ne by done; apply Hok].
      rewrite lookup_insert_eq. intros [= <-].
      apply messageOk_set; [done..|]. by apply (bucketOk_push reaction []).
  - rewrite lookup_insert_eq. simpl. rewrite String.eqb_refl. simpl.
    rewrite insert_insert_eq.
    destruct (decide (messageId = messageId')) as [<-|Hneq];
      [|rewrite lookup_insert_ne by done; apply Hok].
    rewrite lookup_insert_eq. intros [= <-].
    apply (messageOk_set _ _ []); [constructor| |by apply (bucketOk_push reaction [])].
    by intros e0 l0 ?%elem_of_nil.
Qed.

Lemma reactionsOk_removeReaction (messageId userId emoji : string) st :
  reactionsOk st ->
  reactionsOk (ReactionManager.removeReaction messageId userId emoji st).
Proof.
  intros Hok messageId' m'. unfold ReactionManager.removeReaction.
  destruct (ReactionManager.reactions st !! messageId) as [m|] eqn:Hm; [|apply Hok].
  destruct (JsMap.get emoji m) as [l|] eqn:Hl; [|apply Hok].
  destruct (findIndex _ l) as [i|] eqn:Hi; [|apply Hok].
  destruct (Hok _ _ Hm) as (Hne & Hnd & Hall).
  simpl. destruct (Nat.eqb_spec (length (splice1 i l)) 0) as [Hlen|Hlen].
  - rewrite jsmap_del_set.
    destruct (Nat.eqb_spec (JsMap.size (JsMap.del emoji m)) 0) as [Hsz|Hsz]; simpl.
    + destruct (decide (messageId = messageId')) as [<-|Hneq];
        [by rewrite lookup_delete_eq|rewrite lookup_delete_ne by done; apply Hok].
    + destruct (decide (messageId = messageId')) as [<-|Hneq];
        [|rewrite lookup_insert_ne by done; apply Hok].
      rewrite lookup_insert_eq. intros [= <-].
      apply messageOk_del; [done|auto|].
      intros Hnil. apply Hsz. unfold JsMap.size. by rewrite Hnil.
  - destruct (Nat.eqb_spec (JsMap.size (JsMap.set emoji (splice1 i l) m)) 0) as [Hsz|Hsz]; simpl.
    + destruct (decide (messageId = messageId')) as [<-|Hneq];
        [by rewrite lookup_delete_eq|rewrite lookup_delete_ne by done; apply Hok].
    + destruct (decide (messageId = messageId')) as [<-|Hneq];
        [|rewrite lookup_insert_ne by done; apply Hok].
      rewrite lookup_insert_eq. intros [= <-].
      apply messageOk_set; [done..|].
      apply bucketOk_splice1; [apply Hall; by apply jsmap_get_elem|].
      intros Hnil. apply Hlen. by rewrite Hnil.
Qed.

Lemma ReactionReachable_ok st : ReactionReachable st -> reactionsOk st.
Proof.
  induction 1; auto using reactionsOk_init, reactionsOk_addReaction,
    reactionsOk_removeReaction.
Qed.

Lemma messageOk_NoDup_pairs (m : JsMap.t (list Reaction.t)) :
  NoDup (JsMap.keys m) ->
  (forall e l, (e, l) ∈ m -> bucketOk e l) ->
  NoDup (map (fun r => (Reaction.emoji r, Reaction.userId r)) (allReactions m)).
Proof.
  unfold allReactions, JsMap.values, JsMap.keys.
  induction m as [|[e l] m IH]; simpl; [constructor|].
  intros Hnd Hall. apply NoDup_cons in Hnd as [He Hnd].
  rewrite map_app. apply NoDup_app. split; [|split].
  - destruct (Hall e l) as (_ & Hu & Hem); [left|].
    clear -Hu Hem. induction l as [|r l IHl]; simpl; [constructor|].
    simpl in Hu. apply NoDup_cons in Hu as [Hr Hu]. apply Forall_cons in Hem as [Hre Hem].
    constructor; [|auto].
    intros (r' & Heq & Hr')%list_elem_of_fmap. apply Hr.
    apply list_elem_of_fmap. exists r'. split; [congruence|done].
  - intros [e0 u0] (r & Heq & Hr)%list_elem_of_fmap
                   (r' & Heq' & Hr')%list_elem_of_fmap.
    apply list_elem_of_In, in_concat in Hr' as (l' & Hl'%list_elem_of_In & Hr'%list_elem_of_In).
    apply list_elem_of_fmap in Hl' as ([e' l''] & -> & Hin). simpl in *.
    destruct (Hall e l) as (_ & _ & Hem); [left|].
    destruct (Hall e' l'') as (_ & _ & Hem'); [by right|].
    eapply Forall_forall in Hem; [|done]. eapply Forall_forall in Hem'; [|done].
    apply He. apply list_elem_of_fmap. exists (e', l''). split; [|done].
    simpl. congruence.
  - apply IH; [done|]. intros e0 l0 Hin. apply Hall. by right.
Qed.

(** C3. In every state built by [addReaction] and [removeReaction],
    the records returned by [getReactions messageId] are pairwise
    distinct in their (emoji, userId). *)
Theorem getReactions_no_duplicate_record (st : ReactionManager.t)
    (messageId : string) :
  ReactionReachable st ->
  NoDup (map (fun r => (Reaction.emoji r, Reaction.userId r))
           (allReactions (ReactionManager.getReactions messageId st))).
Proof.
  intros Hreach%ReactionReachable_ok. unfold ReactionManager.getReactions.
  destruct (ReactionManager.reactions st !! messageId) as [m|] eqn:Hm.
  - destruct (Hreach _ _ Hm) as (_ & Hnd & Hall). by apply messageOk_NoDup_pairs.
  - constructor.
Qed.



Lemma existsb_splice1 {A : Type} (p : A -> bool) (i : nat) (l : list A) (x : A) :
  l !! i = Some x -> p x = false -> existsb p (splice1 i l) = existsb p l.
Proof.
  intros Hi Hx. unfold splice1.
  rewrite <- (take_drop_middle l i x Hi) at 3.
  rewrite !existsb_app. simpl. by rewrite Hx.
Qed.

(** In a bucket with one record per user, removing the first record of a
    user removes the user. *)
Lemma existsb_splice1_same (u : string) (i : nat) (l : list Reaction.t) :
  NoDup (map Reaction.userId l) ->
  findIndex (ReactionManager.sameUser u) l = Some i ->
  existsb (ReactionManager.sameUser u) (splice1 i l) = false.
Proof.
  intros Hnd Hi. apply findIndex_Some in Hi as (x & Hx & Hpx & Hpre).
  unfold splice1. rewrite existsb_app, Hpre. simpl.
  destruct (existsb _ (drop (S i) l)) eqn:He; [|done].
  apply existsb_exists in He as (y & Hy & Hpy).
  apply list_elem_of_In, list_elem_of_lookup in Hy as [j Hj].
  rewrite lookup_drop in Hj.
  unfold ReactionManager.sameUser in *.
  apply String.eqb_eq in Hpx, Hpy.
  assert (i = S i + j); [|lia].
  eapply (NoDup_lookup (map Reaction.userId l)); [done| |].
  - change (map Reaction.userId l) with (Reaction.userId <$> l).
    rewrite list_lookup_fmap, Hx. simpl. by rewrite Hpx.
  - change (map Reaction.userId l) with (Reaction.userId <$> l).
    rewrite list_lookup_fmap, Hj. simpl. by rewrite Hpy.
Qed.



Lemma hasUserReacted_addReaction (messageId : string) (r : Reaction.t) st
    (messageId' userId' emoji' : string) :
  ReactionManager.hasUserReacted messageId' userId' emoji'
    (ReactionManager.addReaction messageId r st) =
  ReactionManager.hasUserReacted messageId' userId' emoji' st ||
  (String.eqb messageId messageId' && String.eqb (Reaction.emoji r) emoji' &&
   String.eqb (Reaction.userId r) userId').
Proof.
  rewrite !hasUserReacted_bucketOf, bucketOf_addReaction.
  destruct (String.eqb_spec messageId messageId') as [<-|]; simpl;
    [|by rewrite orb_false_r].
  destruct (String.eqb_spec (Reaction.emoji r) emoji') as [<-|]; simpl;
    [|by rewrite orb_false_r].
  destruct (existsb (ReactionManager.sameUser (Reaction.userId r)) _) eqn:He.
  - destruct (String.eqb_spec (Reaction.userId r) userId') as [<-|];
      [by rewrite He|by rewrite orb_false_r].
  - by rewrite existsb_app_single.
Qed.

Lemma hasUserReacted_removeReaction (messageId userId emoji : string) st
    (messageId' userId' emoji' : string) :
  reactionsOk st ->
  ReactionManager.hasUserReacted messageId' userId' emoji'
    (ReactionManager.removeReaction messageId userId emoji st) =
  ReactionManager.hasUserReacted messageId' userId' emoji' st &&
  negb (String.eqb messageId messageId' && String.eqb emoji emoji' &&
        String.eqb userId userId').
Proof.
  intros Hok. rewrite !hasUserReacted_bucketOf, bucketOf_removeReaction.
  destruct (String.eqb_spec messageId messageId') as [<-|]; simpl;
    [|by rewrite andb_true_r].
  destruct (String.eqb_spec emoji emoji') as [<-|]; simpl;
    [|by rewrite andb_true_r].
  destruct (findIndex _ (bucketOf messageId emoji st)) as [i|] eqn:Hi.
  - assert (NoDup (map Reaction.userId (bucketOf messageId emoji st))) as Hnd.
    { unfold bucketOf in *.
      destruct (ReactionManager.reactions st !! messageId) as [m|] eqn:Hm;
        [|constructor].
      destruct (JsMap.get emoji m) as [l|] eqn:Hl; [|constructor].
      destruct (Hok _ _ Hm) as (_ & _ & Hall).
      by destruct (Hall _ _ (jsmap_get_elem _ _ _ Hl)) as (_ & ? & _). }
    destruct (String.eqb_spec userId userId') as [<-|Hne]; simpl.
    + rewrite andb_false_r. by apply existsb_splice1_same.
    + rewrite andb_true_r.
      pose proof (findIndex_Some _ _ _ Hi) as (x & Hx & Hpx & _).
      apply (existsb_splice1 _ _ _ x); [done|].
      unfold ReactionManager.sameUser in *. apply String.eqb_eq in Hpx.
      destruct (String.eqb_spec (Reaction.userId x) userId'); congruence.
  - apply findIndex_None in Hi.
    destruct (String.eqb_spec userId userId') as [<-|Hne]; simpl.
    + by rewrite Hi.
    + by rewrite andb_true_r.
Qed.




(** ** [WebSocketServer.broadcastToRoom] *)

(** A broadcast only appends to what the server has emitted: one
    emission per roster member that is not excluded, in roster order. *)
Lemma broadcastToRoom_spec (roomId eventName : string) (data : Payload)
    (excludeSocketId : option string) (w : World) :
  let w' := WebSocketServer.broadcastToRoom roomId eventName data
              excludeSocketId w in
  connectionManager w' = connectionManager w /\
  roomManager w' = roomManager w /\
  reactionManager w' = reactionManager w /\
  clock w' = clock w /\
  ticks w' = ticks w /\
  io w' =
    (fun out =>
       out ++ deliveries eventName data
                (recipients excludeSocketId
                   (RoomManager.getRoomUsers roomId (roomManager w))))
      <$> io w.
Proof.
  unfold WebSocketServer.broadcastToRoom, recipients, deliveries.
  generalize (RoomManager.getRoomUsers roomId (roomManager w)) as users.
  intros users. revert w. induction users as [|user users IH]; intros w; simpl.
  - repeat split; try done. destruct (io w); simpl; [|done].
    by rewrite app_nil_r.
  - destruct (WebSocketServer.notExcluded excludeSocketId user); simpl; [|apply IH].
    destruct (IH (WebSocketServer.emitTo (RoomUser.socketId user) eventName data w))
      as (Hc & Hr & Hx & Hk & Ht & Hio).
    rewrite Hc, Hr, Hx, Hk, Ht, Hio. unfold WebSocketServer.emitTo.
    destruct (io w) as [out|] eqn:Hw; simpl; [|by rewrite Hw].
    repeat split; try done. by rewrite <- app_assoc.
Qed.

Lemma sent_broadcastToRoom (roomId eventName : string) (data : Payload)
    (excludeSocketId : option string) (w : World) (out : list Emission) :
  io w = Some out ->
  sent (WebSocketServer.broadcastToRoom roomId eventName data excludeSocketId w) =
  out ++ deliveries eventName data
           (recipients excludeSocketId
              (RoomManager.getRoomUsers roomId (roomManager w))).
Proof.
  intros Hio. unfold sent.
  destruct (broadcastToRoom_spec roomId eventName data excludeSocketId w)
    as (_ & _ & _ & _ & _ & ->).
  by rewrite Hio.
Qed.

(** ** [MessageReactionHandler] *)

Lemma MessageReactionHandler_execute_Normal (socketId eventName : string)
    (data : MessageReaction.t) (w w1 : World) :
  MessageReactionHandler.execute socketId eventName data w = (Normal tt, w1) ->
  exists user,
    RoomManager.isUserInRoom (MessageReaction.roomId data) socketId
      (roomManager w) = true /\
    findBySocket socketId
      (RoomManager.getRoomUsers (MessageReaction.roomId data) (roomManager w))
      = Some user /\
    reactionManager w1 =
      toggleReaction (MessageReaction.messageId data) (MessageReaction.emoji data)
        user (clock w (ticks w)) (reactionManager w) /\
    roomManager w1 = roomManager w /\
    connectionManager w1 = connectionManager w.
Proof.
  unfold MessageReactionHandler.execute, bind, read, throw, update, newDate,
    toggleReaction. simpl.
  destruct (RoomManager.isUserInRoom _ socketId (roomManager w)); simpl;
    [|discriminate].
  destruct (findBySocket socketId _) as [user|]; simpl; [|discriminate].
  intros Hw1. exists user. repeat split; try done.
  all: destruct (ReactionManager.hasUserReacted _ _ _ (reactionManager w));
    simpl in Hw1; injection Hw1 as <-;
    match goal with
    | |- context [WebSocketServer.broadcastToRoom ?r ?e ?d ?x ?w0] =>
        destruct (broadcastToRoom_spec r e d x w0) as (Hc & Hr & Hx & _)
    end; by rewrite ?Hc, ?Hr, ?Hx.
Qed.

Lemma MessageReactionHandler_execute_member (socketId eventName : string)
    (data : MessageReaction.t) (w : World) (user : RoomUser.t) :
  RoomManager.isUserInRoom (MessageReaction.roomId data) socketId
    (roomManager w) = true ->
  findBySocket socketId
    (RoomManager.getRoomUsers (MessageReaction.roomId data) (roomManager w))
    = Some user ->
  exists w1, MessageReactionHandler.execute socketId eventName data w
             = (Normal tt, w1).
Proof.
  intros Hin Hfind.
  unfold MessageReactionHandler.execute, bind, read, throw, update, newDate.
  simpl. rewrite Hin. simpl. rewrite Hfind. simpl.
  destruct (ReactionManager.hasUserReacted _ _ _ (reactionManager w)); simpl; eauto.
Qed.


(** ** [RoomManager]: what each mutator does to the two tables *)

Lemma rooms_createRoom (now : Date) (roomId : string) st (roomId' : string) :
  RoomManager.rooms (RoomManager.createRoom now roomId st) !! roomId' =
  match RoomManager.rooms st !! roomId' with
  | Some room => Some room
  | None => if decide (roomId = roomId')
            then Some (Room.mk roomId JsMap.empty now) else None
  end.
Proof.
  unfold RoomManager.createRoom.
  destruct (RoomManager.rooms st !! roomId) as [room|] eqn:Hr; simpl.
  - destruct (RoomManager.rooms st !! roomId') eqn:Hr'; [done|].
    destruct (decide (roomId = roomId')); [congruence|done].
  - destruct (decide (roomId = roomId')) as [<-|Hne].
    + by rewrite lookup_insert_eq, Hr.
    + rewrite lookup_insert_ne by done.
      by destruct (RoomManager.rooms st !! roomId').
Qed.

Lemma rooms_joinRoom (now : Date) (roomId : string) (user : RoomUser.t) st
    (roomId' : string) :
  RoomManager.rooms (RoomManager.joinRoom now roomId user st) !! roomId' =
  if decide (roomId = roomId') then
    Some match RoomManager.rooms st !! roomId with
         | Some room =>
             Room.mk (Room.id room)
               (JsMap.set (RoomUser.socketId user) user (Room.users room))
               (Room.createdAt room)
         | None =>
             Room.mk roomId [(RoomUser.socketId user, user)] now
         end
  else RoomManager.rooms st !! roomId'.
Proof.
  unfold RoomManager.joinRoom, RoomManager.createRoom.
  destruct (RoomManager.rooms st !! roomId) as [room|] eqn:Hr; simpl.
  - rewrite Hr. simpl. destruct (decide (roomId = roomId')) as [<-|Hne].
    + by rewrite lookup_insert_eq.
    + by rewrite lookup_insert_ne.
  - rewrite lookup_insert_eq. simpl. rewrite insert_insert_eq.
    destruct (decide (roomId = roomId')) as [<-|Hne].
    + by rewrite lookup_insert_eq.
    + by rewrite lookup_insert_ne.
Qed.

(** The idiom [if (!m.has(k)) m.set(k, new Set()); m.get(k)!.add(x)]. *)
Lemma lookup_ensure_add (m : gmap string JsSet.t) (k x k' : string) :
  match
    match m !! k with Some _ => m | None => <[k := JsSet.empty]> m end !! k
  with
  | Some joined =>
      <[k := JsSet.add x joined]>
        match m !! k with Some _ => m | None => <[k := JsSet.empty]> m end
  | None => match m !! k with Some _ => m | None => <[k := JsSet.empty]> m end
  end !! k' =
  if decide (k = k') then
    Some (JsSet.add x match m !! k' with
                      | Some joined => joined
                      | None => JsSet.empty
                      end)
  else m !! k'.
Proof.
  destruct (m !! k) as [joined|] eqn:Hj.
  - rewrite Hj. destruct (decide (k = k')) as [<-|Hne].
    + by rewrite lookup_insert_eq, Hj.
    + by rewrite lookup_insert_ne.
  - rewrite lookup_insert_eq, insert_insert_eq.
    destruct (decide (k = k')) as [<-|Hne].
    + by rewrite lookup_insert_eq, Hj.
    + by rewrite lookup_insert_ne.
Qed.

Lemma socketToRooms_joinRoom (now : Date) (roomId : string) (user : RoomUser.t)
    st (socketId' : string) :
  RoomManager.socketToRooms (RoomManager.joinRoom now roomId user st) !! socketId' =
  if decide (RoomUser.socketId user = socketId') then
    Some (JsSet.add roomId
            match RoomManager.socketToRooms st !! socketId' with
            | Some joined => joined
            | None => JsSet.empty
            end)
  else RoomManager.socketToRooms st !! socketId'.
Proof.
  unfold RoomManager.joinRoom, RoomManager.createRoom.
  destruct (RoomManager.rooms st !! roomId) as [room|] eqn:Hr.
  - rewrite Hr. simpl. apply lookup_ensure_add.
  - simpl. rewrite lookup_insert_eq. simpl. apply lookup_ensure_add.
Qed.

Lemma rooms_leaveRoom (roomId socketId : string) st (roomId' : string) :
  RoomManager.rooms (RoomManager.leaveRoom roomId socketId st) !! roomId' =
  if decide (roomId = roomId') then
    match RoomManager.rooms st !! roomId with
    | Some room =>
        match JsMap.del socketId (Room.users room) with
        | [] => None
        | users' => Some (Room.mk (Room.id room) users' (Room.createdAt room))
        end
    | None => None
    end
  else RoomManager.rooms st !! roomId'.
Proof.
  unfold RoomManager.leaveRoom. simpl.
  destruct (RoomManager.rooms st !! roomId) as [room|] eqn:Hr.
  - unfold JsMap.size.
    destruct (JsMap.del socketId (Room.users room)) as [|e users']; simpl.
    + destruct (decide (roomId = roomId')) as [<-|Hne].
      * by rewrite lookup_delete_eq.
      * by rewrite lookup_delete_ne.
    + destruct (decide (roomId = roomId')) as [<-|Hne].
      * by rewrite lookup_insert_eq.
      * by rewrite lookup_insert_ne.
  - destruct (decide (roomId = roomId')) as [<-|Hne]; done.
Qed.

Lemma socketToRooms_leaveRoom (roomId socketId : string) st (socketId' : string) :
  RoomManager.socketToRooms (RoomManager.leaveRoom roomId socketId st) !! socketId' =
  if decide (socketId = socketId')
  then JsSet.del roomId <$> RoomManager.socketToRooms st !! socketId
  else RoomManager.socketToRooms st !! socketId'.
Proof.
  unfold RoomManager.leaveRoom. simpl.
  destruct (RoomManager.socketToRooms st !! socketId) as [joined|] eqn:Hj.
  - destruct (decide (socketId = socketId')) as [<-|Hne].
    + by rewrite lookup_insert_eq.
    + by rewrite lookup_insert_ne.
  - destruct (decide (socketId = socketId')) as [<-|Hne]; [by rewrite Hj|done].
Qed.

Lemma isUserInRoom_createRoom (now : Date) (roomId : string) st
    (roomId' socketId' : string) :
  RoomManager.isUserInRoom roomId' socketId' (RoomManager.createRoom now roomId st) =
  RoomManager.isUserInRoom roomId' socketId' st.
Proof.
  unfold RoomManager.isUserInRoom. rewrite rooms_createRoom.
  destruct (RoomManager.rooms st !! roomId'); [done|].
  by destruct (decide (roomId = roomId')).
Qed.

Lemma getUserRooms_createRoom (now : Date) (roomId : string) st (socketId' : string) :
  RoomManager.getUserRooms socketId' (RoomManager.createRoom now roomId st) =
  RoomManager.getUserRooms socketId' st.
Proof.
  unfold RoomManager.getUserRooms, RoomManager.createRoom.
  by destruct (RoomManager.rooms st !! roomId).
Qed.

Lemma isUserInRoom_joinRoom (now : Date) (roomId : string) (user : RoomUser.t) st
    (roomId' socketId' : string) :
  RoomManager.isUserInRoom roomId' socketId'
    (RoomManager.joinRoom now roomId user st) =
  String.eqb roomId roomId' && String.eqb (RoomUser.socketId user) socketId'
  || RoomManager.isUserInRoom roomId' socketId' st.
Proof.
  unfold RoomManager.isUserInRoom. rewrite rooms_joinRoom.
  destruct (decide (roomId = roomId')) as [<-|Hne].
  - rewrite String.eqb_refl. simpl.
    destruct (RoomManager.rooms st !! roomId) as [room|]; simpl.
    + apply jsmap_has_set.
    + unfold JsMap.has. simpl. by destruct (String.eqb _ socketId').
  - by apply String.eqb_neq in Hne as ->.
Qed.

Lemma elem_getUserRooms_joinRoom (now : Date) (roomId : string)
    (user : RoomUser.t) st (roomId' socketId' : string) :
  roomId' ∈ RoomManager.getUserRooms socketId'
              (RoomManager.joinRoom now roomId user st)
  <-> (roomId' = roomId /\ socketId' = RoomUser.socketId user) \/
      roomId' ∈ RoomManager.getUserRooms socketId' st.
Proof.
  unfold RoomManager.getUserRooms. rewrite socketToRooms_joinRoom.
  destruct (decide (RoomUser.socketId user = socketId')) as [<-|Hne].
  - rewrite !jsset_elem_toArray, jsset_elem_add.
    destruct (RoomManager.socketToRooms st !! RoomUser.socketId user) as [joined|].
    + rewrite jsset_elem_toArray. intuition.
    + unfold JsSet.empty, JsSet.toArray. simpl. rewrite !elem_of_nil. intuition.
  - intuition. congruence.
Qed.

Lemma isUserInRoom_leaveRoom (roomId socketId : string) st
    (roomId' socketId' : string) :
  RoomManager.isUserInRoom roomId' socketId'
    (RoomManager.leaveRoom roomId socketId st) =
  RoomManager.isUserInRoom roomId' socketId' st &&
  negb (String.eqb roomId roomId' && String.eqb socketId socketId').
Proof.
  unfold RoomManager.isUserInRoom. rewrite rooms_leaveRoom.
  destruct (decide (roomId = roomId')) as [<-|Hne].
  - rewrite String.eqb_refl. simpl.
    destruct (RoomManager.rooms st !! roomId) as [room|]; [|done].
    pose proof (jsmap_has_del socketId socketId' (Room.users room)) as Hdel.
    rewrite andb_comm, <- Hdel.
    by destruct (JsMap.del socketId (Room.users room)).
  - apply String.eqb_neq in Hne as ->. simpl. by rewrite andb_true_r.
Qed.

Lemma elem_getUserRooms_leaveRoom (roomId socketId : string) st
    (roomId' socketId' : string) :
  roomId' ∈ RoomManager.getUserRooms socketId'
              (RoomManager.leaveRoom roomId socketId st)
  <-> roomId' ∈ RoomManager.getUserRooms socketId' st /\
      ~ (roomId' = roomId /\ socketId' = socketId).
Proof.
  unfold RoomManager.getUserRooms. rewrite socketToRooms_leaveRoom.
  destruct (decide (socketId = socketId')) as [<-|Hne].
  - destruct (RoomManager.socketToRooms st !! socketId) as [joined|]; simpl.
    + rewrite !jsset_elem_toArray, jsset_elem_del. intuition.
    + rewrite elem_of_nil. intuition.
  - intuition.
Qed.

(** ** [RoomManager]: invariants *)

Lemma bidirOk_createRoom (now : Date) (roomId : string) st :
  bidirOk st -> bidirOk (RoomManager.createRoom now roomId st).
Proof.
  intros Hok r s. rewrite isUserInRoom_createRoom, getUserRooms_createRoom.
  apply Hok.
Qed.

Lemma bidirOk_joinRoom (now : Date) (roomId : string) (user : RoomUser.t) st :
  bidirOk st -> bidirOk (RoomManager.joinRoom now roomId user st).
Proof.
  intros Hok r s. rewrite isUserInRoom_joinRoom, elem_getUserRooms_joinRoom.
  rewrite orb_true_iff, andb_true_iff, !String.eqb_eq, (Hok r s).
  intuition.
Qed.

Lemma bidirOk_leaveRoom (roomId socketId : string) st :
  bidirOk st -> bidirOk (RoomManager.leaveRoom roomId socketId st).
Proof.
  intros Hok r s. rewrite isUserInRoom_leaveRoom, elem_getUserRooms_leaveRoom.
  rewrite andb_true_iff, negb_true_iff, andb_false_iff, (Hok r s).
  rewrite !String.eqb_neq. split; intros [Hin Hne]; (split; [done|]).
  - intros [-> ->]. by destruct Hne.
  - destruct (decide (roomId = r)) as [<-|]; [|by left].
    right. intros <-. by apply Hne.
Qed.

Lemma membersOk_createRoom (now : Date) (roomId : string) st :
  membersOk st -> membersOk (RoomManager.createRoom now roomId st).
Proof.
  intros Hok r room. rewrite rooms_createRoom.
  destruct (RoomManager.rooms st !! r) as [room0|] eqn:Hr.
  - intros [= <-]. by apply (Hok r).
  - destruct (decide (roomId = r)); [|discriminate].
    intros [= <-]. simpl. split; [constructor|].
    by intros k u ?%elem_of_nil.
Qed.

Lemma membersOk_joinRoom (now : Date) (roomId : string) (user : RoomUser.t) st :
  membersOk st -> membersOk (RoomManager.joinRoom now roomId user st).
Proof.
  intros Hok r room. rewrite rooms_joinRoom.
  destruct (decide (roomId = r)) as [<-|Hne]; [|apply Hok].
  intros [= <-].
  destruct (RoomManager.rooms st !! roomId) as [room0|] eqn:Hr; simpl.
  - destruct (Hok _ _ Hr) as [Hnd Hkey]. split; [by apply jsmap_NoDup_set|].
    intros k u [[= -> ->]|Hin]%jsmap_elem_set; auto.
  - split; [apply NoDup_singleton|].
    by intros k u [= -> ->]%list_elem_of_singleton.
Qed.

Lemma membersOk_leaveRoom (roomId socketId : string) st :
  membersOk st -> membersOk (RoomManager.leaveRoom roomId socketId st).
Proof.
  intros Hok r room. rewrite rooms_leaveRoom.
  destruct (decide (roomId = r)) as [<-|Hne]; [|apply Hok].
  destruct (RoomManager.rooms st !! roomId) as [room0|] eqn:Hr; [|discriminate].
  destruct (Hok _ _ Hr) as [Hnd Hkey].
  pose proof (jsmap_NoDup_del socketId _ Hnd) as Hnd'.
  assert (forall k u, (k, u) ∈ JsMap.del socketId (Room.users room0) ->
                      RoomUser.socketId u = k) as Hkey'.
  { intros k u Hin. unfold JsMap.del in Hin.
    apply list_elem_of_In, filter_In in Hin as [Hin _].
    apply Hkey. by apply list_elem_of_In. }
  destruct (JsMap.del socketId (Room.users room0)); [discriminate|].
  by intros [= <-].
Qed.

Lemma joinedOk_createRoom (now : Date) (roomId : string) st :
  joinedOk st -> joinedOk (RoomManager.createRoom now roomId st).
Proof.
  intros Hok s joined. unfold RoomManager.createRoom.
  destruct (RoomManager.rooms st !! roomId); apply Hok.
Qed.

Lemma joinedOk_joinRoom (now : Date) (roomId : string) (user : RoomUser.t) st :
  joinedOk st -> joinedOk (RoomManager.joinRoom now roomId user st).
Proof.
  intros Hok s joined. rewrite socketToRooms_joinRoom.
  destruct (decide (RoomUser.socketId user = s)) as [<-|Hne]; [|apply Hok].
  intros [= <-]. apply jsset_NoDup_add.
  destruct (RoomManager.socketToRooms st !! RoomUser.socketId user) eqn:Hj.
  - by apply (Hok _ _ Hj).
  - constructor.
Qed.

Lemma joinedOk_leaveRoom (roomId socketId : string) st :
  joinedOk st -> joinedOk (RoomManager.leaveRoom roomId socketId st).
Proof.
  intros Hok s joined. rewrite socketToRooms_leaveRoom.
  destruct (decide (socketId = s)) as [<-|Hne]; [|apply Hok].
  destruct (RoomManager.socketToRooms st !! socketId) eqn:Hj; [|discriminate].
  intros [= <-]. apply jsset_NoDup_del. by apply (Hok _ _ Hj).
Qed.

Lemma noEmptyRoom_joinRoom (now : Date) (roomId : string) (user : RoomUser.t) st :
  noEmptyRoom st -> noEmptyRoom (RoomManager.joinRoom now roomId user st).
Proof.
  intros Hok r room. rewrite rooms_joinRoom.
  destruct (decide (roomId = r)) as [<-|Hne]; [|apply Hok].
  intros [= <-].
  destruct (RoomManager.rooms st !! roomId) as [room0|]; simpl; [|done].
  destruct (Room.users room0) as [|[k0 v0] m]; simpl; [done|].
  by destruct (String.eqb k0 (RoomUser.socketId user)).
Qed.

Lemma noEmptyRoom_leaveRoom (roomId socketId : string) st :
  noEmptyRoom st -> noEmptyRoom (RoomManager.leaveRoom roomId socketId st).
Proof.
  intros Hok r room. rewrite rooms_leaveRoom.
  destruct (decide (roomId = r)) as [<-|Hne]; [|apply Hok].
  destruct (RoomManager.rooms st !! roomId) as [room0|]; [|discriminate].
  destruct (JsMap.del socketId (Room.users room0)); [discriminate|].
  by intros [= <-].
Qed.

Lemma LeaveSteps_preserve (P : RoomManager.t -> Prop) (socketId : string) st st' :
  (forall roomId st0, P st0 -> P (RoomManager.leaveRoom roomId socketId st0)) ->
  LeaveSteps socketId st st' -> P st -> P st'.
Proof. intros Hstep. induction 1; auto. Qed.

(** ** [RoomManager.leaveAllRooms]: the iteration over the live set *)

Lemma leaveAllRooms_forEach_S (fuel index : nat) (socketId : string) st :
  RoomManager.leaveAllRooms_forEach (S fuel) index socketId st =
  match RoomManager.socketToRooms st !! socketId with
  | None => None
  | Some entries =>
      match entries !! index with
      | None => Some st
      | Some None => RoomManager.leaveAllRooms_forEach fuel (S index) socketId st
      | Some (Some roomId) =>
          RoomManager.leaveAllRooms_forEach fuel (S index) socketId
            (RoomManager.leaveRoom roomId socketId st)
      end
  end.
Proof. reflexivity. Qed.

(** With enough fuel the iteration ends, by running off the entry list;
    it performs [leaveRoom] calls only, and leaves no live element in the
    room-set of the connection. *)
Lemma leaveAllRooms_forEach_spec (socketId : string) (fuel index : nat) st
    (entries : JsSet.t) :
  RoomManager.socketToRooms st !! socketId = Some entries ->
  index <= length entries ->
  length entries < fuel + index ->
  liveFrom index socketId st ->
  exists st',
    RoomManager.leaveAllRooms_forEach fuel index socketId st = Some st' /\
    LeaveSteps socketId st st' /\
    is_Some (RoomManager.socketToRooms st' !! socketId) /\
    RoomManager.getUserRooms socketId st' = [].
Proof.
  revert index st entries.
  induction fuel as [|fuel IH]; intros index st entries Hent Hle Hfuel Hlive;
    [lia|].
  rewrite leaveAllRooms_forEach_S, Hent.
  destruct (entries !! index) as [[roomId|]|] eqn:Hidx.
  - pose proof (lookup_lt_Some _ _ _ Hidx) as Hlt.
    destruct (IH (S index) (RoomManager.leaveRoom roomId socketId st)
                (JsSet.del roomId entries)) as (st' & Hrun & Hsteps & Hsome & Hempty).
    + rewrite socketToRooms_leaveRoom, decide_True by done. by rewrite Hent.
    + rewrite jsset_length_del. lia.
    + rewrite jsset_length_del. lia.
    + intros entries' r Hent' Hr.
      rewrite socketToRooms_leaveRoom, decide_True, Hent in Hent' by done.
      injection Hent' as <-. apply jsset_elem_del in Hr as [Hne Hr].
      destruct (Hlive _ _ Hent Hr) as (j & Hj & Hlook).
      exists j. split.
      * destruct (decide (j = index)) as [->|]; [congruence|lia].
      * rewrite jsset_lookup_del, Hlook. simpl.
        by apply String.eqb_neq in Hne as ->.
    + exists st'. repeat split; try done. by eapply LeaveSteps_step.
  - pose proof (lookup_lt_Some _ _ _ Hidx) as Hlt.
    apply (IH (S index) st entries); [done|lia|lia|].
    intros entries' r Hent' Hr. rewrite Hent in Hent'. injection Hent' as <-.
    destruct (Hlive _ _ Hent Hr) as (j & Hj & Hlook).
    exists j. split; [|done].
    destruct (decide (j = index)) as [->|]; [congruence|lia].
  - exists st. split; [done|]. split; [constructor|]. split; [by rewrite Hent|].
    unfold RoomManager.getUserRooms. rewrite Hent.
    destruct (JsSet.toArray entries) as [|r l] eqn:Harr; [done|].
    assert (Some r ∈ entries) as Hr
      by (apply jsset_elem_toArray; rewrite Harr; left).
    destruct (Hlive _ _ Hent Hr) as (j & Hj & Hlook).
    apply lookup_ge_None in Hidx. apply lookup_lt_Some in Hlook. lia.
Qed.

(** [leaveAllRooms] always returns; it is a run of [leaveRoom] calls
    followed by the removal of the connection's room-set. *)
Lemma leaveAllRooms_spec (socketId : string) st :
  exists st',
    RoomManager.leaveAllRooms socketId st = Some st' /\
    (RoomManager.socketToRooms st !! socketId = None /\ st' = st \/
     exists st1,
       LeaveSteps socketId st st1 /\
       RoomManager.getUserRooms socketId st1 = [] /\
       st' = RoomManager.mk (RoomManager.rooms st1)
               (delete socketId (RoomManager.socketToRooms st1))).
Proof.
  unfold RoomManager.leaveAllRooms.
  destruct (RoomManager.socketToRooms st !! socketId) as [entries|] eqn:Hent.
  - destruct (leaveAllRooms_forEach_spec socketId (S (length entries)) 0 st entries)
      as (st1 & Hrun & Hsteps & _ & Hempty); [done|lia|lia| |].
    + intros entries' r Hent' Hr.
      pose proof (eq_trans (eq_sym Hent) Hent') as [= <-].
      apply list_elem_of_lookup in Hr as [j Hj]. exists j. split; [lia|done].
    + rewrite Hrun. eexists. split; [done|]. right. by exists st1.
  - exists st. split; [done|]. by left.
Qed.

Lemma dropRoomSet_ok (socketId : string) st :
  RoomManager.getUserRooms socketId st = [] ->
  membersOk st /\ joinedOk st /\ bidirOk st ->
  let st' := RoomManager.mk (RoomManager.rooms st)
               (delete socketId (RoomManager.socketToRooms st)) in
  membersOk st' /\ joinedOk st' /\ bidirOk st'.
Proof.
  intros Hempty (Hm & Hj & Hb). simpl. split; [done|]. split.
  - intros s joined. simpl. intros [_ Hl]%lookup_delete_Some. by apply (Hj s).
  - intros r s. specialize (Hb r s).
    unfold RoomManager.isUserInRoom, RoomManager.getUserRooms in *. simpl.
    destruct (decide (socketId = s)) as [<-|Hne].
    + rewrite lookup_delete_eq. unfold RoomManager.getUserRooms in Hempty.
      by rewrite Hempty in Hb.
    + by rewrite lookup_delete_ne.
Qed.

Lemma RoomReachable_ok st :
  RoomReachable st -> membersOk st /\ joinedOk st /\ bidirOk st.
Proof.
  induction 1 as [|now r st _ (Hm & Hj & Hb)|now r u st _ (Hm & Hj & Hb)
                  |r s st _ (Hm & Hj & Hb)|s st st' _ IH Hleave].
  - split; [|split].
    + intros r room. unfold RoomManager.init. simpl. by rewrite lookup_empty.
    + intros s joined. unfold RoomManager.init. simpl. by rewrite lookup_empty.
    + intros r s. unfold RoomManager.isUserInRoom, RoomManager.getUserRooms,
        RoomManager.init. simpl. rewrite !lookup_empty, elem_of_nil.
      split; [discriminate|done].
  - auto using membersOk_createRoom, joinedOk_createRoom, bidirOk_createRoom.
  - auto using membersOk_joinRoom, joinedOk_joinRoom, bidirOk_joinRoom.
  - auto using membersOk_leaveRoom, joinedOk_leaveRoom, bidirOk_leaveRoom.
  - destruct (leaveAllRooms_spec s st) as (st2 & Hrun & Hcase).
    rewrite Hleave in Hrun. injection Hrun as <-.
    destruct Hcase as [[_ ->]|(st1 & Hsteps & Hempty & ->)]; [done|].
    apply dropRoomSet_ok; [done|].
    apply (LeaveSteps_preserve
             (fun st0 => membersOk st0 /\ joinedOk st0 /\ bidirOk st0) s st st1);
      [|done|done].
    intros r st0 (Hm & Hj & Hb).
    auto using membersOk_leaveRoom, joinedOk_leaveRoom, bidirOk_leaveRoom.
Qed.

Lemma MembershipReachable_RoomReachable st :
  MembershipReachable st -> RoomReachable st.
Proof.
  induction 1; eauto using RoomReachable_init, RoomReachable_joinRoom,
    RoomReachable_leaveRoom, RoomReachable_leaveAllRooms.
Qed.

Lemma MembershipReachable_noEmptyRoom st :
  MembershipReachable st -> noEmptyRoom st.
Proof.
  induction 1 as [|now r u st _ IH|r s st _ IH|s st st' _ IH Hleave].
  - intros r room. unfold RoomManager.init. simpl. by rewrite lookup_empty.
  - by apply noEmptyRoom_joinRoom.
  - by apply noEmptyRoom_leaveRoom.
  - destruct (leaveAllRooms_spec s st) as (st2 & Hrun & Hcase).
    rewrite Hleave in Hrun. injection Hrun as <-.
    destruct Hcase as [[_ ->]|(st1 & Hsteps & _ & ->)]; [done|].
    assert (noEmptyRoom st1) as H1.
    { apply (LeaveSteps_preserve noEmptyRoom s st st1); [|done|done].
      intros r st0. apply noEmptyRoom_leaveRoom. }
    intros r room. simpl. apply H1.
Qed.

(** ** Room lifecycle *)

(** C1, as the code has it. In every state built by [joinRoom],
    [leaveRoom] and [leaveAllRooms], a room is in the room table iff it
    has at least one member. *)
Theorem room_exists_iff_has_member (st : RoomManager.t) :
  MembershipReachable st ->
  forall roomId,
    RoomManager.roomExists roomId st = true <->
    0 < length (RoomManager.getRoomUsers roomId st).
Proof.
  intros Hne%MembershipReachable_noEmptyRoom roomId.
  unfold RoomManager.roomExists, RoomManager.getRoomUsers.
  destruct (RoomManager.rooms st !! roomId) as [room|] eqn:Hr.
  - specialize (Hne _ _ Hr). unfold JsMap.values. rewrite length_map.
    destruct (Room.users room); [done|]. simpl. split; [lia|done].
  - simpl. split; [discriminate|lia].
Qed.

(** C1 fails when [createRoom] counts among the operations: on the empty
    registry it puts a room without members into the table. *)
Lemma createRoom_makes_empty_room :
  ~ (forall st, RoomReachable st ->
       forall roomId,
         RoomManager.roomExists roomId st = true <->
         0 < length (RoomManager.getRoomUsers roomId st)).
Proof.
  intros Hclaim.
  pose proof (Hclaim (RoomManager.createRoom 0%Z "lobby" RoomManager.init)
                (RoomReachable_createRoom _ _ _ RoomReachable_init) "lobby")
    as [Hex _].
  assert (RoomManager.roomExists "lobby"
            (RoomManager.createRoom 0%Z "lobby" RoomManager.init) = true) as Htrue
    by reflexivity.
  specialize (Hex Htrue). vm_compute in Hex. lia.
Qed.

(** C5. [leaveAllRooms] returns, and afterwards the connection has no
    room left and is in the member map of no room. *)
Theorem leaveAllRooms_clears_connection (st : RoomManager.t) (socketId : string) :
  RoomReachable st ->
  exists st',
    RoomManager.leaveAllRooms socketId st = Some st' /\
    RoomManager.getUserRooms socketId st' = [] /\
    (forall roomId room,
       RoomManager.rooms st' !! roomId = Some room ->
       JsMap.has socketId (Room.users room) = false) /\
    (forall roomId, RoomManager.isUserInRoom roomId socketId st' = false).
Proof.
  intros (Hm & Hj & Hb)%RoomReachable_ok.
  destruct (leaveAllRooms_spec socketId st) as (st' & Hrun & Hcase).
  exists st'. split; [done|].
  assert (RoomManager.getUserRooms socketId st' = [] /\ bidirOk st') as [Hempty Hb'].
  { destruct Hcase as [[Hnone ->]|(st1 & Hsteps & Hempty & ->)].
    - split; [|done]. unfold RoomManager.getUserRooms. by rewrite Hnone.
    - assert (membersOk st1 /\ joinedOk st1 /\ bidirOk st1) as Hok1.
      { apply (LeaveSteps_preserve
                 (fun st0 => membersOk st0 /\ joinedOk st0 /\ bidirOk st0)
                 socketId st st1); [|done|done].
        intros r st0 (? & ? & ?).
        auto using membersOk_leaveRoom, joinedOk_leaveRoom, bidirOk_leaveRoom. }
      destruct (dropRoomSet_ok socketId st1 Hempty Hok1) as (_ & _ & Hb1).
      split; [|done]. unfold RoomManager.getUserRooms. simpl.
      by rewrite lookup_delete_eq. }
  assert (forall roomId, RoomManager.isUserInRoom roomId socketId st' = false)
    as Hout.
  { intros roomId.
    destruct (RoomManager.isUserInRoom roomId socketId st') eqn:Hin; [|done].
    apply Hb' in Hin. rewrite Hempty in Hin. by apply elem_of_nil in Hin. }
  split; [done|]. split; [|done].
  intros roomId room Hroom. specialize (Hout roomId).
  unfold RoomManager.isUserInRoom in Hout. by rewrite Hroom in Hout.
Qed.

(** ** The sender lookup of the handlers *)

Lemma isUserInRoom_findBySocket (st : RoomManager.t) (roomId socketId : string) :
  membersOk st ->
  RoomManager.isUserInRoom roomId socketId st = true ->
  exists user,
    findBySocket socketId (RoomManager.getRoomUsers roomId st) = Some user /\
    RoomUser.socketId user = socketId.
Proof.
  intros Hm. unfold RoomManager.isUserInRoom, RoomManager.getRoomUsers, findBySocket.
  destruct (RoomManager.rooms st !! roomId) as [room|] eqn:Hr; [|discriminate].
  destruct (Hm _ _ Hr) as [_ Hkey]. unfold JsMap.has.
  destruct (JsMap.get socketId (Room.users room)) as [u|] eqn:Hget; [|discriminate].
  intros _. apply jsmap_get_elem in Hget. pose proof (Hkey _ _ Hget) as Hu.
  destruct (List.find _ (JsMap.values (Room.users room))) as [user|] eqn:Hfind.
  - exists user. split; [done|]. apply find_some in Hfind as [_ Heq].
    by apply String.eqb_eq in Heq.
  - exfalso. assert (In u (JsMap.values (Room.users room))) as Hin.
    { unfold JsMap.values. apply in_map_iff. exists (socketId, u).
      split; [done|]. by apply list_elem_of_In. }
    apply (find_none _ _ Hfind u) in Hin. simpl in Hin.
    rewrite Hu, String.eqb_refl in Hin. discriminate.
Qed.

(** C9. In a state the registry can be in, a connection that passes the
    [isUserInRoom] guard is found in the roster; hence the handlers for
    chat messages, reactions and typing never throw their not-found
    errors. *)
Theorem sender_lookup_succeeds (w : World) (roomId socketId eventName : string)
    (chat : ChatMessage.t) (reaction : MessageReaction.t)
    (typing : TypingIndicator.t) :
  RoomReachable (roomManager w) ->
  (RoomManager.isUserInRoom roomId socketId (roomManager w) = true ->
   exists user,
     findBySocket socketId (RoomManager.getRoomUsers roomId (roomManager w))
       = Some user /\
     RoomUser.socketId user = socketId) /\
  fst (ChatMessageHandler.execute socketId eventName chat w)
    <> Throw (Error "Sender not found") /\
  fst (MessageReactionHandler.execute socketId eventName reaction w)
    <> Throw (Error "User not found") /\
  fst (TypingIndicatorHandler.execute socketId eventName typing w)
    <> Throw (Error "Typer not found").
Proof.
  intros (Hm & _ & _)%RoomReachable_ok.
  split; [by apply isUserInRoom_findBySocket|]. split; [|split].
  - unfold ChatMessageHandler.execute, bind, read, throw, update, newDate. simpl.
    destruct (RoomManager.isUserInRoom (ChatMessage.roomId chat) socketId
                (roomManager w)) eqn:Hin; simpl; [|discriminate].
    destruct (isUserInRoom_findBySocket _ _ _ Hm Hin) as (user & -> & _).
    discriminate.
  - unfold MessageReactionHandler.execute, bind, read, throw, update, newDate.
    simpl.
    destruct (RoomManager.isUserInRoom (MessageReaction.roomId reaction) socketId
                (roomManager w)) eqn:Hin; simpl; [|discriminate].
    destruct (isUserInRoom_findBySocket _ _ _ Hm Hin) as (user & -> & _).
    simpl. by destruct (ReactionManager.hasUserReacted _ _ _ (reactionManager w)).
  - unfold TypingIndicatorHandler.execute, bind, read, throw, update. simpl.
    destruct (RoomManager.isUserInRoom (TypingIndicator.roomId typing) socketId
                (roomManager w)) eqn:Hin; simpl; [|discriminate].
    destruct (isUserInRoom_findBySocket _ _ _ Hm Hin) as (user & -> & _).
    discriminate.
Qed.

(** ** [ChatMessageHandler] and [TypingIndicatorHandler] *)

Lemma recipients_None (users : list RoomUser.t) :
  recipients None users = map RoomUser.socketId users.
Proof.
  unfold recipients. f_equal. induction users as [|u users IH]; simpl; [done|].
  by rewrite IH.
Qed.

Lemma recipients_Some (socketId : string) (users : list RoomUser.t) :
  socketId <> "" ->
  recipients (Some socketId) users =
  List.filter (fun s => negb (String.eqb s socketId))
    (map RoomUser.socketId users).
Proof.
  intros Hne. unfold recipients, WebSocketServer.notExcluded, truthy.
  apply String.eqb_neq in Hne as ->. simpl.
  induction users as [|u users IH]; simpl; [done|].
  destruct (String.eqb (RoomUser.socketId u) socketId); simpl; by rewrite IH.
Qed.

Lemma findBySocket_Some (socketId : string) (users : list RoomUser.t)
    (user : RoomUser.t) :
  findBySocket socketId users = Some user ->
  user ∈ users /\ RoomUser.socketId user = socketId.
Proof.
  unfold findBySocket. intros [Hin Heq]%find_some.
  split; [by apply list_elem_of_In|by apply String.eqb_eq].
Qed.


(** For a sender with a non-empty connection id that is a member of the
    room, the typing handler succeeds, changes no registry, and sends the
    typing state to every member of the room except the sender. *)
Theorem typing_excludes_sender (socketId eventName : string)
    (data : TypingIndicator.t) (w : World) :
  socketId <> "" ->
  RoomReachable (roomManager w) ->
  RoomManager.isUserInRoom (TypingIndicator.roomId data) socketId
    (roomManager w) = true ->
  let roomId := TypingIndicator.roomId data in
  let members := RoomManager.getRoomUsers roomId (roomManager w) in
  let others :=
    List.filter (fun s => negb (String.eqb s socketId))
      (map RoomUser.socketId members) in
  exists w' typer,
    TypingIndicatorHandler.execute socketId eventName data w = (Normal tt, w') /\
    findBySocket socketId members = Some typer /\
    connectionManager w' = connectionManager w /\
    roomManager w' = roomManager w /\
    reactionManager w' = reactionManager w /\
    ~ socketId ∈ others /\
    (forall s, s ∈ map RoomUser.socketId members -> s <> socketId -> s ∈ others) /\
    forall out,
      io w = Some out ->
      io w' =
      Some (out ++
            deliveries "room:typing"
              (TypingPayload roomId (RoomUser.userId typer)
                 (RoomUser.username typer) (TypingIndicator.isTyping data))
              others).
Proof.
  intros Hne (Hm & _ & _)%RoomReachable_ok Hin. simpl.
  destruct (isUserInRoom_findBySocket _ _ _ Hm Hin) as (typer & Hfind & _).
  unfold TypingIndicatorHandler.execute, bind, read, throw, update. simpl.
  rewrite Hin. simpl. rewrite Hfind. simpl.
  eexists _, typer. split; [done|]. split; [done|].
  match goal with
  | |- context [WebSocketServer.broadcastToRoom ?r ?e ?d ?x ?w0] =>
      destruct (broadcastToRoom_spec r e d x w0) as (Hc & Hr & Hx & _ & _ & Hio)
  end.
  rewrite Hc, Hr, Hx. repeat split; try done.
  - rewrite list_elem_of_In, filter_In, String.eqb_refl. simpl. by intros [_ ?].
  - intros s Hs Hsne. rewrite list_elem_of_In, filter_In, <- list_elem_of_In.
    split; [done|]. by apply String.eqb_neq in Hsne as ->.
  - intros out Hout. rewrite Hio, Hout. simpl. by rewrite recipients_Some.
Qed.


(** ** [WebSocketServer.handleDisconnect] *)

Lemma getRoomUsers_leaveRoom (roomId socketId : string) st :
  RoomManager.getRoomUsers roomId (RoomManager.leaveRoom roomId socketId st) =
  match RoomManager.rooms st !! roomId with
  | Some room => JsMap.values (JsMap.del socketId (Room.users room))
  | None => []
  end.
Proof.
  unfold RoomManager.getRoomUsers. rewrite rooms_leaveRoom, decide_True by done.
  destruct (RoomManager.rooms st !! roomId) as [room|]; [|done].
  by destruct (JsMap.del socketId (Room.users room)).
Qed.


(** The leaving connection is not among the recipients. *)
Lemma userLeftDeliveries_not_to_leaver (socketId roomId : string) st (e : Emission) :
  membersOk st -> e ∈ userLeftDeliveries socketId st roomId -> to e <> socketId.
Proof.
  intros Hm. unfold userLeftDeliveries, deliveries.
  destruct (findBySocket _ _); [|by intros ?%elem_of_nil].
  rewrite getRoomUsers_leaveRoom.
  destruct (RoomManager.rooms st !! roomId) as [room|] eqn:Hr;
    [|by intros ?%elem_of_nil].
  destruct (Hm _ _ Hr) as [_ Hkey].
  intros (s & -> & Hs)%list_elem_of_fmap. simpl.
  apply list_elem_of_fmap in Hs as (u & -> & Hu).
  unfold JsMap.values in Hu. apply list_elem_of_fmap in Hu as ([k u'] & -> & Hin).
  unfold JsMap.del in Hin. apply list_elem_of_In, filter_In in Hin as [Hin Hk].
  simpl in *. rewrite (Hkey k u') by (by apply list_elem_of_In).
  destruct (String.eqb_spec k socketId); done.
Qed.


Lemma handleDisconnect_room_spec (socketId roomId : string) (w : World)
    (out : list Emission) :
  io w = Some out ->
  let w1 := WebSocketServer.handleDisconnect_room socketId w roomId in
  connectionManager w1 = connectionManager w /\
  roomManager w1 = RoomManager.leaveRoom roomId socketId (roomManager w) /\
  reactionManager w1 = reactionManager w /\
  io w1 = Some (out ++ userLeftDeliveries socketId (roomManager w) roomId).
Proof.
  intros Hout. unfold WebSocketServer.handleDisconnect_room, userLeftDeliveries.
  fold (findBySocket socketId (RoomManager.getRoomUsers roomId (roomManager w))).
  destruct (findBySocket socketId _) as [leavingUser|]; simpl.
  - match goal with
    | |- context [WebSocketServer.broadcastToRoom ?r ?e ?d ?x ?w0] =>
        destruct (broadcastToRoom_spec r e d x w0)
          as (Hc & Hr & Hx & _ & _ & Hio)
    end.
    rewrite Hc, Hr, Hx, Hio. simpl. rewrite Hout. simpl.
    by rewrite recipients_None.
  - rewrite Hout. by rewrite app_nil_r.
Qed.



(** * The theorems at work on the small running system *)

Lemma exampleRooms_MembershipReachable : MembershipReachable exampleRooms.
Proof.
  unfold exampleRooms.
  apply MembershipReachable_joinRoom, MembershipReachable_joinRoom,
    MembershipReachable_init.
Defined.

Lemma exampleRooms_RoomReachable : RoomReachable exampleRooms.
Proof.
  unfold exampleRooms.
  apply RoomReachable_joinRoom, RoomReachable_joinRoom, RoomReachable_init.
Defined.

Lemma addConnection_rebind_witness :
  "u1" <> "u2" /\
  let st' := ConnectionManager.addConnection "s1" "u2"
               (ConnectionManager.addConnection "s1" "u1" ConnectionManager.init) in
  ConnectionManager.getUserBySocket "s1" st' = Some "u2" /\
  "s1" ∈ ConnectionManager.getConnectionsByUser "u2" st' /\
  "s1" ∈ ConnectionManager.getConnectionsByUser "u1" st'.
Proof.
  split; [discriminate|].
  apply (addConnection_rebind_keeps_stale_socket ConnectionManager.init
           "s1" "u1" "u2").
  discriminate.
Defined.

Lemma route_unknown_event_witness :
  MessageRouter.handlers (Application.messageRouter rejectingSchemas) !! "nope"
    = None /\
  MessageRouter.route (Application.messageRouter rejectingSchemas)
    "s1" "nope" "{}" exampleWorld =
  (Throw (MessageRouter.noHandlerError "nope"), exampleWorld).
Proof.
  assert (MessageRouter.handlers (Application.messageRouter rejectingSchemas)
            !! "nope" = None) as Hnone by (vm_compute; reflexivity).
  split; [exact Hnone|].
  exact (proj2 (proj2 (route_throws_iff
                         (Application.messageRouter rejectingSchemas)
                         "s1" "nope" "{}" exampleWorld)) Hnone).
Defined.

Lemma getReactions_no_duplicate_record_witness :
  let st :=
    ReactionManager.addReaction "m1" (Reaction.mk "s2" "bob" "👍" 1%Z)
      (ReactionManager.addReaction "m1" (Reaction.mk "s1" "alice" "👍" 0%Z)
         ReactionManager.init) in
  ReactionReachable st /\
  NoDup (map (fun r => (Reaction.emoji r, Reaction.userId r))
           (allReactions (ReactionManager.getReactions "m1" st))).
Proof.
  simpl.
  assert (ReactionReachable
            (ReactionManager.addReaction "m1" (Reaction.mk "s2" "bob" "👍" 1%Z)
               (ReactionManager.addReaction "m1"
                  (Reaction.mk "s1" "alice" "👍" 0%Z) ReactionManager.init)))
    as Hreach
    by apply ReactionReachable_add, ReactionReachable_add, ReactionReachable_init.
  split; [exact Hreach|].
  exact (getReactions_no_duplicate_record _ "m1" Hreach).
Defined.



Lemma room_exists_iff_has_member_witness :
  MembershipReachable exampleRooms /\
  forall roomId,
    RoomManager.roomExists roomId exampleRooms = true <->
    0 < length (RoomManager.getRoomUsers roomId exampleRooms).
Proof.
  split; [exact exampleRooms_MembershipReachable|].
  exact (room_exists_iff_has_member exampleRooms exampleRooms_MembershipReachable).
Defined.

Lemma leaveAllRooms_clears_connection_witness :
  RoomReachable exampleRooms /\
  exists st',
    RoomManager.leaveAllRooms "s1" exampleRooms = Some st' /\
    RoomManager.getUserRooms "s1" st' = [] /\
    (forall roomId room,
       RoomManager.rooms st' !! roomId = Some room ->
       JsMap.has "s1" (Room.users room) = false) /\
    (forall roomId, RoomManager.isUserInRoom roomId "s1" st' = false).
Proof.
  split; [exact exampleRooms_RoomReachable|].
  exact (leaveAllRooms_clears_connection exampleRooms "s1"
           exampleRooms_RoomReachable).
Defined.

Lemma sender_lookup_succeeds_witness :
  RoomReachable (roomManager exampleWorld) /\
  (RoomManager.isUserInRoom "r1" "s1" (roomManager exampleWorld) = true ->
   exists user,
     findBySocket "s1" (RoomManager.getRoomUsers "r1" (roomManager exampleWorld))
       = Some user /\
     RoomUser.socketId user = "s1") /\
  fst (ChatMessageHandler.execute "s1" "chat:message" exampleChat exampleWorld)
    <> Throw (Error "Sender not found") /\
  fst (MessageReactionHandler.execute "s1" "chat:message" exampleReaction
         exampleWorld)
    <> Throw (Error "User not found") /\
  fst (TypingIndicatorHandler.execute "s1" "chat:message"
         (TypingIndicator.mk "r1" true) exampleWorld)
    <> Throw (Error "Typer not found").
Proof.
  split; [exact exampleRooms_RoomReachable|].
  exact (sender_lookup_succeeds exampleWorld "r1" "s1" "chat:message"
           exampleChat exampleReaction (TypingIndicator.mk "r1" true)
           exampleRooms_RoomReachable).
Defined.


Lemma typing_excludes_sender_witness :
  "s1" <> "" /\
  RoomReachable (roomManager exampleWorld) /\
  RoomManager.isUserInRoom "r1" "s1" (roomManager exampleWorld) = true /\
  let members := RoomManager.getRoomUsers "r1" (roomManager exampleWorld) in
  let others :=
    List.filter (fun s => negb (String.eqb s "s1"))
      (map RoomUser.socketId members) in
  exists w' typer,
    TypingIndicatorHandler.execute "s1" "room:typing"
      (TypingIndicator.mk "r1" true) exampleWorld = (Normal tt, w') /\
    findBySocket "s1" members = Some typer /\
    connectionManager w' = connectionManager exampleWorld /\
    roomManager w' = roomManager exampleWorld /\
    reactionManager w' = reactionManager exampleWorld /\
    ~ "s1" ∈ others /\
    (forall s, s ∈ map RoomUser.socketId members -> s <> "s1" -> s ∈ others) /\
    forall out,
      io exampleWorld = Some out ->
      io w' =
      Some (out ++
            deliveries "room:typing"
              (TypingPayload "r1" (RoomUser.userId typer)
                 (RoomUser.username typer) true)
              others).
Proof.
  assert ("s1" <> "") as Hne by discriminate.
  assert (RoomManager.isUserInRoom "r1" "s1" (roomManager exampleWorld) = true)
    as Hin by (vm_compute; reflexivity).
  split; [exact Hne|]. split; [exact exampleRooms_RoomReachable|].
  split; [exact Hin|].
  exact (typing_excludes_sender "s1" "room:typing" (TypingIndicator.mk "r1" true)
           exampleWorld Hne exampleRooms_RoomReachable Hin).
Defined.


(** The disconnect of bob on the example: alice, who stays in [r1], is
    sent one [room:user_left] with the remaining roster; bob is sent
    nothing and is unknown to the connection registry afterwards. *)
Example handleDisconnect_example :
  let w' := WebSocketServer.handleDisconnect "s2" exampleWorld in
  sent w' =
    [mkEmission "s1" "room:user_left"
       (RosterPayload "r1" (UserRef.mk "s2" "bob") [UserRef.mk "s1" "alice"])] /\
  ConnectionManager.getUserBySocket "s2" (connectionManager w') = None /\
  ConnectionManager.getUserBySocket "s1" (connectionManager w') = Some "s1" /\
  RoomManager.getRoomUsers "r1" (roomManager w') = [alice].
Proof. vm_compute. repeat split. Qed.

(** The reaction scenario: bob reacts to [m1], then sends the identical
    event again; the second broadcast carries an empty reaction map and
    the index is empty again. *)
Example toggle_reaction_example :
  let w1 := snd (MessageReactionHandler.execute "s2" "message:reaction"
                   exampleReaction exampleWorld) in
  let w2 := snd (MessageReactionHandler.execute "s2" "message:reaction"
                   exampleReaction w1) in
  sent w1 =
    deliveries "message:reaction_updated"
      (ReactionsPayload "m1" "r1" [("👍", [UserRef.mk "s2" "bob"])])
      ["s1"; "s2"] /\
  sent w2 =
    sent w1 ++
    deliveries "message:reaction_updated" (ReactionsPayload "m1" "r1" [])
      ["s1"; "s2"] /\
  reactionManager w2 = ReactionManager.init.
Proof. vm_compute. repeat split. Qed.


(** * Further properties of the room registry *)

Lemma list_filter_neq_id (x : string) (l : list string) :
  ~ x ∈ l -> List.filter (fun y => negb (String.eqb y x)) l = l.
Proof.
  induction l as [|y l IH]; simpl; [done|].
  intros Hx. destruct (String.eqb_spec y x) as [->|Hne]; simpl.
  - exfalso. apply Hx. left.
  - f_equal. apply IH. intros Hin. apply Hx. by right.
Qed.

Lemma keyed_socketIds (m : JsMap.t RoomUser.t) :
  (forall k u, (k, u) ∈ m -> RoomUser.socketId u = k) ->
  map RoomUser.socketId (JsMap.values m) = JsMap.keys m.
Proof.
  unfold JsMap.values, JsMap.keys.
  induction m as [|[k u] m IH]; intros Hkey; simpl; [done|].
  rewrite (Hkey k u) by left. f_equal. apply IH. intros k' u' Hin.
  apply Hkey. by right.
Qed.

Lemma keyed_find_get (s : string) (m : JsMap.t RoomUser.t) (u : RoomUser.t) :
  (forall k u, (k, u) ∈ m -> RoomUser.socketId u = k) ->
  JsMap.get s m = Some u ->
  findBySocket s (JsMap.values m) = Some u.
Proof.
  unfold findBySocket, JsMap.values.
  induction m as [|[k0 u0] m IH]; intros Hkey; simpl; [discriminate|].
  rewrite (Hkey k0 u0) by left.
  destruct (String.eqb k0 s); [done|]. apply IH. intros k' u' Hin.
  apply Hkey. by right.
Qed.

Lemma jsmap_get_set_self {V : Type} (k : string) (v : V) (m : JsMap.t V) :
  JsMap.get k (JsMap.set k v m) = Some v.
Proof. by rewrite jsmap_get_set, String.eqb_refl. Qed.

Lemma jsmap_has_get_None {V : Type} (k : string) (m : JsMap.t V) :
  JsMap.has k m = false -> JsMap.get k m = None.
Proof. unfold JsMap.has. by destruct (JsMap.get k m). Qed.

Lemma isUserInRoom_socketIds st (roomId socketId : string) :
  membersOk st ->
  RoomManager.isUserInRoom roomId socketId st = true <->
  socketId ∈ map RoomUser.socketId (RoomManager.getRoomUsers roomId st).
Proof.
  intros Hm. unfold RoomManager.isUserInRoom, RoomManager.getRoomUsers.
  destruct (RoomManager.rooms st !! roomId) as [room|] eqn:Hr.
  - destruct (Hm _ _ Hr) as [_ Hkey].
    rewrite (keyed_socketIds _ Hkey). apply jsmap_has_keys.
  - simpl. rewrite elem_of_nil. split; [discriminate|done].
Qed.

(** X1. In every state the room registry can be in, three views of
    membership agree: the connection is in the room's member map, the
    room is in the connection's room list, and the room's roster holds a
    user with that socket id. *)
Theorem membership_views_agree (st : RoomManager.t) (roomId socketId : string) :
  RoomReachable st ->
  (RoomManager.isUserInRoom roomId socketId st = true <->
   roomId ∈ RoomManager.getUserRooms socketId st) /\
  (RoomManager.isUserInRoom roomId socketId st = true <->
   socketId ∈ map RoomUser.socketId (RoomManager.getRoomUsers roomId st)).
Proof.
  intros (Hm & _ & Hb)%RoomReachable_ok. split; [apply Hb|].
  by apply isUserInRoom_socketIds.
Qed.

(** X2. In every state the room registry can be in, a roster lists each
    connection at most once and a connection's room list names each room
    at most once. *)
Theorem rosters_and_room_lists_have_no_duplicates (st : RoomManager.t)
    (roomId socketId : string) :
  RoomReachable st ->
  NoDup (map RoomUser.socketId (RoomManager.getRoomUsers roomId st)) /\
  NoDup (RoomManager.getUserRooms socketId st).
Proof.
  intros (Hm & Hj & _)%RoomReachable_ok. split.
  - unfold RoomManager.getRoomUsers.
    destruct (RoomManager.rooms st !! roomId) as [room|] eqn:Hr; [|constructor].
    destruct (Hm _ _ Hr) as [Hnd Hkey]. by rewrite (keyed_socketIds _ Hkey).
  - unfold RoomManager.getUserRooms.
    destruct (RoomManager.socketToRooms st !! socketId) as [joined|] eqn:Hjoined;
      [|constructor].
    by apply (Hj socketId).
Qed.

Lemma getRoomUsers_joinRoom (now : Date) (roomId : string) (user : RoomUser.t)
    st (roomId' : string) :
  RoomManager.getRoomUsers roomId' (RoomManager.joinRoom now roomId user st) =
  if decide (roomId = roomId') then
    match RoomManager.rooms st !! roomId with
    | Some room =>
        JsMap.values (JsMap.set (RoomUser.socketId user) user (Room.users room))
    | None => [user]
    end
  else RoomManager.getRoomUsers roomId' st.
Proof.
  unfold RoomManager.getRoomUsers. rewrite rooms_joinRoom.
  destruct (decide (roomId = roomId')); [|done].
  by destruct (RoomManager.rooms st !! roomId).
Qed.

Lemma jsmap_values_set_present {V : Type} (k : string) (v : V) (m : JsMap.t V) :
  JsMap.has k m = true ->
  length (JsMap.values (JsMap.set k v m)) = length (JsMap.values m).
Proof.
  unfold JsMap.values. rewrite !length_map. unfold JsMap.has.
  induction m as [|[k0 v0] m IH]; simpl; [discriminate|].
  destruct (String.eqb k0 k); simpl; [done|]. intros H. by rewrite IH.
Qed.

(** X3. [joinRoom] in a reachable state: afterwards the roster lookup by
    the user's socket id returns the joined user; a connection that was
    already a member keeps its single roster entry (the roster does not
    grow), a new member is appended at the end of the roster; the rosters
    of the other rooms are untouched. *)
Theorem joinRoom_roster (now : Date) (roomId : string) (user : RoomUser.t)
    (st : RoomManager.t) :
  RoomReachable st ->
  let st' := RoomManager.joinRoom now roomId user st in
  let socketId := RoomUser.socketId user in
  findBySocket socketId (RoomManager.getRoomUsers roomId st') = Some user /\
  RoomManager.isUserInRoom roomId socketId st' = true /\
  (if RoomManager.isUserInRoom roomId socketId st
   then length (RoomManager.getRoomUsers roomId st') =
        length (RoomManager.getRoomUsers roomId st)
   else RoomManager.getRoomUsers roomId st' =
        RoomManager.getRoomUsers roomId st ++ [user]) /\
  (forall roomId', roomId' <> roomId ->
     RoomManager.getRoomUsers roomId' st' = RoomManager.getRoomUsers roomId' st).
Proof.
  intros Hreach. simpl.
  pose proof (RoomReachable_ok _ (RoomReachable_joinRoom now roomId user st Hreach))
    as (Hm' & _ & _).
  split; [|split; [|split]].
  - unfold RoomManager.getRoomUsers.
    destruct (RoomManager.rooms (RoomManager.joinRoom now roomId user st) !! roomId)
      as [room'|] eqn:Hr'.
    + destruct (Hm' _ _ Hr') as [_ Hkey]. apply keyed_find_get; [done|].
      rewrite rooms_joinRoom, decide_True in Hr' by done. injection Hr' as <-.
      destruct (RoomManager.rooms st !! roomId); simpl.
      * apply jsmap_get_set_self.
      * by rewrite String.eqb_refl.
    + rewrite rooms_joinRoom, decide_True in Hr' by done. discriminate.
  - rewrite isUserInRoom_joinRoom, !String.eqb_refl. done.
  - rewrite getRoomUsers_joinRoom, decide_True by done.
    unfold RoomManager.isUserInRoom, RoomManager.getRoomUsers.
    destruct (RoomManager.rooms st !! roomId) as [room|]; [|done].
    destruct (JsMap.has (RoomUser.socketId user) (Room.users room)) eqn:Hhas.
    + by apply jsmap_values_set_present.
    + rewrite (jsmap_set_fresh _ _ _ (jsmap_has_get_None _ _ Hhas)).
      unfold JsMap.values. by rewrite map_app.
  - intros roomId' Hne. rewrite getRoomUsers_joinRoom, decide_False; done.
Qed.

Lemma leaveRoom_nonmember_rooms (roomId socketId : string) st :
  noEmptyRoom st ->
  RoomManager.isUserInRoom roomId socketId st = false ->
  RoomManager.rooms (RoomManager.leaveRoom roomId socketId st) =
  RoomManager.rooms st.
Proof.
  intros Hne Hout. apply map_eq. intros r. rewrite rooms_leaveRoom.
  destruct (decide (roomId = r)) as [<-|]; [|done].
  unfold RoomManager.isUserInRoom in Hout.
  destruct (RoomManager.rooms st !! roomId) as [room|] eqn:Hr; [|done].
  rewrite (jsmap_del_fresh _ _ (jsmap_has_get_None _ _ Hout)).
  specialize (Hne _ _ Hr). destruct room as [rid users created]. simpl in *.
  by destruct users.
Qed.

Lemma leaveRoom_nonmember_getUserRooms (roomId socketId : string) st
    (socketId' : string) :
  ~ roomId ∈ RoomManager.getUserRooms socketId st ->
  RoomManager.getUserRooms socketId' (RoomManager.leaveRoom roomId socketId st) =
  RoomManager.getUserRooms socketId' st.
Proof.
  intros Hout. unfold RoomManager.getUserRooms in *.
  rewrite socketToRooms_leaveRoom.
  destruct (decide (socketId = socketId')) as [<-|]; [|done].
  destruct (RoomManager.socketToRooms st !! socketId) as [joined|]; [|done].
  simpl. rewrite jsset_toArray_del. by apply list_filter_neq_id.
Qed.

(** X4. In a state built by [joinRoom], [leaveRoom] and [leaveAllRooms],
    a [leaveRoom] by a connection that is not a member of the room (or
    for a room that does not exist) changes neither the room table nor
    any connection's room list. *)
Theorem leaveRoom_by_nonmember_changes_nothing (roomId socketId : string)
    (st : RoomManager.t) :
  MembershipReachable st ->
  RoomManager.isUserInRoom roomId socketId st = false ->
  let st' := RoomManager.leaveRoom roomId socketId st in
  RoomManager.rooms st' = RoomManager.rooms st /\
  forall socketId',
    RoomManager.getUserRooms socketId' st' = RoomManager.getUserRooms socketId' st.
Proof.
  intros Hreach Hout. simpl.
  pose proof (MembershipReachable_noEmptyRoom _ Hreach) as Hne.
  pose proof (RoomReachable_ok _ (MembershipReachable_RoomReachable _ Hreach))
    as (_ & _ & Hb).
  split; [by apply leaveRoom_nonmember_rooms|].
  intros socketId'. apply leaveRoom_nonmember_getUserRooms.
  intros Hin%Hb. congruence.
Qed.

(** X5. In a state built by [joinRoom], [leaveRoom] and [leaveAllRooms],
    a connection that is not a member of a room, joins it and leaves it
    again, gives back the room table as it was (a room created by the
    join is deleted again) and every connection's room list as it was. *)
Theorem joinRoom_then_leaveRoom_restores (now : Date) (roomId : string)
    (user : RoomUser.t) (st : RoomManager.t) :
  MembershipReachable st ->
  RoomManager.isUserInRoom roomId (RoomUser.socketId user) st = false ->
  let st' := RoomManager.leaveRoom roomId (RoomUser.socketId user)
               (RoomManager.joinRoom now roomId user st) in
  RoomManager.rooms st' = RoomManager.rooms st /\
  forall socketId',
    RoomManager.getUserRooms socketId' st' = RoomManager.getUserRooms socketId' st.
Proof.
  intros Hreach Hout. cbv zeta.
  pose proof (MembershipReachable_noEmptyRoom _ Hreach) as Hne.
  pose proof (RoomReachable_ok _ (MembershipReachable_RoomReachable _ Hreach))
    as (_ & _ & Hb).
  split.
  - apply map_eq. intros r. rewrite rooms_leaveRoom.
    destruct (decide (roomId = r)) as [<-|];
      [|by rewrite rooms_joinRoom, decide_False].
    rewrite rooms_joinRoom, decide_True by done.
    unfold RoomManager.isUserInRoom in Hout.
    destruct (RoomManager.rooms st !! roomId) as [room|] eqn:Hr; simpl.
    + rewrite jsmap_del_set, (jsmap_del_fresh _ _ (jsmap_has_get_None _ _ Hout)).
      specialize (Hne _ _ Hr). destruct room as [rid users created]. simpl in *.
      by destruct users.
    + unfold JsMap.del. simpl. by rewrite String.eqb_refl.
  - intros socketId'. unfold RoomManager.getUserRooms.
    rewrite socketToRooms_leaveRoom, !socketToRooms_joinRoom.
    destruct (decide (RoomUser.socketId user = socketId')) as [<-|Hs]; [|done].
    rewrite decide_True by done. simpl.
    assert (~ roomId ∈ RoomManager.getUserRooms (RoomUser.socketId user) st) as Hnot
      by (intros Hin%Hb; congruence).
    unfold RoomManager.getUserRooms in Hnot.
    rewrite jsset_toArray_del, jsset_toArray_add.
    destruct (RoomManager.socketToRooms st !! RoomUser.socketId user) as [joined|].
    + assert (JsSet.has roomId joined = false) as ->.
      { destruct (JsSet.has roomId joined) eqn:Hhas; [|done].
        exfalso. apply Hnot. by apply jsset_elem_toArray, jsset_has_elem. }
      rewrite List.filter_app. simpl. rewrite String.eqb_refl. simpl.
      rewrite app_nil_r. by apply list_filter_neq_id.
    + simpl. by rewrite String.eqb_refl.
Qed.

(** X6. [createRoom] never touches membership: a room that exists is
    left as it is (members and creation time included), a second
    [createRoom] changes nothing, and no connection's membership or room
    list changes; afterwards the room exists. *)
Theorem createRoom_keeps_membership (now now' : Date) (roomId : string)
    (st : RoomManager.t) :
  let st' := RoomManager.createRoom now roomId st in
  RoomManager.roomExists roomId st' = true /\
  RoomManager.createRoom now' roomId st' = st' /\
  (if RoomManager.roomExists roomId st then st' = st
   else RoomManager.getRoomUsers roomId st' = []) /\
  (forall roomId' socketId,
     RoomManager.isUserInRoom roomId' socketId st' =
     RoomManager.isUserInRoom roomId' socketId st) /\
  (forall roomId', roomId' <> roomId ->
     RoomManager.rooms st' !! roomId' = RoomManager.rooms st !! roomId') /\
  (forall socketId,
     RoomManager.getUserRooms socketId st' = RoomManager.getUserRooms socketId st).
Proof.
  simpl. split; [|split; [|split; [|split; [|split]]]].
  - unfold RoomManager.roomExists. rewrite rooms_createRoom.
    destruct (RoomManager.rooms st !! roomId); [done|]. by rewrite decide_True.
  - unfold RoomManager.createRoom at 1. rewrite rooms_createRoom.
    destruct (RoomManager.rooms st !! roomId); [done|]. by rewrite decide_True.
  - unfold RoomManager.roomExists, RoomManager.getRoomUsers, RoomManager.createRoom.
    destruct (RoomManager.rooms st !! roomId) eqn:Hr; [done|].
    simpl. by rewrite lookup_insert_eq.
  - intros. apply isUserInRoom_createRoom.
  - intros roomId' Hne. rewrite rooms_createRoom.
    destruct (RoomManager.rooms st !! roomId'); [done|]. by rewrite decide_False.
  - intros. apply getUserRooms_createRoom.
Qed.

(** X7. A room survives a [leaveRoom] exactly when some other connection
    is a member of it; in particular a room without members (one made by
    [createRoom]) is deleted by the [leaveRoom] of any connection. *)
Theorem room_survives_leave_iff_other_member (roomId socketId : string)
    (st : RoomManager.t) :
  RoomManager.roomExists roomId (RoomManager.leaveRoom roomId socketId st) = true
  <-> exists other,
        other <> socketId /\
        RoomManager.isUserInRoom roomId other st = true.
Proof.
  unfold RoomManager.roomExists, RoomManager.isUserInRoom.
  rewrite rooms_leaveRoom, decide_True by done.
  destruct (RoomManager.rooms st !! roomId) as [room|].
  - destruct (JsMap.del socketId (Room.users room)) as [|[k v] rest] eqn:Hdel.
    + split; [discriminate|]. intros (other & Hne & Hhas).
      pose proof (jsmap_has_del socketId other (Room.users room)) as Hd.
      rewrite Hdel, Hhas in Hd. apply String.eqb_neq in Hne.
      rewrite String.eqb_sym, Hne in Hd. discriminate.
    + split; [|done]. intros _. exists k.
      pose proof (jsmap_has_del socketId k (Room.users room)) as Hd.
      rewrite Hdel in Hd. unfold JsMap.has in Hd at 1. simpl in Hd.
      rewrite String.eqb_refl in Hd. symmetry in Hd.
      apply andb_true_iff in Hd as [Hne Hhas]. split; [|done].
      apply negb_true_iff, String.eqb_neq in Hne. congruence.
  - split; [discriminate|]. by intros (other & _ & ?).
Qed.

(** * Further properties of the connection registry *)

Lemma jsset_toArray_nil_size (s : JsSet.t) :
  Nat.eqb (JsSet.size s) 0 = true -> JsSet.toArray s = [].
Proof.
  unfold JsSet.size. intros H%Nat.eqb_eq. by apply nil_length_inv.
Qed.

(** The list view of [addConnection]. *)
Lemma getConnectionsByUser_addConnection_list (st : ConnectionManager.t)
    (s u u' : string) :
  ConnectionManager.getConnectionsByUser u' (ConnectionManager.addConnection s u st) =
  if String.eqb u u' then
    if bool_decide (s ∈ ConnectionManager.getConnectionsByUser u st)
    then ConnectionManager.getConnectionsByUser u st
    else ConnectionManager.getConnectionsByUser u st ++ [s]
  else ConnectionManager.getConnectionsByUser u' st.
Proof.
  unfold ConnectionManager.getConnectionsByUser, ConnectionManager.addConnection.
  simpl. rewrite lookup_ensure_add.
  destruct (String.eqb_spec u u') as [<-|Hne].
  - rewrite decide_True by done. rewrite jsset_toArray_add.
    destruct (ConnectionManager.userToSockets st !! u) as [sockets|].
    + destruct (JsSet.has s sockets) eqn:Hhas.
      * rewrite bool_decide_eq_true_2; [done|].
        by apply jsset_elem_toArray, jsset_has_elem.
      * rewrite bool_decide_eq_false_2; [done|].
        intros Hin%jsset_elem_toArray%jsset_has_elem. congruence.
    + rewrite bool_decide_eq_false_2 by (by intros ?%elem_of_nil). done.
  - by rewrite decide_False.
Qed.

(** The list view of [removeConnection]: the socket leaves the list of
    the user it is bound to, when that user id is truthy. *)
Lemma getConnectionsByUser_removeConnection (st : ConnectionManager.t)
    (s u' : string) :
  ConnectionManager.getConnectionsByUser u' (ConnectionManager.removeConnection s st) =
  match ConnectionManager.getUserBySocket s st with
  | Some u =>
      if truthy u && String.eqb u u'
      then List.filter (fun s' => negb (String.eqb s' s))
             (ConnectionManager.getConnectionsByUser u' st)
      else ConnectionManager.getConnectionsByUser u' st
  | None => ConnectionManager.getConnectionsByUser u' st
  end.
Proof.
  unfold ConnectionManager.getConnectionsByUser, ConnectionManager.removeConnection,
    ConnectionManager.getUserBySocket.
  simpl. destruct (ConnectionManager.socketToUser st !! s) as [u|]; [|done].
  destruct (truthy u); simpl; [|done].
  destruct (ConnectionManager.userToSockets st !! u) as [sockets|] eqn:Hu.
  - rewrite lookup_insert_eq.
    destruct (Nat.eqb (JsSet.size (JsSet.del s sockets)) 0) eqn:Hsz.
    + apply jsset_toArray_nil_size in Hsz.
      destruct (String.eqb_spec u u') as [<-|Hne].
      * by rewrite lookup_delete_eq, Hu, <- jsset_toArray_del, Hsz.
      * by rewrite lookup_delete_ne, lookup_insert_ne.
    + destruct (String.eqb_spec u u') as [<-|Hne].
      * by rewrite lookup_insert_eq, Hu, jsset_toArray_del.
      * by rewrite lookup_insert_ne.
  - rewrite Hu. destruct (String.eqb_spec u u') as [<-|Hne]; [|done].
    by rewrite Hu.
Qed.

Lemma ConnReachable_bound_listed (st : ConnectionManager.t)
    (socketId userId : string) :
  ConnReachable st ->
  ConnectionManager.getUserBySocket socketId st = Some userId ->
  socketId ∈ ConnectionManager.getConnectionsByUser userId st.
Proof.
  intros Hreach. revert socketId userId.
  induction Hreach as [|s u st _ IH|s st _ IH]; intros s' u'.
  - unfold ConnectionManager.getUserBySocket, ConnectionManager.init. simpl.
    by rewrite lookup_empty.
  - intros Hbound. apply getConnectionsByUser_addConnection.
    unfold ConnectionManager.getUserBySocket, ConnectionManager.addConnection
      in Hbound. simpl in Hbound.
    destruct (decide (s = s')) as [<-|Hne].
    + rewrite lookup_insert_eq in Hbound. injection Hbound as <-. by left.
    + rewrite lookup_insert_ne in Hbound by done. right. by apply IH.
  - intros Hbound.
    assert (s <> s' /\ ConnectionManager.getUserBySocket s' st = Some u')
      as [Hne Hold].
    { unfold ConnectionManager.getUserBySocket, ConnectionManager.removeConnection
        in *. simpl in Hbound. by apply lookup_delete_Some in Hbound. }
    rewrite getConnectionsByUser_removeConnection.
    specialize (IH _ _ Hold).
    destruct (ConnectionManager.getUserBySocket s st) as [u|]; [|done].
    destruct (truthy u && String.eqb u u'); [|done].
    rewrite list_elem_of_In, filter_In, <- list_elem_of_In. split; [done|].
    apply negb_true_iff, String.eqb_neq. congruence.
Qed.

(** X8. In every state the connection registry can be in, a socket that
    [getUserBySocket] resolves to a user is listed among that user's
    connections. *)
Theorem bound_socket_is_listed (st : ConnectionManager.t) (socketId userId : string) :
  ConnReachable st ->
  ConnectionManager.getUserBySocket socketId st = Some userId ->
  socketId ∈ ConnectionManager.getConnectionsByUser userId st.
Proof. intros Hreach Hbound. by apply ConnReachable_bound_listed. Qed.

Lemma add_then_remove_connection (st : ConnectionManager.t)
    (socketId userId : string) :
  userId <> "" ->
  ConnectionManager.getUserBySocket socketId st = None ->
  ~ socketId ∈ ConnectionManager.getConnectionsByUser userId st ->
  let st' := ConnectionManager.removeConnection socketId
               (ConnectionManager.addConnection socketId userId st) in
  ConnectionManager.socketToUser st' = ConnectionManager.socketToUser st /\
  (forall userId',
     ConnectionManager.getConnectionsByUser userId' st' =
     ConnectionManager.getConnectionsByUser userId' st) /\
  (ConnectionManager.userToSockets st !! userId = None ->
   ConnectionManager.userToSockets st' !! userId = None).
Proof.
  intros Hne Hunbound Hfresh. cbv zeta. split; [|split].
  - unfold ConnectionManager.removeConnection, ConnectionManager.addConnection.
    simpl. unfold ConnectionManager.getUserBySocket in Hunbound.
    by rewrite delete_insert_eq, delete_id.
  - intros userId'. rewrite getConnectionsByUser_removeConnection.
    assert (ConnectionManager.getUserBySocket socketId
              (ConnectionManager.addConnection socketId userId st) = Some userId)
      as -> by (unfold ConnectionManager.getUserBySocket,
                  ConnectionManager.addConnection; simpl; apply lookup_insert_eq).
    unfold truthy. apply String.eqb_neq in Hne as ->. simpl.
    rewrite getConnectionsByUser_addConnection_list.
    destruct (String.eqb_spec userId userId') as [<-|Hu]; [|done].
    rewrite bool_decide_eq_false_2 by done.
    rewrite List.filter_app. simpl. rewrite String.eqb_refl. simpl.
    rewrite app_nil_r. by apply list_filter_neq_id.
  - intros Hnone.
    assert (ConnectionManager.socketToUser
              (ConnectionManager.addConnection socketId userId st) !! socketId
            = Some userId) as Hbound
      by (unfold ConnectionManager.addConnection; simpl; apply lookup_insert_eq).
    assert (@eq (option JsSet.t)
              (ConnectionManager.userToSockets
                 (ConnectionManager.addConnection socketId userId st) !! userId)
              (Some [Some socketId])) as Hset.
    { unfold ConnectionManager.addConnection. simpl.
      by rewrite lookup_ensure_add, decide_True, Hnone. }
    revert Hbound Hset.
    generalize (ConnectionManager.addConnection socketId userId st) as st1.
    intros st1 Hbound Hset. unfold ConnectionManager.removeConnection. simpl.
    rewrite Hbound. unfold truthy. apply String.eqb_neq in Hne as ->. simpl.
    rewrite Hset, lookup_insert_eq.
    unfold JsSet.size, JsSet.toArray, JsSet.del. simpl.
    rewrite String.eqb_refl. simpl. apply lookup_delete_eq.
Qed.

(** X9. Adding a connection that the registry does not know, under a
    non-empty user id, and removing it again gives back the registry's
    answers: the socket is unbound again and every user's connection
    list is as before (a user entry created for it is gone). *)
Theorem addConnection_then_removeConnection_restores (st : ConnectionManager.t)
    (socketId userId : string) :
  userId <> "" ->
  ConnectionManager.getUserBySocket socketId st = None ->
  ~ socketId ∈ ConnectionManager.getConnectionsByUser userId st ->
  let st' := ConnectionManager.removeConnection socketId
               (ConnectionManager.addConnection socketId userId st) in
  ConnectionManager.socketToUser st' = ConnectionManager.socketToUser st /\
  (forall userId',
     ConnectionManager.getConnectionsByUser userId' st' =
     ConnectionManager.getConnectionsByUser userId' st) /\
  (ConnectionManager.userToSockets st !! userId = None ->
   ConnectionManager.userToSockets st' !! userId = None).
Proof. apply add_then_remove_connection. Qed.

(** X10. [removeConnection] of a socket the registry does not know
    changes nothing; hence removing a connection twice is the same as
    removing it once, and afterwards the socket is unbound. *)
Theorem removeConnection_idempotent (st : ConnectionManager.t) (socketId : string) :
  ConnectionManager.getUserBySocket socketId
    (ConnectionManager.removeConnection socketId st) = None /\
  ConnectionManager.removeConnection socketId
    (ConnectionManager.removeConnection socketId st) =
  ConnectionManager.removeConnection socketId st /\
  (match ConnectionManager.getUserBySocket socketId st with
   | None => ConnectionManager.removeConnection socketId st = st
   | Some _ => True
   end).
Proof.
  assert (forall st0,
            ConnectionManager.getUserBySocket socketId st0 = None ->
            ConnectionManager.removeConnection socketId st0 = st0) as Hnoop.
  { intros [s2u u2s]. unfold ConnectionManager.getUserBySocket,
      ConnectionManager.removeConnection. simpl. intros Hnone.
    by rewrite Hnone, delete_id. }
  assert (ConnectionManager.getUserBySocket socketId
            (ConnectionManager.removeConnection socketId st) = None) as Hgone.
  { unfold ConnectionManager.getUserBySocket, ConnectionManager.removeConnection.
    simpl. apply lookup_delete_eq. }
  split; [done|]. split; [by apply Hnoop|].
  destruct (ConnectionManager.getUserBySocket socketId st) eqn:Hb; [done|].
  by apply Hnoop.
Qed.

(** * Further properties of the reaction index *)

(** X11. In every state built by [addReaction] and [removeReaction], a
    stored message entry has at least one bucket, bucket keys are
    distinct, and every stored bucket is non-empty and holds records of
    its own emoji only: emptied buckets and entries are deleted. *)
Theorem no_empty_bucket_is_stored (st : ReactionManager.t) (messageId : string)
    (m : JsMap.t (list Reaction.t)) :
  ReactionReachable st ->
  ReactionManager.reactions st !! messageId = Some m ->
  m <> [] /\
  NoDup (JsMap.keys m) /\
  forall emoji l,
    (emoji, l) ∈ m ->
    l <> [] /\ Forall (fun r => Reaction.emoji r = emoji) l.
Proof.
  intros Hok%ReactionReachable_ok Hm.
  destruct (Hok _ _ Hm) as (Hne & Hnd & Hall).
  split; [done|]. split; [done|]. intros emoji l Hin.
  by destruct (Hall _ _ Hin) as (? & _ & ?).
Qed.

Lemma jsmap_elem_get {V : Type} (k : string) (v : V) (m : JsMap.t V) :
  NoDup (JsMap.keys m) -> (k, v) ∈ m -> JsMap.get k m = Some v.
Proof.
  unfold JsMap.keys. induction m as [|[k0 v0] m IH]; simpl.
  - by intros _ ?%elem_of_nil.
  - intros [Hk0 Hnd]%NoDup_cons [[= -> ->]|Hin]%elem_of_cons.
    + by rewrite String.eqb_refl.
    + destruct (String.eqb_spec k0 k) as [->|]; [|by apply IH].
      exfalso. apply Hk0. apply list_elem_of_fmap. by exists (k, v).
Qed.

(** X12. In every state built by [addReaction] and [removeReaction],
    [hasUserReacted] says yes exactly when the records returned by
    [getReactions] for the message contain one with that user and emoji. *)
Theorem hasUserReacted_iff_in_getReactions (st : ReactionManager.t)
    (messageId userId emoji : string) :
  ReactionReachable st ->
  ReactionManager.hasUserReacted messageId userId emoji st = true <->
  exists r,
    r ∈ allReactions (ReactionManager.getReactions messageId st) /\
    Reaction.userId r = userId /\ Reaction.emoji r = emoji.
Proof.
  intros Hok%ReactionReachable_ok.
  unfold ReactionManager.hasUserReacted, ReactionManager.getReactions, allReactions.
  destruct (ReactionManager.reactions st !! messageId) as [m|] eqn:Hm.
  2:{ simpl. split; [discriminate|]. by intros (r & ?%elem_of_nil & _). }
  destruct (Hok _ _ Hm) as (_ & Hnd & Hall). split.
  - destruct (JsMap.get emoji m) as [l|] eqn:Hl; [|discriminate].
    intros (r & Hr & Hu)%existsb_exists. exists r.
    pose proof (jsmap_get_elem _ _ _ Hl) as Hin.
    destruct (Hall _ _ Hin) as (_ & _ & Hem).
    split; [|split].
    + apply list_elem_of_In, in_concat. exists l. split; [|done].
      unfold JsMap.values. apply in_map_iff. exists (emoji, l).
      split; [done|by apply list_elem_of_In].
    + by apply String.eqb_eq in Hu.
    + eapply Forall_forall in Hem; [done|by apply list_elem_of_In].
  - intros (r & Hr & Hu & He).
    apply list_elem_of_In, in_concat in Hr as (l & Hl & Hr).
    unfold JsMap.values in Hl. apply in_map_iff in Hl as ([e l'] & [= ->] & Hin).
    apply list_elem_of_In in Hin.
    destruct (Hall _ _ Hin) as (_ & _ & Hem).
    eapply Forall_forall in Hem; [|by apply list_elem_of_In].
    rewrite He in Hem. subst e.
    rewrite (jsmap_elem_get _ _ _ Hnd Hin). apply existsb_exists.
    exists r. split; [done|]. unfold ReactionManager.sameUser.
    by apply String.eqb_eq.
Qed.

(** X13. [addReaction] for a user who already reacted to the message
    with that emoji changes nothing, whatever name and timestamp the new
    record carries. *)
Theorem addReaction_present_is_noop (messageId : string) (r : Reaction.t)
    (st : ReactionManager.t) :
  ReactionManager.hasUserReacted messageId (Reaction.userId r) (Reaction.emoji r) st
    = true ->
  ReactionManager.addReaction messageId r st = st.
Proof.
  destruct st as [rs].
  unfold ReactionManager.hasUserReacted, ReactionManager.addReaction. simpl.
  destruct (rs !! messageId) as [m|] eqn:Hm; [|discriminate].
  rewrite Hm. unfold JsMap.has.
  destruct (JsMap.get (Reaction.emoji r) m) as [l|] eqn:Hl; [|discriminate].
  rewrite Hl. intros Hex.
  destruct (findIndex _ l) as [i|] eqn:Hi.
  - by rewrite insert_id.
  - apply findIndex_None in Hi. congruence.
Qed.

(** X14. [removeReaction] for a user who has no record for the message
    and emoji (no entry, no bucket, or not in the bucket) changes
    nothing. *)
Theorem removeReaction_absent_is_noop (messageId userId emoji : string)
    (st : ReactionManager.t) :
  ReactionManager.hasUserReacted messageId userId emoji st = false ->
  ReactionManager.removeReaction messageId userId emoji st = st.
Proof.
  unfold ReactionManager.hasUserReacted, ReactionManager.removeReaction.
  destruct (ReactionManager.reactions st !! messageId) as [m|]; [|done].
  destruct (JsMap.get emoji m) as [l|]; [|done].
  intros Hex%findIndex_None. by rewrite Hex.
Qed.

(** X15. What [hasUserReacted] answers after one mutation, in a state
    built by [addReaction] and [removeReaction]: [addReaction] makes the
    triple of the record present and changes no other answer;
    [removeReaction] makes its triple absent and changes no other
    answer. *)
Theorem hasUserReacted_after_mutation (st : ReactionManager.t)
    (messageId userId emoji : string) (r : Reaction.t)
    (messageId' userId' emoji' : string) :
  ReactionReachable st ->
  ReactionManager.hasUserReacted messageId' userId' emoji'
    (ReactionManager.addReaction messageId r st) =
  (ReactionManager.hasUserReacted messageId' userId' emoji' st ||
   (String.eqb messageId messageId' && String.eqb (Reaction.emoji r) emoji' &&
    String.eqb (Reaction.userId r) userId')) /\
  ReactionManager.hasUserReacted messageId' userId' emoji'
    (ReactionManager.removeReaction messageId userId emoji st) =
  (ReactionManager.hasUserReacted messageId' userId' emoji' st &&
   negb (String.eqb messageId messageId' && String.eqb emoji emoji' &&
         String.eqb userId userId')).
Proof.
  intros Hok%ReactionReachable_ok. split.
  - apply hasUserReacted_addReaction.
  - by apply hasUserReacted_removeReaction.
Qed.

Lemma splice1_findIndex_filter (u : string) (i : nat) (l : list Reaction.t) :
  NoDup (map Reaction.userId l) ->
  findIndex (ReactionManager.sameUser u) l = Some i ->
  splice1 i l = List.filter (fun r => negb (ReactionManager.sameUser u r)) l.
Proof.
  revert i. induction l as [|x l IH]; intros i Hnd; simpl; [discriminate|].
  simpl in Hnd. apply NoDup_cons in Hnd as [Hx Hnd].
  destruct (ReactionManager.sameUser u x) eqn:Hpx; simpl.
  - intros [= <-]. unfold splice1. simpl. rewrite drop_0.
    symmetry. apply forallb_filter_id. apply forallb_forall. intros y Hy.
    apply negb_true_iff. destruct (ReactionManager.sameUser u y) eqn:Hpy; [|done].
    exfalso. apply Hx. unfold ReactionManager.sameUser in *.
    apply String.eqb_eq in Hpx, Hpy. apply list_elem_of_fmap. exists y.
    split; [congruence|by apply list_elem_of_In].
  - destruct (findIndex _ l) as [j|] eqn:Hj; simpl; [|discriminate].
    intros [= <-]. unfold splice1 in *. simpl. f_equal. by apply IH.
Qed.

Lemma findIndex_None_filter (u : string) (l : list Reaction.t) :
  findIndex (ReactionManager.sameUser u) l = None ->
  List.filter (fun r => negb (ReactionManager.sameUser u r)) l = l.
Proof.
  intros Hnone%findIndex_None. apply forallb_filter_id, forallb_forall.
  intros y Hy. apply negb_true_iff.
  destruct (ReactionManager.sameUser u y) eqn:Hpy; [|done].
  assert (existsb (ReactionManager.sameUser u) l = true); [|congruence].
  apply existsb_exists. by exists y.
Qed.

(** X16. Buckets keep insertion order. In a state built by
    [addReaction] and [removeReaction], [addReaction] appends the record
    at the end of the bucket of its message and emoji unless the user is
    already in it, [removeReaction] deletes the user's record from the
    bucket and keeps the others in their order, and neither touches any
    other bucket. *)
Theorem buckets_keep_insertion_order (st : ReactionManager.t)
    (messageId userId emoji : string) (r : Reaction.t)
    (messageId' emoji' : string) :
  ReactionReachable st ->
  bucketOf messageId' emoji' (ReactionManager.addReaction messageId r st) =
  (if String.eqb messageId messageId' && String.eqb (Reaction.emoji r) emoji'
   then
     if ReactionManager.hasUserReacted messageId (Reaction.userId r)
          (Reaction.emoji r) st
     then bucketOf messageId (Reaction.emoji r) st
     else bucketOf messageId (Reaction.emoji r) st ++ [r]
   else bucketOf messageId' emoji' st) /\
  bucketOf messageId' emoji'
    (ReactionManager.removeReaction messageId userId emoji st) =
  (if String.eqb messageId messageId' && String.eqb emoji emoji'
   then List.filter (fun r' => negb (ReactionManager.sameUser userId r'))
          (bucketOf messageId emoji st)
   else bucketOf messageId' emoji' st).
Proof.
  intros Hok%ReactionReachable_ok. split.
  - rewrite bucketOf_addReaction. by rewrite hasUserReacted_bucketOf.
  - rewrite bucketOf_removeReaction.
    destruct (String.eqb messageId messageId' && String.eqb emoji emoji'); [|done].
    simpl.
    assert (NoDup (map Reaction.userId (bucketOf messageId emoji st))) as Hnd.
    { unfold bucketOf.
      destruct (ReactionManager.reactions st !! messageId) as [m|] eqn:Hm;
        [|constructor].
      destruct (JsMap.get emoji m) as [l|] eqn:Hl; [|constructor].
      destruct (Hok _ _ Hm) as (_ & _ & Hall).
      by destruct (Hall _ _ (jsmap_get_elem _ _ _ Hl)) as (_ & ? & _). }
    destruct (findIndex _ (bucketOf messageId emoji st)) as [i|] eqn:Hi.
    + by apply splice1_findIndex_filter.
    + symmetry. by apply findIndex_None_filter.
Qed.

(** * Further properties of the server and the handlers *)

Lemma emitToUser_spec (userId eventName : string) (data : Payload) (w : World) :
  let w' := WebSocketServer.emitToUser userId eventName data w in
  connectionManager w' = connectionManager w /\
  roomManager w' = roomManager w /\
  reactionManager w' = reactionManager w /\
  io w' =
    (fun out =>
       out ++ deliveries eventName data
                (ConnectionManager.getConnectionsByUser userId
                   (connectionManager w)))
      <$> io w.
Proof.
  unfold WebSocketServer.emitToUser, deliveries.
  generalize (ConnectionManager.getConnectionsByUser userId (connectionManager w))
    as socketIds.
  intros socketIds. revert w.
  induction socketIds as [|s socketIds IH]; intros w; simpl.
  - repeat split; try done. destruct (io w); simpl; [|done]. by rewrite app_nil_r.
  - destruct (IH (WebSocketServer.emitTo s eventName data w)) as (Hc & Hr & Hx & Hio).
    rewrite Hc, Hr, Hx, Hio. unfold WebSocketServer.emitTo.
    destruct (io w) as [out|] eqn:Hw; simpl; [|by rewrite Hw].
    repeat split; try done. by rewrite <- app_assoc.
Qed.

(** X17. [emitToUser] emits the event once to each connection listed for
    the user, in list order, and changes no registry; with the connection
    registry in a state it can be in, every socket that
    [getUserBySocket] resolves to the user is among the recipients. *)
Theorem emitToUser_reaches_user_connections (userId eventName : string)
    (data : Payload) (w : World) (out : list Emission) :
  ConnReachable (connectionManager w) ->
  io w = Some out ->
  let w' := WebSocketServer.emitToUser userId eventName data w in
  let socketIds :=
    ConnectionManager.getConnectionsByUser userId (connectionManager w) in
  connectionManager w' = connectionManager w /\
  roomManager w' = roomManager w /\
  reactionManager w' = reactionManager w /\
  io w' = Some (out ++ deliveries eventName data socketIds) /\
  forall socketId,
    ConnectionManager.getUserBySocket socketId (connectionManager w) = Some userId ->
    mkEmission socketId eventName data ∈ deliveries eventName data socketIds.
Proof.
  intros Hreach Hout. cbv zeta.
  destruct (emitToUser_spec userId eventName data w) as (Hc & Hr & Hx & Hio).
  rewrite Hc, Hr, Hx, Hio, Hout. repeat split; try done.
  intros socketId Hbound. unfold deliveries. apply list_elem_of_fmap.
  exists socketId. split; [done|]. by apply ConnReachable_bound_listed.
Qed.

Lemma handleDisconnect_room_roomManager (socketId roomId : string) (w : World) :
  roomManager (WebSocketServer.handleDisconnect_room socketId w roomId) =
  RoomManager.leaveRoom roomId socketId (roomManager w) /\
  connectionManager (WebSocketServer.handleDisconnect_room socketId w roomId) =
  connectionManager w /\
  reactionManager (WebSocketServer.handleDisconnect_room socketId w roomId) =
  reactionManager w.
Proof.
  unfold WebSocketServer.handleDisconnect_room.
  destruct (List.find _ _) as [leavingUser|]; [|done].
  match goal with
  | |- context [WebSocketServer.broadcastToRoom ?r ?e ?d ?x ?w0] =>
      destruct (broadcastToRoom_spec r e d x w0) as (Hc & Hr & Hx & _)
  end.
  by rewrite Hc, Hr, Hx.
Qed.

Lemma handleDisconnect_roomManager (socketId : string) (w : World) :
  roomManager (WebSocketServer.handleDisconnect socketId w) =
  fold_left (fun st roomId => RoomManager.leaveRoom roomId socketId st)
    (RoomManager.getUserRooms socketId (roomManager w)) (roomManager w).
Proof.
  unfold WebSocketServer.handleDisconnect, WebSocketServer.handleDisconnect_rooms.
  simpl.
  generalize (RoomManager.getUserRooms socketId (roomManager w)) as rooms.
  intros rooms. revert w. induction rooms as [|r rooms IH]; intros w; simpl; [done|].
  rewrite IH. by destruct (handleDisconnect_room_roomManager socketId r w) as (-> & _).
Qed.

Lemma isUserInRoom_leave_all (c : string) (rooms : list string) st
    (roomId socketId : string) :
  RoomManager.isUserInRoom roomId socketId
    (fold_left (fun st r => RoomManager.leaveRoom r c st) rooms st) = true <->
  RoomManager.isUserInRoom roomId socketId st = true /\
  ~ (socketId = c /\ roomId ∈ rooms).
Proof.
  revert st. induction rooms as [|r rooms IH]; intros st; simpl.
  - rewrite elem_of_nil. intuition.
  - rewrite IH, isUserInRoom_leaveRoom, andb_true_iff, negb_true_iff,
      andb_false_iff, !String.eqb_neq, elem_of_cons.
    split.
    + intros [[Hin Hne] Hrest]. split; [done|].
      intros [-> [->|Hr]]; [by destruct Hne|]. by apply Hrest.
    + intros [Hin Hnot]. split; [split; [done|]|].
      * destruct (decide (r = roomId)) as [->|]; [|by left].
        right. intros ->. apply Hnot. split; [done|by left].
      * intros [-> Hr]. apply Hnot. split; [done|by right].
Qed.

Lemma elem_getUserRooms_leave_all (c : string) (rooms : list string) st
    (roomId socketId : string) :
  roomId ∈ RoomManager.getUserRooms socketId
             (fold_left (fun st r => RoomManager.leaveRoom r c st) rooms st) <->
  roomId ∈ RoomManager.getUserRooms socketId st /\
  ~ (socketId = c /\ roomId ∈ rooms).
Proof.
  revert st. induction rooms as [|r rooms IH]; intros st; simpl.
  - rewrite elem_of_nil. intuition.
  - rewrite IH, elem_getUserRooms_leaveRoom, elem_of_cons. split.
    + intros [[Hin Hne] Hrest]. split; [done|].
      intros [-> [->|Hr]]; [by apply Hne|]. by apply Hrest.
    + intros [Hin Hnot]. split; [split; [done|]|].
      * intros [-> ->]. apply Hnot. split; [done|by left].
      * intros [-> Hr]. apply Hnot. split; [done|by right].
Qed.

Lemma RoomReachable_leave_all (c : string) (rooms : list string) st :
  RoomReachable st ->
  RoomReachable (fold_left (fun st r => RoomManager.leaveRoom r c st) rooms st).
Proof.
  revert st. induction rooms as [|r rooms IH]; intros st Hreach; simpl; [done|].
  apply IH. by apply RoomReachable_leaveRoom.
Qed.

(** X18. After the disconnect of a connection, with the room registry
    in a state it can be in, the connection has no room left and is a
    member of no room, the membership of every other connection is as
    before, and the registry is again in a state it can be in. *)
Theorem handleDisconnect_clears_membership (c : string) (w : World) :
  RoomReachable (roomManager w) ->
  let w' := WebSocketServer.handleDisconnect c w in
  RoomManager.getUserRooms c (roomManager w') = [] /\
  (forall roomId, RoomManager.isUserInRoom roomId c (roomManager w') = false) /\
  (forall roomId socketId,
     socketId <> c ->
     RoomManager.isUserInRoom roomId socketId (roomManager w') =
     RoomManager.isUserInRoom roomId socketId (roomManager w)) /\
  RoomReachable (roomManager w').
Proof.
  intros Hreach. cbv zeta. rewrite handleDisconnect_roomManager.
  pose proof (RoomReachable_ok _ Hreach) as (_ & _ & Hb).
  split; [|split; [|split]].
  - destruct (RoomManager.getUserRooms c (fold_left _ _ _)) as [|r l] eqn:Hl; [done|].
    assert (r ∈ r :: l) as Hin by left. rewrite <- Hl in Hin.
    apply elem_getUserRooms_leave_all in Hin as [Hin Hnot].
    exfalso. by apply Hnot.
  - intros roomId.
    destruct (RoomManager.isUserInRoom roomId c (fold_left _ _ _)) eqn:Hin; [|done].
    apply isUserInRoom_leave_all in Hin as [Hin Hnot].
    exfalso. apply Hnot. split; [done|]. by apply Hb.
  - intros roomId socketId Hne.
    destruct (RoomManager.isUserInRoom roomId socketId (roomManager w)) eqn:Hold.
    + apply isUserInRoom_leave_all. split; [done|]. by intros [? _].
    + destruct (RoomManager.isUserInRoom roomId socketId (fold_left _ _ _)) eqn:Hin;
        [|done].
      apply isUserInRoom_leave_all in Hin as [Hin _]. congruence.
  - by apply RoomReachable_leave_all.
Qed.

Lemma LeaveRoomHandler_as_disconnect_step (socketId eventName : string)
    (data : LeaveRoom.t) (w : World) :
  LeaveRoomHandler.execute socketId eventName data w =
  (Normal tt,
   WebSocketServer.handleDisconnect_room socketId w (LeaveRoom.roomId data)).
Proof.
  unfold LeaveRoomHandler.execute, WebSocketServer.handleDisconnect_room,
    bind, read, update, ret, findBySocket. simpl.
  by destruct (List.find _ _).
Qed.

Lemma nonmember_not_found (st : RoomManager.t) (roomId socketId : string) :
  membersOk st ->
  RoomManager.isUserInRoom roomId socketId st = false ->
  findBySocket socketId (RoomManager.getRoomUsers roomId st) = None.
Proof.
  intros Hm Hout.
  destruct (findBySocket socketId _) as [u|] eqn:Hfind; [|done].
  apply findBySocket_Some in Hfind as [Hin Hs].
  assert (RoomManager.isUserInRoom roomId socketId st = true); [|congruence].
  apply isUserInRoom_socketIds; [done|]. apply list_elem_of_fmap. by exists u.
Qed.

(** X19. The leave handler, on a started server with the room registry
    in a state it can be in: it always succeeds; the sender is out of the
    room afterwards; what it emits is one [room:user_left] with the
    remaining roster to each remaining member, never to the sender; and
    when the sender was not a member nothing is emitted. *)
Theorem leave_room_handler (socketId eventName : string) (data : LeaveRoom.t)
    (w : World) (out : list Emission) :
  RoomReachable (roomManager w) ->
  io w = Some out ->
  let roomId := LeaveRoom.roomId data in
  exists w',
    LeaveRoomHandler.execute socketId eventName data w = (Normal tt, w') /\
    roomManager w' = RoomManager.leaveRoom roomId socketId (roomManager w) /\
    connectionManager w' = connectionManager w /\
    reactionManager w' = reactionManager w /\
    RoomManager.isUserInRoom roomId socketId (roomManager w') = false /\
    io w' = Some (out ++ userLeftDeliveries socketId (roomManager w) roomId) /\
    (forall e, e ∈ userLeftDeliveries socketId (roomManager w) roomId ->
               to e <> socketId) /\
    (RoomManager.isUserInRoom roomId socketId (roomManager w) = false ->
     io w' = Some out).
Proof.
  intros (Hm & _ & _)%RoomReachable_ok Hout. cbv zeta.
  eexists. split; [apply LeaveRoomHandler_as_disconnect_step|].
  destruct (handleDisconnect_room_spec socketId (LeaveRoom.roomId data) w out Hout)
    as (Hc & Hr & Hx & Hio).
  rewrite Hc, Hr, Hx, Hio. repeat split; try done.
  - rewrite isUserInRoom_leaveRoom, !String.eqb_refl. simpl. apply andb_false_r.
  - intros e. by apply userLeftDeliveries_not_to_leaver.
  - intros Hnot. unfold userLeftDeliveries.
    rewrite (nonmember_not_found _ _ _ Hm Hnot). by rewrite app_nil_r.
Qed.

Lemma jsmap_elem_set_self {V : Type} (k : string) (v : V) (m : JsMap.t V) :
  (k, v) ∈ JsMap.set k v m.
Proof.
  induction m as [|[k0 v0] m IH]; simpl; [left|].
  destruct (String.eqb k0 k); [left|by right].
Qed.

(** X20. The join handler always succeeds. Afterwards the sender is a
    member of the room with user id equal to its connection id, and, on
    a started server, every member of the room, the sender among them, has
    been sent one [room:user_joined] naming the sender and carrying the
    whole roster; the connection registry and the reaction index are
    unchanged. *)
Theorem join_room_handler (socketId eventName : string) (data : JoinRoom.t)
    (w : World) (out : list Emission) :
  io w = Some out ->
  let roomId := JoinRoom.roomId data in
  let user :=
    RoomUser.mk socketId socketId (JoinRoom.username data) (clock w (ticks w)) in
  exists w',
    JoinRoomHandler.execute socketId eventName data w = (Normal tt, w') /\
    roomManager w' =
      RoomManager.joinRoom (clock w (S (ticks w))) roomId user (roomManager w) /\
    connectionManager w' = connectionManager w /\
    reactionManager w' = reactionManager w /\
    RoomManager.isUserInRoom roomId socketId (roomManager w') = true /\
    user ∈ RoomManager.getRoomUsers roomId (roomManager w') /\
    io w' =
      Some (out ++
            deliveries "room:user_joined"
              (RosterPayload roomId (UserRef.mk socketId (JoinRoom.username data))
                 (map UserRef.ofRoomUser
                    (RoomManager.getRoomUsers roomId (roomManager w'))))
              (map RoomUser.socketId
                 (RoomManager.getRoomUsers roomId (roomManager w')))).
Proof.
  intros Hout. cbv zeta.
  unfold JoinRoomHandler.execute, bind, read, update, newDate. simpl.
  eexists. split; [done|].
  match goal with
  | |- context [WebSocketServer.broadcastToRoom ?r ?e ?d ?x ?w0] =>
      destruct (broadcastToRoom_spec r e d x w0) as (Hc & Hr & Hx & _ & _ & Hio)
  end.
  simpl in *. rewrite Hc, Hr, Hx, Hio, Hout. simpl.
  repeat split; try done.
  - rewrite isUserInRoom_joinRoom, !String.eqb_refl. done.
  - rewrite getRoomUsers_joinRoom, decide_True by done.
    destruct (RoomManager.rooms (roomManager w) !! JoinRoom.roomId data) as [room|].
    + unfold JsMap.values. apply list_elem_of_fmap.
      eexists (socketId, _). split; [done|]. apply jsmap_elem_set_self.
    + left.
  - by rewrite recipients_None.
Qed.

Lemma format_fold (m acc : JsMap.t (list Reaction.t))
    (racc : JsMap.t (list UserRef.t)) :
  NoDup (JsMap.keys racc ++ JsMap.keys m) ->
  fold_left
    (fun reactionsFormatted entry =>
       JsMap.set (fst entry) (map UserRef.ofReaction (snd entry))
         reactionsFormatted)
    m racc =
  racc ++ map (fun entry => (fst entry, map UserRef.ofReaction (snd entry))) m.
Proof.
  clear acc. revert racc. induction m as [|[e l] m IH]; intros racc Hnd; simpl.
  - by rewrite app_nil_r.
  - assert (JsMap.get e racc = None) as Hfresh.
    { apply jsmap_has_get_None.
      destruct (JsMap.has e racc) eqn:Hhas; [|done].
      apply jsmap_has_keys in Hhas. apply NoDup_app in Hnd as (_ & Hdisj & _).
      exfalso. apply (Hdisj e Hhas). unfold JsMap.keys. simpl. left. }
    rewrite (jsmap_set_fresh _ _ _ Hfresh), IH.
    + by rewrite <- app_assoc.
    + unfold JsMap.keys in *. rewrite map_app. simpl in *.
      by rewrite <- app_assoc.
Qed.

(** The reshaping of the reaction map keeps the buckets and their
    reactors in order. *)
Lemma format_map (m : JsMap.t (list Reaction.t)) :
  NoDup (JsMap.keys m) ->
  MessageReactionHandler.format m =
  map (fun entry => (fst entry, map UserRef.ofReaction (snd entry))) m.
Proof.
  intros Hnd. unfold MessageReactionHandler.format, JsMap.empty.
  by rewrite (format_fold m m []).
Qed.

Lemma toggleReaction_reachable (messageId emoji : string) (user : RoomUser.t)
    (now : Date) st :
  ReactionReachable st ->
  ReactionReachable (toggleReaction messageId emoji user now st).
Proof.
  intros Hreach. unfold toggleReaction.
  destruct (ReactionManager.hasUserReacted _ _ _ st);
    by constructor.
Qed.

(** X21. The reaction handler for a sender that is a member of the room,
    on a started server, with room registry and reaction index in states
    they can be in: it succeeds, leaves the room registry unchanged, and
    sends to every member of the room, the sender included, one
    [message:reaction_updated] that carries the message's buckets after
    the toggle, bucket by bucket and reactor by reactor in their stored
    order, each reactor as user id and name. *)
Theorem reaction_handler_broadcast (socketId eventName : string)
    (data : MessageReaction.t) (w : World) (out : list Emission) :
  RoomReachable (roomManager w) ->
  ReactionReachable (reactionManager w) ->
  io w = Some out ->
  RoomManager.isUserInRoom (MessageReaction.roomId data) socketId (roomManager w)
    = true ->
  let roomId := MessageReaction.roomId data in
  let messageId := MessageReaction.messageId data in
  let members := RoomManager.getRoomUsers roomId (roomManager w) in
  exists w',
    MessageReactionHandler.execute socketId eventName data w = (Normal tt, w') /\
    roomManager w' = roomManager w /\
    ReactionReachable (reactionManager w') /\
    socketId ∈ map RoomUser.socketId members /\
    io w' =
      Some (out ++
            deliveries "message:reaction_updated"
              (ReactionsPayload messageId roomId
                 (map (fun entry =>
                         (fst entry, map UserRef.ofReaction (snd entry)))
                    (ReactionManager.getReactions messageId (reactionManager w'))))
              (map RoomUser.socketId members)).
Proof.
  intros Hroom Hreact Hout Hin. cbv zeta.
  pose proof (RoomReachable_ok _ Hroom) as (Hm & _ & _).
  destruct (isUserInRoom_findBySocket _ _ _ Hm Hin) as (user & Hfind & Hsock).
  destruct (MessageReactionHandler_execute_member socketId eventName data w user
              Hin Hfind) as [w' Hrun].
  exists w'. split; [done|].
  destruct (MessageReactionHandler_execute_Normal _ _ _ _ _ Hrun)
    as (user' & _ & Hfind' & Hrm & Hr & _).
  rewrite Hfind in Hfind'. injection Hfind' as <-.
  assert (ReactionReachable (reactionManager w')) as Hreact'
    by (rewrite Hrm; by apply toggleReaction_reachable).
  split; [done|]. split; [done|]. split.
  { apply isUserInRoom_socketIds; done. }
  assert (NoDup (JsMap.keys (ReactionManager.getReactions
                               (MessageReaction.messageId data)
                               (reactionManager w')))) as Hnd.
  { unfold ReactionManager.getReactions.
    destruct (ReactionManager.reactions (reactionManager w')
                !! MessageReaction.messageId data) as [m|] eqn:Hmsg; [|constructor].
    by destruct (ReactionReachable_ok _ Hreact' _ _ Hmsg) as (_ & ? & _). }
  rewrite <- (format_map _ Hnd).
  revert Hrun Hrm.
  unfold MessageReactionHandler.execute, bind, read, throw, update, newDate.
  simpl. rewrite Hin. simpl. rewrite Hfind. simpl.
  destruct (ReactionManager.hasUserReacted _ _ _ (reactionManager w)); simpl;
    intros [= <-] _;
    match goal with
    | |- context [WebSocketServer.broadcastToRoom ?r ?e ?d ?x ?w0] =>
        destruct (broadcastToRoom_spec r e d x w0) as (_ & _ & Hx & _ & _ & Hio)
    end;
    rewrite Hx, Hio; simpl; rewrite Hout; simpl; by rewrite recipients_None.
Qed.

(** X22. The reaction handler and the typing handler throw the
    not-in-room error exactly when the sender's connection is not in the
    room's member map, and then leave the whole state as it was: no
    reaction is recorded and nothing is emitted. *)
Theorem reaction_and_typing_reject_nonmembers (socketId eventName : string)
    (reaction : MessageReaction.t) (typing : TypingIndicator.t) (w : World) :
  let runReaction := MessageReactionHandler.execute socketId eventName reaction w in
  let runTyping := TypingIndicatorHandler.execute socketId eventName typing w in
  (fst runReaction = Throw (Error "User not in room") <->
   RoomManager.isUserInRoom (MessageReaction.roomId reaction) socketId
     (roomManager w) = false) /\
  (fst runTyping = Throw (Error "User not in room") <->
   RoomManager.isUserInRoom (TypingIndicator.roomId typing) socketId
     (roomManager w) = false) /\
  (forall e, fst runReaction = Throw e -> snd runReaction = w) /\
  (forall e, fst runTyping = Throw e -> snd runTyping = w).
Proof.
  cbv zeta.
  unfold MessageReactionHandler.execute, TypingIndicatorHandler.execute,
    bind, read, throw, update, newDate. simpl.
  destruct (RoomManager.isUserInRoom (MessageReaction.roomId reaction) socketId
              (roomManager w)); simpl;
    destruct (RoomManager.isUserInRoom (TypingIndicator.roomId typing) socketId
                (roomManager w)); simpl;
    repeat match goal with
           | |- context [findBySocket ?s ?l] => destruct (findBySocket s l); simpl
           | |- context [ReactionManager.hasUserReacted ?a ?b ?c ?d] =>
               destruct (ReactionManager.hasUserReacted a b c d); simpl
           end;
    repeat split; try done; try discriminate.
Qed.

(** X23. A connection that connects and disconnects without joining a
    room leaves no trace, provided its socket id is non-empty and the
    registries do not know it: the connection registry answers every
    query as before, and room registry, reaction index and emitted events
    are unchanged. *)
Theorem connect_then_disconnect_restores (socketId : string)
    (authUserId : option string) (w : World) :
  socketId <> "" ->
  ConnectionManager.getUserBySocket socketId (connectionManager w) = None ->
  (forall userId,
     ~ socketId ∈ ConnectionManager.getConnectionsByUser userId
                    (connectionManager w)) ->
  RoomManager.getUserRooms socketId (roomManager w) = [] ->
  let w' := WebSocketServer.handleDisconnect socketId
              (WebSocketServer.handleConnection socketId authUserId w) in
  ConnectionManager.socketToUser (connectionManager w') =
    ConnectionManager.socketToUser (connectionManager w) /\
  (forall userId,
     ConnectionManager.getConnectionsByUser userId (connectionManager w') =
     ConnectionManager.getConnectionsByUser userId (connectionManager w)) /\
  roomManager w' = roomManager w /\
  reactionManager w' = reactionManager w /\
  io w' = io w.
Proof.
  intros Hne Hunbound Hfresh Hrooms. cbv zeta.
  unfold WebSocketServer.handleDisconnect, WebSocketServer.handleConnection,
    WebSocketServer.handleDisconnect_rooms, withConnectionManager.
  simpl. rewrite Hrooms. simpl.
  set (userId := match authUserId with
                 | Some u => if truthy u then u else socketId
                 | None => socketId
                 end).
  assert (userId <> "") as Hu.
  { subst userId. destruct authUserId as [u|]; [|done].
    unfold truthy. destruct (String.eqb_spec u ""); simpl; done. }
  destruct (add_then_remove_connection (connectionManager w)
              socketId userId Hu Hunbound (Hfresh userId)) as (Hs2u & Hlists & _).
  repeat split; done.
Qed.

(** * Properties of the wiring and of the replies to the sender *)

Lemma route_registered {Raw : Type} (r : MessageRouter.t Raw)
    (socketId eventName : string) (raw : Raw) (w : World)
    (handler : string -> string -> Raw -> M unit) :
  MessageRouter.handlers r !! eventName = Some handler ->
  MessageRouter.route r socketId eventName raw w =
  handler socketId eventName raw w.
Proof.
  intros Hh. unfold MessageRouter.route, tryCatch, throw. rewrite Hh.
  by destruct (handler socketId eventName raw w) as [[a|e] w'].
Qed.

Lemma route_unregistered {Raw : Type} (r : MessageRouter.t Raw)
    (socketId eventName : string) (raw : Raw) (w : World) :
  MessageRouter.handlers r !! eventName = None ->
  MessageRouter.route r socketId eventName raw w =
  (Throw (MessageRouter.noHandlerError eventName), w).
Proof. intros Hh. unfold MessageRouter.route, throw. by rewrite Hh. Qed.

Lemma messageRouter_lookup {Raw : Type} (s : Application.Schemas Raw)
    (eventName : string) :
  MessageRouter.handlers (Application.messageRouter s) !! eventName =
  if String.eqb eventName "room:typing"
  then Some (Application.handlerOf (Application.TypingSchema s)
               TypingIndicatorHandler.execute)
  else if String.eqb eventName "ping"
  then Some (Application.handlerOf (Application.PingSchema s)
               PingMessageHandler.execute)
  else if String.eqb eventName "message:reaction"
  then Some (Application.handlerOf (Application.MessageReactionSchema s)
               MessageReactionHandler.execute)
  else if String.eqb eventName "chat:message"
  then Some (Application.handlerOf (Application.ChatMessageSchema s)
               ChatMessageHandler.execute)
  else if String.eqb eventName "leave:room"
  then Some (Application.handlerOf (Application.LeaveRoomSchema s)
               LeaveRoomHandler.execute)
  else if String.eqb eventName "join:room"
  then Some (Application.handlerOf (Application.JoinRoomSchema s)
               JoinRoomHandler.execute)
  else None.
Proof.
  unfold Application.messageRouter, MessageRouter.registerHandler,
    MessageRouter.init. simpl.
  repeat match goal with
         | |- context [String.eqb eventName ?k] =>
             destruct (String.eqb_spec eventName k) as [->|?];
             [by repeat (rewrite lookup_insert_ne by done);
                 rewrite lookup_insert_eq|]
         end.
  repeat (rewrite lookup_insert_ne by done). apply lookup_empty.
Qed.

(** X24. [Application] registers a handler for exactly the six event
    names; for any other event name the listener changes nothing and
    replies [error] with the no-handler message to the sender. *)
Theorem application_registers_six_events {Raw : Type}
    (s : Application.Schemas Raw) (socketId eventName : string) (raw : Raw)
    (w : World) :
  (is_Some (MessageRouter.handlers (Application.messageRouter s) !! eventName)
   <-> eventName ∈ registeredEvents) /\
  (~ eventName ∈ registeredEvents ->
   SocketListeners.onAny (Application.messageRouter s) socketId eventName raw w =
   (ErrorReply eventName ("No handler registered for event: " +:+ eventName), w)).
Proof.
  assert (is_Some (MessageRouter.handlers (Application.messageRouter s) !! eventName)
          <-> eventName ∈ registeredEvents) as Hiff.
  { rewrite messageRouter_lookup. unfold registeredEvents.
    rewrite !elem_of_cons, elem_of_nil.
    repeat match goal with
           | |- context [String.eqb eventName ?k] =>
               destruct (String.eqb_spec eventName k) as [->|?];
               [split; [intros _; tauto|eauto]|]
           end.
    split; [by intros [? ?]|]. intuition. }
  split; [done|]. intros Hnot.
  assert (MessageRouter.handlers (Application.messageRouter s) !! eventName = None)
    as Hnone.
  { destruct (MessageRouter.handlers (Application.messageRouter s) !! eventName)
      eqn:Hl; [|done]. exfalso. apply Hnot, Hiff. eauto. }
  unfold SocketListeners.onAny.
  by rewrite (route_unregistered _ socketId eventName raw w Hnone).
Qed.

(** X25. Whatever the router, the listener acknowledges an event exactly
    when routing it succeeded; when routing throws, the state is the one
    the failed handler left, and the reply is [validation:error] with one
    formatted entry per issue for a validation error and [error] with the
    error's message otherwise. *)
Theorem onAny_acks_iff_routed {Raw : Type} (r : MessageRouter.t Raw)
    (socketId eventName : string) (raw : Raw) (w : World) :
  let routed := MessageRouter.route r socketId eventName raw w in
  let answered := SocketListeners.onAny r socketId eventName raw w in
  (replyEvent (fst answered) = "message:ack" <-> fst routed = Normal tt) /\
  match fst routed with
  | Normal _ =>
      fst answered =
        MessageAck eventName "success"
          (toISOString (clock (snd routed) (ticks (snd routed)))) /\
      connectionManager (snd answered) = connectionManager (snd routed) /\
      roomManager (snd answered) = roomManager (snd routed) /\
      reactionManager (snd answered) = reactionManager (snd routed) /\
      io (snd answered) = io (snd routed)
  | Throw (ValidationError _ zodError) =>
      snd answered = snd routed /\
      exists errors,
        fst answered = ValidationErrorReply eventName "Dados inválidos" errors /\
        length errors = length zodError /\
        map snd errors = map snd zodError
  | Throw (Error message) =>
      snd answered = snd routed /\
      fst answered = ErrorReply eventName message
  end.
Proof.
  cbv zeta. unfold SocketListeners.onAny.
  destruct (MessageRouter.route r socketId eventName raw w) as [[[]|e] w1];
    simpl.
  - split; [done|]. repeat split; done.
  - destruct e as [message|message zodError]; simpl.
    + split; [split; discriminate|]. done.
    + split; [split; discriminate|]. split; [done|].
      exists (getFormattedErrors zodError). split; [done|].
      unfold getFormattedErrors. rewrite length_map, map_map. simpl. done.
Qed.

Lemma handlerOf_invalid {Raw T : Type} (schema : ZodSchema Raw T)
    (execute : string -> string -> T -> M unit)
    (socketId eventName : string) (raw : Raw) (w : World) (zodError : ZodError) :
  schema raw = inl zodError ->
  Application.handlerOf schema execute socketId eventName raw w =
  (Throw (ValidationError "Invalid data format" zodError), w).
Proof.
  intros Hparse. unfold Application.handlerOf, BaseMessageHandler.handle.
  by rewrite Hparse.
Qed.

(** X26. For each of the six registered events, a payload that the
    event's schema rejects never reaches the handler's logic: the state
    is left as it was and the sender is answered [validation:error] with
    the formatted issues. *)
Theorem invalid_payload_is_rejected {Raw : Type} (s : Application.Schemas Raw)
    (socketId eventName : string) (raw : Raw) (w : World) (zodError : ZodError) :
  schemaIssues s eventName raw = Some zodError ->
  MessageRouter.route (Application.messageRouter s) socketId eventName raw w =
    (Throw (ValidationError "Invalid data format" zodError), w) /\
  SocketListeners.onAny (Application.messageRouter s) socketId eventName raw w =
    (ValidationErrorReply eventName "Dados inválidos"
       (getFormattedErrors zodError), w).
Proof.
  intros Hissues.
  assert (MessageRouter.route (Application.messageRouter s) socketId eventName raw w =
          (Throw (ValidationError "Invalid data format" zodError), w)) as Hroute.
  { pose proof (route_registered (Application.messageRouter s) socketId eventName
                  raw w) as Hreg.
    revert Hissues Hreg. unfold schemaIssues. rewrite messageRouter_lookup.
    repeat match goal with
           | |- context [String.eqb eventName ?k] =>
               destruct (String.eqb_spec eventName k) as [->|?]; simpl
           end;
      try discriminate;
      intros Hissues Hreg; rewrite (Hreg _ eq_refl);
      apply handlerOf_invalid;
      match type of Hissues with
      | match ?schema raw with _ => _ end = _ =>
          destruct (schema raw); by inversion Hissues
      end. }
  split; [done|]. unfold SocketListeners.onAny. by rewrite Hroute.
Qed.

(** X27. A valid [ping] is acknowledged and nothing else happens: no
    registry changes and nothing is emitted to any connection. *)
Theorem ping_only_acknowledges {Raw : Type} (s : Application.Schemas Raw)
    (socketId : string) (raw : Raw) (data : PingMessage.t) (w : World) :
  Application.PingSchema s raw = inr data ->
  MessageRouter.route (Application.messageRouter s) socketId "ping" raw w =
    (Normal tt, w) /\
  let answered :=
    SocketListeners.onAny (Application.messageRouter s) socketId "ping" raw w in
  fst answered = MessageAck "ping" "success" (toISOString (clock w (ticks w))) /\
  connectionManager (snd answered) = connectionManager w /\
  roomManager (snd answered) = roomManager w /\
  reactionManager (snd answered) = reactionManager w /\
  io (snd answered) = io w.
Proof.
  intros Hparse.
  assert (MessageRouter.route (Application.messageRouter s) socketId "ping" raw w =
          (Normal tt, w)) as Hroute.
  { rewrite (route_registered _ socketId "ping" raw w _
               (messageRouter_lookup s "ping")).
    unfold Application.handlerOf, BaseMessageHandler.handle.
    by rewrite Hparse. }
  split; [done|]. cbv zeta. unfold SocketListeners.onAny. rewrite Hroute. done.
Qed.

(** * The further theorems at work on the small running system *)

Lemma startedWorld_lists_nobody (userId socketId : string) :
  ~ socketId ∈ ConnectionManager.getConnectionsByUser userId
                 (connectionManager startedWorld).
Proof.
  unfold startedWorld, ConnectionManager.getConnectionsByUser. simpl.
  rewrite lookup_empty. apply not_elem_of_nil.
Defined.

Lemma membership_views_agree_witness :
  (RoomReachable exampleRooms) /\
  ((RoomManager.isUserInRoom "r1" "s1" exampleRooms = true
    ↔ "r1" ∈ RoomManager.getUserRooms "s1" exampleRooms)
   ∧ (RoomManager.isUserInRoom "r1" "s1" exampleRooms = true
      ↔ "s1"
        ∈ map RoomUser.socketId
            (RoomManager.getRoomUsers "r1" exampleRooms))).
Proof.
  split; [exact exampleRooms_RoomReachable|].
  exact (membership_views_agree exampleRooms "r1" "s1"
           ltac:(exact exampleRooms_RoomReachable)).
Defined.

Lemma rosters_and_room_lists_have_no_duplicates_witness :
  (RoomReachable exampleRooms) /\
  (NoDup
     (map RoomUser.socketId
        (RoomManager.getRoomUsers "r1" exampleRooms))
   ∧ NoDup (RoomManager.getUserRooms "s1" exampleRooms)).
Proof.
  split; [exact exampleRooms_RoomReachable|].
  exact (rosters_and_room_lists_have_no_duplicates exampleRooms "r1" "s1"
           ltac:(exact exampleRooms_RoomReachable)).
Defined.

Lemma joinRoom_roster_witness :
  (RoomReachable exampleRooms) /\
  (let st' := RoomManager.joinRoom 2%Z "r1" carol exampleRooms in
   let socketId := RoomUser.socketId carol in
   findBySocket socketId (RoomManager.getRoomUsers "r1" st') =
   Some carol
   ∧ RoomManager.isUserInRoom "r1" socketId st' = true
     ∧ (if RoomManager.isUserInRoom "r1" socketId exampleRooms
        then
         length (RoomManager.getRoomUsers "r1" st') =
         length (RoomManager.getRoomUsers "r1" exampleRooms)
        else
         RoomManager.getRoomUsers "r1" st' =
         RoomManager.getRoomUsers "r1" exampleRooms ++ [carol])
       ∧ ∀ roomId' : string,
           roomId' ≠ "r1"
           → RoomManager.getRoomUsers roomId' st' =
             RoomManager.getRoomUsers roomId' exampleRooms).
Proof.
  split; [exact exampleRooms_RoomReachable|].
  exact (joinRoom_roster 2%Z "r1" carol exampleRooms
           ltac:(exact exampleRooms_RoomReachable)).
Defined.

Lemma leaveRoom_by_nonmember_changes_nothing_witness :
  (MembershipReachable exampleRooms) /\
  (RoomManager.isUserInRoom "r2" "s1" exampleRooms = false) /\
  (let st' := RoomManager.leaveRoom "r2" "s1" exampleRooms in
   RoomManager.rooms st' = RoomManager.rooms exampleRooms
   ∧ ∀ socketId' : string,
       RoomManager.getUserRooms socketId' st' =
       RoomManager.getUserRooms socketId' exampleRooms).
Proof.
  split; [exact exampleRooms_MembershipReachable|].
  split; [vm_compute; reflexivity|].
  exact (leaveRoom_by_nonmember_changes_nothing "r2" "s1" exampleRooms
           ltac:(exact exampleRooms_MembershipReachable)
           ltac:(vm_compute; reflexivity)).
Defined.

Lemma joinRoom_then_leaveRoom_restores_witness :
  (MembershipReachable exampleRooms) /\
  (RoomManager.isUserInRoom "r2" (RoomUser.socketId carol) exampleRooms =
   false) /\
  (let st' :=
     RoomManager.leaveRoom "r2" (RoomUser.socketId carol)
       (RoomManager.joinRoom 2%Z "r2" carol exampleRooms)
     in
   RoomManager.rooms st' = RoomManager.rooms exampleRooms
   ∧ ∀ socketId' : string,
       RoomManager.getUserRooms socketId' st' =
       RoomManager.getUserRooms socketId' exampleRooms).
Proof.
  split; [exact exampleRooms_MembershipReachable|].
  split; [vm_compute; reflexivity|].
  exact (joinRoom_then_leaveRoom_restores 2%Z "r2" carol exampleRooms
           ltac:(exact exampleRooms_MembershipReachable)
           ltac:(vm_compute; reflexivity)).
Defined.

Lemma bound_socket_is_listed_witness :
  (ConnReachable (connectionManager exampleWorld)) /\
  (ConnectionManager.getUserBySocket "s1"
     (connectionManager exampleWorld) =
   Some "s1") /\
  ("s1"
   ∈ ConnectionManager.getConnectionsByUser "s1"
       (connectionManager exampleWorld)).
Proof.
  split; [exact (ConnReachable_add _ _ _ (ConnReachable_add _ _ _ ConnReachable_init))|].
  split; [vm_compute; reflexivity|].
  exact (bound_socket_is_listed (connectionManager exampleWorld) "s1" "s1"
           ltac:(exact (ConnReachable_add _ _ _ (ConnReachable_add _ _ _ ConnReachable_init)))
           ltac:(vm_compute; reflexivity)).
Defined.

Lemma addConnection_then_removeConnection_restores_witness :
  ("u3" ≠ "") /\
  (ConnectionManager.getUserBySocket "s3" ConnectionManager.init = None) /\
  ("s3"
   ∉ ConnectionManager.getConnectionsByUser "u3"
       ConnectionManager.init) /\
  (let st' :=
     ConnectionManager.removeConnection "s3"
       (ConnectionManager.addConnection "s3" "u3"
          ConnectionManager.init)
     in
   ConnectionManager.socketToUser st' =
   ConnectionManager.socketToUser ConnectionManager.init
   ∧ (∀ userId' : string,
        ConnectionManager.getConnectionsByUser userId' st' =
        ConnectionManager.getConnectionsByUser userId'
          ConnectionManager.init)
     ∧ (ConnectionManager.userToSockets ConnectionManager.init
        !! "u3" = None
        → ConnectionManager.userToSockets st' !! "u3" = None)).
Proof.
  split; [discriminate|].
  split; [vm_compute; reflexivity|].
  split; [vm_compute; intros H; inversion H|].
  exact (addConnection_then_removeConnection_restores ConnectionManager.init "s3" "u3"
           ltac:(discriminate)
           ltac:(vm_compute; reflexivity)
           ltac:(vm_compute; intros H; inversion H)).
Defined.

Lemma no_empty_bucket_is_stored_witness :
  (ReactionReachable exampleReactions) /\
  (ReactionManager.reactions exampleReactions !! "m1" =
   Some [("👍", [aliceThumb])]) /\
  ([("👍", [aliceThumb])] ≠ []
   ∧ NoDup (JsMap.keys [("👍", [aliceThumb])])
     ∧ ∀ (emoji : string) (l : list Reaction.t),
         (emoji, l) ∈ [("👍", [aliceThumb])]
         → l ≠ []
           ∧ Forall (λ r : Reaction.t, Reaction.emoji r = emoji) l).
Proof.
  split; [exact (ReactionReachable_add _ _ _ ReactionReachable_init)|].
  split; [vm_compute; reflexivity|].
  exact (no_empty_bucket_is_stored exampleReactions "m1" [("👍", [aliceThumb])]
           ltac:(exact (ReactionReachable_add _ _ _ ReactionReachable_init))
           ltac:(vm_compute; reflexivity)).
Defined.

Lemma hasUserReacted_iff_in_getReactions_witness :
  (ReactionReachable exampleReactions) /\
  (ReactionManager.hasUserReacted "m1" "s1" "👍" exampleReactions = true
   ↔ ∃ r : Reaction.t,
       r
       ∈ allReactions
           (ReactionManager.getReactions "m1" exampleReactions)
       ∧ Reaction.userId r = "s1" ∧ Reaction.emoji r = "👍").
Proof.
  split; [exact (ReactionReachable_add _ _ _ ReactionReachable_init)|].
  exact (hasUserReacted_iff_in_getReactions exampleReactions "m1" "s1" "👍"
           ltac:(exact (ReactionReachable_add _ _ _ ReactionReachable_init))).
Defined.

Lemma addReaction_present_is_noop_witness :
  (ReactionManager.hasUserReacted "m1" (Reaction.userId aliceThumb)
            (Reaction.emoji aliceThumb) exampleReactions =
          true) /\
  (ReactionManager.addReaction "m1" aliceThumb exampleReactions =
   exampleReactions).
Proof.
  split; [vm_compute; reflexivity|].
  exact (addReaction_present_is_noop "m1" aliceThumb exampleReactions
           ltac:(vm_compute; reflexivity)).
Defined.

Lemma removeReaction_absent_is_noop_witness :
  (ReactionManager.hasUserReacted "m1" "s2" "👍" exampleReactions = false) /\
  (ReactionManager.removeReaction "m1" "s2" "👍" exampleReactions =
   exampleReactions).
Proof.
  split; [vm_compute; reflexivity|].
  exact (removeReaction_absent_is_noop "m1" "s2" "👍" exampleReactions
           ltac:(vm_compute; reflexivity)).
Defined.

Lemma hasUserReacted_after_mutation_witness :
  (ReactionReachable exampleReactions) /\
  (ReactionManager.hasUserReacted "m1" "s2" "👍"
     (ReactionManager.addReaction "m1" bobThumb exampleReactions) =
   ReactionManager.hasUserReacted "m1" "s2" "👍" exampleReactions
   || ("m1" =? "m1") && (Reaction.emoji bobThumb =? "👍") &&
      (Reaction.userId bobThumb =? "s2")
   ∧ ReactionManager.hasUserReacted "m1" "s2" "👍"
       (ReactionManager.removeReaction "m1" "s1" "👍" exampleReactions) =
     ReactionManager.hasUserReacted "m1" "s2" "👍" exampleReactions &&
     negb (("m1" =? "m1") && ("👍" =? "👍") && ("s1" =? "s2"))).
Proof.
  split; [exact (ReactionReachable_add _ _ _ ReactionReachable_init)|].
  exact (hasUserReacted_after_mutation exampleReactions "m1" "s1" "👍" bobThumb "m1" "s2" "👍"
           ltac:(exact (ReactionReachable_add _ _ _ ReactionReachable_init))).
Defined.

Lemma buckets_keep_insertion_order_witness :
  (ReactionReachable exampleReactions) /\
  (bucketOf "m1" "👍"
     (ReactionManager.addReaction "m1" bobThumb exampleReactions) =
   (if ("m1" =? "m1") && (Reaction.emoji bobThumb =? "👍")
    then
     if
      ReactionManager.hasUserReacted "m1" (Reaction.userId bobThumb)
        (Reaction.emoji bobThumb) exampleReactions
     then bucketOf "m1" (Reaction.emoji bobThumb) exampleReactions
     else
      bucketOf "m1" (Reaction.emoji bobThumb) exampleReactions ++
      [bobThumb]
    else bucketOf "m1" "👍" exampleReactions)
   ∧ bucketOf "m1" "👍"
       (ReactionManager.removeReaction "m1" "s1" "👍" exampleReactions) =
     (if ("m1" =? "m1") && ("👍" =? "👍")
      then
       List.filter
         (λ r' : Reaction.t, negb (ReactionManager.sameUser "s1" r'))
         (bucketOf "m1" "👍" exampleReactions)
      else bucketOf "m1" "👍" exampleReactions)).
Proof.
  split; [exact (ReactionReachable_add _ _ _ ReactionReachable_init)|].
  exact (buckets_keep_insertion_order exampleReactions "m1" "s1" "👍" bobThumb "m1" "👍"
           ltac:(exact (ReactionReachable_add _ _ _ ReactionReachable_init))).
Defined.

Lemma emitToUser_reaches_user_connections_witness :
  (ConnReachable (connectionManager exampleWorld)) /\
  (io exampleWorld = Some []) /\
  (let w' :=
     WebSocketServer.emitToUser "s1" "notice"
       (TypingPayload "r1" "s2" "bob" true) exampleWorld
     in
   let socketIds :=
     ConnectionManager.getConnectionsByUser "s1"
       (connectionManager exampleWorld)
     in
   connectionManager w' = connectionManager exampleWorld
   ∧ roomManager w' = roomManager exampleWorld
     ∧ reactionManager w' = reactionManager exampleWorld
       ∧ io w' =
         Some
           ([] ++
            deliveries "notice" (TypingPayload "r1" "s2" "bob" true)
              socketIds)
         ∧ ∀ socketId : string,
             ConnectionManager.getUserBySocket socketId
               (connectionManager exampleWorld) =
             Some "s1"
             → {|
                 to := socketId;
                 eventName := "notice";
                 data := TypingPayload "r1" "s2" "bob" true
               |}
               ∈ deliveries "notice"
                   (TypingPayload "r1" "s2" "bob" true) socketIds).
Proof.
  split; [exact (ConnReachable_add _ _ _ (ConnReachable_add _ _ _ ConnReachable_init))|].
  split; [reflexivity|].
  exact (emitToUser_reaches_user_connections "s1" "notice" (TypingPayload "r1" "s2" "bob" true) exampleWorld []
           ltac:(exact (ConnReachable_add _ _ _ (ConnReachable_add _ _ _ ConnReachable_init)))
           ltac:(reflexivity)).
Defined.

Lemma handleDisconnect_clears_membership_witness :
  (RoomReachable (roomManager exampleWorld)) /\
  (let w' := WebSocketServer.handleDisconnect "s2" exampleWorld in
   RoomManager.getUserRooms "s2" (roomManager w') = []
   ∧ (∀ roomId : string,
        RoomManager.isUserInRoom roomId "s2" (roomManager w') = false)
     ∧ (∀ roomId socketId : string,
          socketId ≠ "s2"
          → RoomManager.isUserInRoom roomId socketId (roomManager w') =
            RoomManager.isUserInRoom roomId socketId
              (roomManager exampleWorld))
       ∧ RoomReachable (roomManager w')).
Proof.
  split; [exact exampleRooms_RoomReachable|].
  exact (handleDisconnect_clears_membership "s2" exampleWorld
           ltac:(exact exampleRooms_RoomReachable)).
Defined.

Lemma leave_room_handler_witness :
  (RoomReachable (roomManager exampleWorld)) /\
  (io exampleWorld = Some []) /\
  (let roomId := LeaveRoom.roomId {| LeaveRoom.roomId := "r1" |} in
   ∃ w' : World,
     LeaveRoomHandler.execute "s2" "leave:room"
       {| LeaveRoom.roomId := "r1" |} exampleWorld =
     (Normal (), w')
     ∧ roomManager w' =
       RoomManager.leaveRoom roomId "s2" (roomManager exampleWorld)
       ∧ connectionManager w' = connectionManager exampleWorld
         ∧ reactionManager w' = reactionManager exampleWorld
           ∧ RoomManager.isUserInRoom roomId "s2" (roomManager w') =
             false
             ∧ io w' =
               Some
                 ([] ++
                  userLeftDeliveries "s2" 
                    (roomManager exampleWorld) roomId)
               ∧ (∀ e : Emission,
                    e
                    ∈ userLeftDeliveries "s2"
                        (roomManager exampleWorld) roomId
                    → to e ≠ "s2")
                 ∧ (RoomManager.isUserInRoom roomId "s2"
                      (roomManager exampleWorld) =
                    false → io w' = Some [])).
Proof.
  split; [exact exampleRooms_RoomReachable|].
  split; [reflexivity|].
  exact (leave_room_handler "s2" "leave:room" {| LeaveRoom.roomId := "r1" |} exampleWorld []
           ltac:(exact exampleRooms_RoomReachable)
           ltac:(reflexivity)).
Defined.

Lemma join_room_handler_witness :
  (io exampleWorld = Some []) /\
  (let roomId :=
     JoinRoom.roomId
       {| JoinRoom.roomId := "r1"; JoinRoom.username := "carol" |}
     in
   let user :=
     {|
       RoomUser.socketId := "s3";
       RoomUser.userId := "s3";
       RoomUser.username :=
         JoinRoom.username
           {| JoinRoom.roomId := "r1"; JoinRoom.username := "carol" |};
       RoomUser.joinedAt := clock exampleWorld (ticks exampleWorld)
     |} in
   ∃ w' : World,
     JoinRoomHandler.execute "s3" "join:room"
       {| JoinRoom.roomId := "r1"; JoinRoom.username := "carol" |}
       exampleWorld =
     (Normal (), w')
     ∧ roomManager w' =
       RoomManager.joinRoom
         (clock exampleWorld (S (ticks exampleWorld))) roomId user
         (roomManager exampleWorld)
       ∧ connectionManager w' = connectionManager exampleWorld
         ∧ reactionManager w' = reactionManager exampleWorld
           ∧ RoomManager.isUserInRoom roomId "s3" (roomManager w') =
             true
             ∧ user ∈ RoomManager.getRoomUsers roomId (roomManager w')
               ∧ io w' =
                 Some
                   ([] ++
                    deliveries "room:user_joined"
                      (RosterPayload roomId
                         {|
                           UserRef.userId := "s3";
                           UserRef.username :=
                             JoinRoom.username
                               {|
                                 JoinRoom.roomId := "r1";
                                 JoinRoom.username := "carol"
                               |}
                         |}
                         (map UserRef.ofRoomUser
                            (RoomManager.getRoomUsers roomId
                               (roomManager w'))))
                      (map RoomUser.socketId
                         (RoomManager.getRoomUsers roomId
                            (roomManager w'))))).
Proof.
  split; [reflexivity|].
  exact (join_room_handler "s3" "join:room" {| JoinRoom.roomId := "r1"; JoinRoom.username := "carol" |} exampleWorld []
           ltac:(reflexivity)).
Defined.

Lemma reaction_handler_broadcast_witness :
  (RoomReachable (roomManager exampleWorld)) /\
  (ReactionReachable (reactionManager exampleWorld)) /\
  (io exampleWorld = Some []) /\
  (RoomManager.isUserInRoom
     (MessageReaction.roomId exampleReaction) "s1"
     (roomManager exampleWorld) =
   true) /\
  (let roomId := MessageReaction.roomId exampleReaction in
   let messageId := MessageReaction.messageId exampleReaction in
   let members :=
     RoomManager.getRoomUsers roomId (roomManager exampleWorld)
     in
   ∃ w' : World,
     MessageReactionHandler.execute "s1" "message:reaction"
       exampleReaction exampleWorld =
     (Normal (), w')
     ∧ roomManager w' = roomManager exampleWorld
       ∧ ReactionReachable (reactionManager w')
         ∧ "s1" ∈ map RoomUser.socketId members
           ∧ io w' =
             Some
               ([] ++
                deliveries "message:reaction_updated"
                  (ReactionsPayload messageId roomId
                     (map
                        (λ entry : string * list Reaction.t,
                           (entry.1,
                            map UserRef.ofReaction entry.2))
                        (ReactionManager.getReactions messageId
                           (reactionManager w'))))
                  (map RoomUser.socketId members))).
Proof.
  split; [exact exampleRooms_RoomReachable|].
  split; [exact ReactionReachable_init|].
  split; [reflexivity|].
  split; [vm_compute; reflexivity|].
  exact (reaction_handler_broadcast "s1" "message:reaction" exampleReaction exampleWorld []
           ltac:(exact exampleRooms_RoomReachable)
           ltac:(exact ReactionReachable_init)
           ltac:(reflexivity)
           ltac:(vm_compute; reflexivity)).
Defined.

Lemma connect_then_disconnect_restores_witness :
  ("s3" ≠ "") /\
  (ConnectionManager.getUserBySocket "s3"
     (connectionManager startedWorld) =
   None) /\
  ((∀ userId : string,
      "s3"
      ∉ ConnectionManager.getConnectionsByUser userId
          (connectionManager startedWorld))) /\
  (RoomManager.getUserRooms "s3" (roomManager startedWorld) = []) /\
  (let w' :=
     WebSocketServer.handleDisconnect "s3"
       (WebSocketServer.handleConnection "s3" None startedWorld)
     in
   ConnectionManager.socketToUser (connectionManager w') =
   ConnectionManager.socketToUser
     (connectionManager startedWorld)
   ∧ (∀ userId : string,
        ConnectionManager.getConnectionsByUser userId
          (connectionManager w') =
        ConnectionManager.getConnectionsByUser userId
          (connectionManager startedWorld))
     ∧ roomManager w' = roomManager startedWorld
       ∧ reactionManager w' = reactionManager startedWorld
         ∧ io w' = io startedWorld).
Proof.
  split; [discriminate|].
  split; [vm_compute; reflexivity|].
  split; [intros u; apply startedWorld_lists_nobody|].
  split; [vm_compute; reflexivity|].
  exact (connect_then_disconnect_restores "s3" None startedWorld
           ltac:(discriminate)
           ltac:(vm_compute; reflexivity)
           ltac:(intros u; apply startedWorld_lists_nobody)
           ltac:(vm_compute; reflexivity)).
Defined.

Lemma invalid_payload_is_rejected_witness :
  (schemaIssues exampleSchemas "chat:message" "" =
          Some [(["message"], "Required")]) /\
  (MessageRouter.route (Application.messageRouter exampleSchemas) "s1"
     "chat:message" "" exampleWorld =
   (Throw
      (ValidationError "Invalid data format"
         [(["message"], "Required")]),
    exampleWorld)
   ∧ SocketListeners.onAny (Application.messageRouter exampleSchemas)
       "s1" "chat:message" "" exampleWorld =
     (ValidationErrorReply "chat:message" "Dados inválidos"
        (getFormattedErrors [(["message"], "Required")]),
      exampleWorld)).
Proof.
  split; [vm_compute; reflexivity|].
  exact (invalid_payload_is_rejected exampleSchemas "s1" "chat:message" "" exampleWorld [(["message"], "Required")]
           ltac:(vm_compute; reflexivity)).
Defined.

Lemma ping_only_acknowledges_witness :
  (Application.PingSchema exampleSchemas "2024-01-15T10:30:00Z" =
          inr examplePing) /\
  (MessageRouter.route (Application.messageRouter exampleSchemas) "s1"
     "ping" "2024-01-15T10:30:00Z" exampleWorld =
   (Normal (), exampleWorld)
   ∧ (let answered :=
        SocketListeners.onAny
          (Application.messageRouter exampleSchemas) "s1" "ping"
          "2024-01-15T10:30:00Z" exampleWorld
        in
      answered.1 =
      MessageAck "ping" "success"
        (toISOString (clock exampleWorld (ticks exampleWorld)))
      ∧ connectionManager answered.2 = connectionManager exampleWorld
        ∧ roomManager answered.2 = roomManager exampleWorld
          ∧ reactionManager answered.2 = reactionManager exampleWorld
            ∧ io answered.2 = io exampleWorld)).
Proof.
  split; [vm_compute; reflexivity|].
  exact (ping_only_acknowledges exampleSchemas "s1" "2024-01-15T10:30:00Z" examplePing exampleWorld
           ltac:(vm_compute; reflexivity)).
Defined.

Lemma application_registers_six_events_witness :
  (~ "nope" ∈ registeredEvents) /\
  SocketListeners.onAny (Application.messageRouter exampleSchemas)
    "s1" "nope" "{}" exampleWorld =
  (ErrorReply "nope" ("No handler registered for event: " +:+ "nope"),
   exampleWorld).
Proof.
  assert (~ "nope" ∈ registeredEvents) as Hnot.
  { unfold registeredEvents. rewrite !elem_of_cons, elem_of_nil.
    intros [?|[?|[?|[?|[?|[?|[]]]]]]]; discriminate. }
  split; [exact Hnot|].
  exact (proj2 (application_registers_six_events exampleSchemas "s1" "nope" "{}"
                  exampleWorld) Hnot).
Defined.
